(** * tempest-exporter: the dual-source ingestion engine, embedded in Rocq

    A shallow embedding of the Go sources of the exporter:
    - the observation codec ([ParseObservation], [toFloat], [toInt64],
      [restObsToObservation], [deref]),
    - the derived metrics ([DewPoint], [FeelsLike]),
    - token redaction ([redactToken]),
    - the snapshot store and its export ([Collector], [Collect]),
    - the stream client ([readLoop], [connectAndRead], [Run]),
    - the polling fallback ([FetchObservation], [RunFallback]),
    - the descriptors ([Describe]), the readiness endpoint ([newMux]) and
      the start-up checks ([main]).

    Go's [float64] is Rocq's primitive binary64 [float]; [int64],
    [time.Duration] and [time.Time] readings are [Z] (nanoseconds for the
    last two); Go strings are [string]s of bytes.  What the Go standard
    library and the network do is not part of the repository: it enters the
    model through the class [GoLibrary] and through per-call scripts; the
    string functions, [utf8.ValidString] and the label check of
    [prometheus.MustNewConstMetric] are written out. *)

From Stdlib Require Import ZArith List Bool String Ascii Floats Lia.
From Stdlib Require Import DecimalString.
Import ListNotations.

Set Warnings "-inexact-float,-register-all".
#[local] Set Implicit Arguments.

(* ================================================================= *)
(** ** Results of fallible code *)

Inductive result (E A : Type) : Type :=
| Ok (a : A)
| Err (e : E).
Arguments Ok {E A} a.
Arguments Err {E A} e.

Definition is_ok {E A} (r : result E A) : bool :=
  match r with Ok _ => true | Err _ => false end.

Definition is_err {E A} (r : result E A) : bool := negb (is_ok r).

(* ================================================================= *)
(** ** float64 and int64 as Go has them *)

Definition MinInt64 : Z := - 2 ^ 63.
Definition MaxInt64 : Z := 2 ^ 63 - 1.

(** [math.NaN()], [math.IsNaN(f)] and [math.IsInf(f, 0)]. *)
Definition math_NaN : float := nan.
Definition math_IsNaN (f : float) : bool := is_nan f.
Definition math_IsInf (f : float) : bool := is_infinity f.

(** The untyped constants [math.MinInt64] and [math.MaxInt64] where Go
    converts them to [float64] (in a comparison with a [float64], or by
    [float64(math.MaxInt64)]): the nearest binary64 value. *)
Definition float64_MinInt64 : float := (-9223372036854775808)%float.
Definition float64_MaxInt64 : float := 9223372036854775807%float.

(** The integer a finite float truncates to (toward zero); [None] for NaN
    and the infinities. *)
Definition float64_trunc (f : float) : option Z :=
  match Prim2SF f with
  | S754_zero _ => Some 0%Z
  | S754_finite s m e =>
      let a := Z.shiftl (Zpos m) e in
      Some (if s then (- a)%Z else a)
  | S754_infinity _ => None
  | S754_nan => None
  end.

(** [float64(i)] for an [int64] [i]. *)
Definition float64_of_int64 (i : Z) : float :=
  if (i =? MinInt64)%Z then float64_MinInt64
  else if (i <? 0)%Z then (- of_uint63 (Uint63.of_Z (- i)))%float
  else of_uint63 (Uint63.of_Z i).

(* ================================================================= *)
(** ** JSON values as [encoding/json] decodes them into [any] *)

Inductive any : Type :=
| any_nil
| any_bool (b : bool)
| any_float64 (n : float)
| any_Number (n : string)          (* json.Number *)
| any_string (s : string)
| any_slice (l : list any)         (* []any *)
| any_map (m : list (string * any)). (* map[string]any *)

(** [WSMessage], [ObsSTMessage], [StrikeEvent], [PrecipEvent]. *)
Module WSMessage.
Record t := { Type_ : string }.
End WSMessage.

Module ObsSTMessage.
Record t := { Type_ : string; DeviceID : Z; Obs : list (list any) }.
End ObsSTMessage.

Module StrikeEvent.
Record t := { Type_ : string; DeviceID : Z; Evt : list any }.
End StrikeEvent.

Module PrecipEvent.
Record t := { Type_ : string; DeviceID : Z; Evt : list any }.
End PrecipEvent.

(** [restObs] and [restResponse]: every field is a [*float64]. *)
Module restObs.
Record t := {
  Timestamp : option float;
  WindLull : option float;
  WindAvg : option float;
  WindGust : option float;
  WindDirection : option float;
  StationPressure : option float;
  AirTemperature : option float;
  RelativeHumidity : option float;
  Illuminance : option float;
  UV : option float;
  SolarRadiation : option float;
  RainAccumulated : option float;
  PrecipitationType : option float;
  LightningStrikeAvgDist : option float;
  LightningStrikeCount : option float;
  Battery : option float;
  ReportInterval : option float
}.
End restObs.

Module restResponse.
Record t := { Obs : list restObs.t }.
End restResponse.

(* ================================================================= *)
(** ** The Go standard library, as far as the engine calls it *)

Class GoLibrary : Type := {
  (** [math.Log] and [math.Pow]. *)
  math_Log : float -> float;
  math_Pow : float -> float -> float;
  (** [json.Number.Float64] is [strconv.ParseFloat(s, 64)] and
      [json.Number.Int64] is [strconv.ParseInt(s, 10, 64)]; [None] is any
      error. *)
  strconv_ParseFloat : string -> option float;
  strconv_ParseInt : string -> option Z;
  (** [strconv.Atoi]: the number, or the text of its error. *)
  strconv_Atoi : string -> result string Z;
  (** The [%q] verb of [fmt] on a string. *)
  fmt_q : string -> string;
  (** The value of [int64(f)] when [f] truncates to no [int64]: Go leaves
      it to the implementation. *)
  int64_overflow : float -> Z;
  (** [json.Unmarshal] into each message type, and [json.Decoder.Decode]
      into a [restResponse]: the value, or the text of the error. *)
  json_Unmarshal_WSMessage : string -> result string WSMessage.t;
  json_Unmarshal_ObsSTMessage : string -> result string ObsSTMessage.t;
  json_Unmarshal_StrikeEvent : string -> result string StrikeEvent.t;
  json_Unmarshal_PrecipEvent : string -> result string PrecipEvent.t;
  json_Decode_restResponse : string -> result string restResponse.t
}.

(** [int64(f)] for a [float64] [f]. *)
Definition int64_of_float64 `{GoLibrary} (f : float) : Z :=
  match float64_trunc f with
  | Some z => if ((MinInt64 <=? z) && (z <=? MaxInt64))%Z then z
              else int64_overflow f
  | None => int64_overflow f
  end.

(* ================================================================= *)
(** ** ObservationCodec *)

Record Observation : Type := {
  Timestamp : Z;
  WindLull : float;
  WindAvg : float;
  WindGust : float;
  WindDirection : float;
  WindSampleInterval : float;
  StationPressure : float;
  AirTemperature : float;
  RelativeHumidity : float;
  Illuminance : float;
  UV : float;
  SolarRadiation : float;
  RainAccumulated : float;
  PrecipitationType : float;
  LightningStrikeAvgDist : float;
  LightningStrikeCount : float;
  Battery : float;
  ReportInterval : float
}.

(** [Observation{}]. *)
Definition Observation_zero : Observation :=
  {| Timestamp := 0; WindLull := 0; WindAvg := 0; WindGust := 0;
     WindDirection := 0; WindSampleInterval := 0; StationPressure := 0;
     AirTemperature := 0; RelativeHumidity := 0; Illuminance := 0; UV := 0;
     SolarRadiation := 0; RainAccumulated := 0; PrecipitationType := 0;
     LightningStrikeAvgDist := 0; LightningStrikeCount := 0; Battery := 0;
     ReportInterval := 0 |}.

(** The assignment [obs.Timestamp = ts]. *)
Definition set_Timestamp (obs : Observation) (ts : Z) : Observation :=
  {| Timestamp := ts;
     WindLull := WindLull obs;
     WindAvg := WindAvg obs;
     WindGust := WindGust obs;
     WindDirection := WindDirection obs;
     WindSampleInterval := WindSampleInterval obs;
     StationPressure := StationPressure obs;
     AirTemperature := AirTemperature obs;
     RelativeHumidity := RelativeHumidity obs;
     Illuminance := Illuminance obs;
     UV := UV obs;
     SolarRadiation := SolarRadiation obs;
     RainAccumulated := RainAccumulated obs;
     PrecipitationType := PrecipitationType obs;
     LightningStrikeAvgDist := LightningStrikeAvgDist obs;
     LightningStrikeCount := LightningStrikeCount obs;
     Battery := Battery obs;
     ReportInterval := ReportInterval obs |}.

Definition obsSTFieldCount : nat := 18.

(** The errors of [toInt64] and [ParseObservation], by the message each
    [fmt.Errorf] builds. *)
Inductive timestamp_error : Type :=
| nil_timestamp                                  (* "nil timestamp" *)
| timestamp_out_of_int64_range (n : float)       (* "timestamp out of int64 range: %v" *)
| invalid_timestamp_number (n : string)          (* "invalid timestamp number: %w" *)
| invalid_timestamp_type.                        (* "invalid timestamp type" *)

Inductive parse_error : Type :=
| obs_st_array_too_short (got want : nat)        (* "obs_st array too short: got %d, want %d" *)
| parsing_timestamp (e : timestamp_error).       (* "parsing timestamp: %w" *)

Section Codec.
Context `{GoLibrary}.

Definition toFloat (v : any) : float :=
  match v with
  | any_nil => math_NaN
  | any_float64 n => n
  | any_Number n =>
      match strconv_ParseFloat n with
      | Some f => f
      | None => math_NaN
      end
  | _ => math_NaN
  end.

Definition toInt64 (v : any) : result timestamp_error Z :=
  match v with
  | any_nil => Err nil_timestamp
  | any_float64 n =>
      if (n <? float64_MinInt64)%float || (float64_MaxInt64 <? n)%float
         || math_IsNaN n || math_IsInf n
      then Err (timestamp_out_of_int64_range n)
      else Ok (int64_of_float64 n)
  | any_Number n =>
      match strconv_ParseInt n with
      | Some i => Ok i
      | None => Err (invalid_timestamp_number n)
      end
  | _ => Err invalid_timestamp_type
  end.

(** [raw[i]]; every use below follows the length check, so the index is
    in range. *)
Definition at_ (raw : list any) (i : nat) : any := nth i raw any_nil.

Definition ParseObservation (raw : list any) : result parse_error Observation :=
  if (List.length raw <? obsSTFieldCount)%nat
  then Err (obs_st_array_too_short (List.length raw) obsSTFieldCount)
  else
    match toInt64 (at_ raw 0) with
    | Err err => Err (parsing_timestamp err)
    | Ok ts =>
        Ok {| Timestamp := ts;
              WindLull := toFloat (at_ raw 1);
              WindAvg := toFloat (at_ raw 2);
              WindGust := toFloat (at_ raw 3);
              WindDirection := toFloat (at_ raw 4);
              WindSampleInterval := toFloat (at_ raw 5);
              StationPressure := toFloat (at_ raw 6);
              AirTemperature := toFloat (at_ raw 7);
              RelativeHumidity := toFloat (at_ raw 8);
              Illuminance := toFloat (at_ raw 9);
              UV := toFloat (at_ raw 10);
              SolarRadiation := toFloat (at_ raw 11);
              RainAccumulated := toFloat (at_ raw 12);
              PrecipitationType := toFloat (at_ raw 13);
              LightningStrikeAvgDist := toFloat (at_ raw 14);
              LightningStrikeCount := toFloat (at_ raw 15);
              Battery := toFloat (at_ raw 16);
              ReportInterval := toFloat (at_ raw 17) |}
    end.

Definition deref (p : option float) : float :=
  match p with
  | None => 0%float
  | Some v => v
  end.

Definition restObsToObservation (ro : restObs.t) : Observation :=
  let obs :=
    {| Timestamp := 0;
       WindLull := deref (restObs.WindLull ro);
       WindAvg := deref (restObs.WindAvg ro);
       WindGust := deref (restObs.WindGust ro);
       WindDirection := deref (restObs.WindDirection ro);
       WindSampleInterval := 0;
       StationPressure := deref (restObs.StationPressure ro);
       AirTemperature := deref (restObs.AirTemperature ro);
       RelativeHumidity := deref (restObs.RelativeHumidity ro);
       Illuminance := deref (restObs.Illuminance ro);
       UV := deref (restObs.UV ro);
       SolarRadiation := deref (restObs.SolarRadiation ro);
       RainAccumulated := deref (restObs.RainAccumulated ro);
       PrecipitationType := deref (restObs.PrecipitationType ro);
       LightningStrikeAvgDist := deref (restObs.LightningStrikeAvgDist ro);
       LightningStrikeCount := deref (restObs.LightningStrikeCount ro);
       Battery := deref (restObs.Battery ro);
       ReportInterval := deref (restObs.ReportInterval ro) |} in
  match restObs.Timestamp ro with
  | Some ts =>
      if (0 <=? ts)%float && (ts <=? float64_MaxInt64)%float
      then set_Timestamp obs (int64_of_float64 ts)
      else obs
  | None => obs
  end.

End Codec.

(* ================================================================= *)
(** ** DerivedMetrics *)

Section DerivedMetrics.
Context `{GoLibrary}.
Local Open Scope float_scope.

(** Go evaluates each operation in binary64, left to right, with the
    constants rounded to binary64 (no fused multiply-add, as on amd64). *)
Definition DewPoint (tempC humidityPct : float) : float :=
  if math_IsNaN tempC || math_IsNaN humidityPct || (humidityPct <=? 0)
  then math_NaN
  else
    let a := 17.27 in
    let b := 237.7 in
    let gamma := (a * tempC) / (b + tempC) + math_Log (humidityPct / 100.0) in
    (b * gamma) / (a - gamma).

Definition FeelsLike (tempC humidityPct windMps : float) : float :=
  if math_IsNaN tempC then math_NaN
  else
    let windKmh := windMps * 3.6 in
    if (tempC <? 10.0) && (4.8 <? windKmh) then
      let v16 := math_Pow windKmh 0.16 in
      13.12 + 0.6215 * tempC - 11.37 * v16 + 0.3965 * tempC * v16
    else if (27.0 <=? tempC) && (40.0 <=? humidityPct) then
      let tf := tempC * 1.8 + 32.0 in
      let rh := humidityPct in
      let hi := -42.379 +
                2.04901523 * tf +
                10.14333127 * rh -
                0.22475541 * tf * rh -
                0.00683783 * tf * tf -
                0.05481717 * rh * rh +
                0.00122874 * tf * tf * rh +
                0.00085282 * tf * rh * rh -
                0.00000199 * tf * tf * rh * rh in
      (hi - 32.0) / 1.8
    else tempC.

End DerivedMetrics.

(* ================================================================= *)
(** ** Token redaction *)

Local Open Scope string_scope.

(** [strings.Contains(s, substr)]. *)
Fixpoint strings_Contains (s substr : string) : bool :=
  prefix substr s ||
  match s with
  | EmptyString => false
  | String _ s' => strings_Contains s' substr
  end.

(** [strings.ReplaceAll(s, old, new)] for a non-empty [old]: the leftmost
    occurrences of [old], none overlapping another, each replaced by [new].
    [skip] counts the bytes of a matched [old] that are still to be dropped. *)
Fixpoint replace_from (old new : string) (skip : nat) (s : string) : string :=
  match s with
  | EmptyString => EmptyString
  | String c s' =>
      match skip with
      | S k => replace_from old new k s'
      | O =>
          if prefix old s
          then new ++ replace_from old new (String.length old - 1) s'
          else String c (replace_from old new 0 s')
      end
  end.

Definition strings_ReplaceAll (s old new : string) : string :=
  replace_from old new 0 s.

Definition redactToken (s token : string) : string :=
  if String.eqb token "" then s
  else strings_ReplaceAll s token "[REDACTED]".

(* ================================================================= *)
(** ** SnapshotStore: the collector *)

Record Collector : Type := {
  obs : Observation;
  hasObs : bool;
  connected : bool;
  reconnects : float;
  scrapeErrors : float;
  rainStart : float;
  stationID : string;
  stationName : string
}.

Definition NewCollector (stationID stationName : string) : Collector :=
  {| obs := Observation_zero; hasObs := false; connected := false;
     reconnects := 0; scrapeErrors := 0; rainStart := 0;
     stationID := stationID; stationName := stationName |}.

(** Each method takes the lock for the whole of its body, so it is one
    atomic step on the store. *)
Definition UpdateObservation (c : Collector) (o : Observation) : Collector :=
  {| obs := o; hasObs := true; connected := connected c;
     reconnects := reconnects c; scrapeErrors := scrapeErrors c;
     rainStart := rainStart c;
     stationID := stationID c; stationName := stationName c |}.

Definition SetConnected (c : Collector) (b : bool) : Collector :=
  {| obs := obs c; hasObs := hasObs c; connected := b;
     reconnects := reconnects c; scrapeErrors := scrapeErrors c;
     rainStart := rainStart c;
     stationID := stationID c; stationName := stationName c |}.

Definition IncrReconnects (c : Collector) : Collector :=
  {| obs := obs c; hasObs := hasObs c; connected := connected c;
     reconnects := (reconnects c + 1)%float; scrapeErrors := scrapeErrors c;
     rainStart := rainStart c;
     stationID := stationID c; stationName := stationName c |}.

Definition SetRainStart (c : Collector) (epoch : float) : Collector :=
  {| obs := obs c; hasObs := hasObs c; connected := connected c;
     reconnects := reconnects c; scrapeErrors := scrapeErrors c;
     rainStart := epoch;
     stationID := stationID c; stationName := stationName c |}.

Definition IncrScrapeErrors (c : Collector) : Collector :=
  {| obs := obs c; hasObs := hasObs c; connected := connected c;
     reconnects := reconnects c; scrapeErrors := (scrapeErrors c + 1)%float;
     rainStart := rainStart c;
     stationID := stationID c; stationName := stationName c |}.

Definition HasObservation (c : Collector) : bool := hasObs c.

Definition isConnected (c : Collector) : bool := connected c.

(** The metric descriptors. *)
Inductive Desc : Type :=
| descWindLull | descWindAvg | descWindGust | descWindDirection
| descStationPressure | descAirTemperature | descRelativeHumidity
| descIlluminance | descUV | descSolarRadiation | descRainAccumulated
| descPrecipitationType | descLightningStrikeAvgDist
| descLightningStrikeCount | descBattery
| descDewPoint | descFeelsLike
| descRainStartEpoch
| descUp | descReconnects | descLastObservation | descScrapeErrors.

Definition Desc_eqb (a b : Desc) : bool :=
  match a, b with
  | descWindLull, descWindLull | descWindAvg, descWindAvg
  | descWindGust, descWindGust | descWindDirection, descWindDirection
  | descStationPressure, descStationPressure
  | descAirTemperature, descAirTemperature
  | descRelativeHumidity, descRelativeHumidity
  | descIlluminance, descIlluminance | descUV, descUV
  | descSolarRadiation, descSolarRadiation
  | descRainAccumulated, descRainAccumulated
  | descPrecipitationType, descPrecipitationType
  | descLightningStrikeAvgDist, descLightningStrikeAvgDist
  | descLightningStrikeCount, descLightningStrikeCount
  | descBattery, descBattery | descDewPoint, descDewPoint
  | descFeelsLike, descFeelsLike | descRainStartEpoch, descRainStartEpoch
  | descUp, descUp | descReconnects, descReconnects
  | descLastObservation, descLastObservation
  | descScrapeErrors, descScrapeErrors => true
  | _, _ => false
  end.

Inductive ValueType : Type := CounterValue | GaugeValue.

(** A metric made by [prometheus.NewConstMetric]. *)
Record Metric : Type := {
  metric_desc : Desc;
  metric_type : ValueType;
  metric_value : float;
  metric_labels : list string
}.

(** [labels]: the label names every descriptor is created with. *)
Definition labels : list string := ["station_id"; "station_name"].

(** [utf8.ValidString].  After a lead byte, the number of bytes of the
    encoding and the range of its second byte (the table [first] and the
    [acceptRanges] of [unicode/utf8]); every later byte is a continuation
    byte, 0x80 to 0xBF. *)
Definition utf8_lead (x : nat) : option (nat * nat * nat) :=
  if ((194 <=? x) && (x <=? 223))%nat then Some (2, 128, 191)%nat       (* C2..DF *)
  else if (x =? 224)%nat then Some (3, 160, 191)%nat                    (* E0 *)
  else if ((225 <=? x) && (x <=? 236))%nat then Some (3, 128, 191)%nat  (* E1..EC *)
  else if (x =? 237)%nat then Some (3, 128, 159)%nat                    (* ED *)
  else if ((238 <=? x) && (x <=? 239))%nat then Some (3, 128, 191)%nat  (* EE..EF *)
  else if (x =? 240)%nat then Some (4, 144, 191)%nat                    (* F0 *)
  else if ((241 <=? x) && (x <=? 243))%nat then Some (4, 128, 191)%nat  (* F1..F3 *)
  else if (x =? 244)%nat then Some (4, 128, 143)%nat                    (* F4 *)
  else None.                                         (* 80..C1 and F5..FF *)

Definition utf8_between (lo hi : nat) (a : ascii) : bool :=
  ((lo <=? nat_of_ascii a) && (nat_of_ascii a <=? hi))%nat.

Fixpoint utf8_ValidString (s : string) : bool :=
  match s with
  | EmptyString => true
  | String a s1 =>
      if (nat_of_ascii a <? 128)%nat then utf8_ValidString s1
      else
        match utf8_lead (nat_of_ascii a), s1 with
        | Some (size, lo, hi), String b s2 =>
            utf8_between lo hi b
            && match size, s2 with
               | 2%nat, _ => utf8_ValidString s2
               | 3%nat, String c s3 =>
                   utf8_between 128 191 c && utf8_ValidString s3
               | _, String c (String d s4) =>
                   utf8_between 128 191 c && utf8_between 128 191 d
                   && utf8_ValidString s4
               | _, _ => false
               end
        | _, _ => false
        end
  end.

(** The panics of [prometheus.MustNewConstMetric]: the errors of
    [validateLabelValues].  (The descriptors are created without error
    and both value types are known, so [NewConstMetric] has no other
    error here.) *)
Inductive panic : Type :=
| inconsistent_label_cardinality (expected got : nat)
| label_value_not_valid_UTF8 (val : string).

(** [prometheus.MustNewConstMetric(desc, valueType, value, labelValues...)]:
    the metric, or the panic. *)
Definition MustNewConstMetric (desc : Desc) (valueType : ValueType)
  (value : float) (labelValues : list string) : result panic Metric :=
  if negb (List.length labelValues =? List.length labels)%nat
  then Err (inconsistent_label_cardinality (List.length labels)
              (List.length labelValues))
  else
    match find (fun val => negb (utf8_ValidString val)) labelValues with
    | Some val => Err (label_value_not_valid_UTF8 val)
    | None =>
        Ok {| metric_desc := desc; metric_type := valueType;
              metric_value := value; metric_labels := labelValues |}
    end.

(** The channel [ch] as the registry sees it: the metrics sent on it, in
    order, and the panic that ended [Collect], if one did. *)
Record channel : Type := {
  sent : list Metric;
  panicked : option panic
}.

(** [ch <- m]: a panic while [m] is made ends [Collect] before the send,
    and nothing runs after a panic. *)
Definition send (m : result panic Metric) (ch : channel) : channel :=
  match panicked ch with
  | Some _ => ch
  | None =>
      match m with
      | Ok metric => {| sent := sent ch ++ [metric]; panicked := None |}
      | Err p => {| sent := sent ch; panicked := Some p |}
      end
  end.

(** No statement (an [if] without [else]; the [return]). *)
Definition skip (ch : channel) : channel := ch.

Section Collect.
Context `{GoLibrary}.

Local Notation "s1 ;; s2" := (fun ch : channel => s2 (s1 ch))
  (at level 61, right associativity).

(** The closure [emitGauge] of [Collect]. *)
Definition emitGauge (lv : list string) (desc : Desc) (val : float)
  : channel -> channel :=
  if negb (math_IsNaN val)
  then send (MustNewConstMetric desc GaugeValue val lv)
  else skip.

(** [Collect], run on an empty channel. *)
Definition Collect (c : Collector) : channel :=
  let obs := obs c in
  let hasObs := hasObs c in
  let connected := connected c in
  let reconnects := reconnects c in
  let scrapeErrors := scrapeErrors c in
  let rainStart := rainStart c in
  let lv := [stationID c; stationName c] in
  let connVal := if connected then 1.0%float else 0.0%float in
  (send (MustNewConstMetric descUp GaugeValue connVal lv) ;;
   send (MustNewConstMetric descReconnects CounterValue reconnects lv) ;;
   send (MustNewConstMetric descScrapeErrors CounterValue scrapeErrors lv) ;;
   (if hasObs
    then send (MustNewConstMetric descLastObservation GaugeValue
                 (float64_of_int64 (Timestamp obs)) lv)
    else skip) ;;
   (if negb hasObs then skip
    else
      emitGauge lv descWindLull (WindLull obs) ;;
      emitGauge lv descWindAvg (WindAvg obs) ;;
      emitGauge lv descWindGust (WindGust obs) ;;
      emitGauge lv descWindDirection (WindDirection obs) ;;
      emitGauge lv descStationPressure (StationPressure obs) ;;
      emitGauge lv descAirTemperature (AirTemperature obs) ;;
      emitGauge lv descRelativeHumidity (RelativeHumidity obs) ;;
      emitGauge lv descIlluminance (Illuminance obs) ;;
      emitGauge lv descUV (UV obs) ;;
      emitGauge lv descSolarRadiation (SolarRadiation obs) ;;
      emitGauge lv descRainAccumulated (RainAccumulated obs) ;;
      emitGauge lv descPrecipitationType (PrecipitationType obs) ;;
      emitGauge lv descLightningStrikeAvgDist (LightningStrikeAvgDist obs) ;;
      emitGauge lv descLightningStrikeCount (LightningStrikeCount obs) ;;
      emitGauge lv descBattery (Battery obs) ;;
      (let dp := DewPoint (AirTemperature obs) (RelativeHumidity obs) in
       emitGauge lv descDewPoint dp) ;;
      (let fl := FeelsLike (AirTemperature obs) (RelativeHumidity obs)
                   (WindAvg obs) in
       emitGauge lv descFeelsLike fl) ;;
      (if (0 <? rainStart)%float
       then emitGauge lv descRainStartEpoch rainStart
       else skip)))
    {| sent := []; panicked := None |}.

End Collect.

(* ================================================================= *)
(** ** SnapshotStore: the descriptors announced to the registry *)

(** The fully-qualified name given to [prometheus.NewDesc] for each
    descriptor. *)
Definition fqName (d : Desc) : string :=
  match d with
  | descWindLull => "tempest_wind_lull_meters_per_second"
  | descWindAvg => "tempest_wind_speed_meters_per_second"
  | descWindGust => "tempest_wind_gust_meters_per_second"
  | descWindDirection => "tempest_wind_direction_degrees"
  | descStationPressure => "tempest_station_pressure_millibars"
  | descAirTemperature => "tempest_air_temperature_celsius"
  | descRelativeHumidity => "tempest_relative_humidity_percent"
  | descIlluminance => "tempest_illuminance_lux"
  | descUV => "tempest_uv_index"
  | descSolarRadiation => "tempest_solar_radiation_watts"
  | descRainAccumulated => "tempest_precipitation_millimeters"
  | descPrecipitationType => "tempest_precipitation_type"
  | descLightningStrikeAvgDist => "tempest_lightning_strike_distance_kilometers"
  | descLightningStrikeCount => "tempest_lightning_strike_count"
  | descBattery => "tempest_battery_volts"
  | descDewPoint => "tempest_dew_point_celsius"
  | descFeelsLike => "tempest_feels_like_temperature_celsius"
  | descRainStartEpoch => "tempest_rain_start_epoch_seconds"
  | descUp => "tempest_up"
  | descReconnects => "tempest_websocket_reconnects_total"
  | descLastObservation => "tempest_last_observation_timestamp_seconds"
  | descScrapeErrors => "tempest_scrape_errors_total"
  end.

Definition allDescs : list Desc :=
  [ descWindLull; descWindAvg; descWindGust; descWindDirection;
    descStationPressure; descAirTemperature;
    descRelativeHumidity; descIlluminance; descUV; descSolarRadiation;
    descRainAccumulated; descPrecipitationType; descLightningStrikeAvgDist;
    descLightningStrikeCount; descBattery;
    descDewPoint; descFeelsLike; descRainStartEpoch;
    descUp; descReconnects; descLastObservation; descScrapeErrors ].

(** [Describe]: the descriptors sent on the channel, in order. *)
Definition Describe (c : Collector) : list Desc := allDescs.

(* ================================================================= *)
(** ** Logging and time *)

(** The records written through [slog], by call site. *)
Inductive log_entry : Type :=
| Warn_websocket_disconnected (error : string) (reconnect_in : Z)
| Info_websocket_connected (device_id : string)
| Warn_ignoring_unparseable_message (error : string) (total_parse_errors : Z)
| Info_received_control_message (type_ : string)
| Warn_ignoring_unknown_message_type (type_ : string)
| Error_parsing_obs_st (error : string)
| Warn_obs_st_with_empty_obs_array
| Error_parsing_observation (error : parse_error)
| Info_observation_updated (air_temp_c humidity_pct wind_mps pressure_mb : float)
| Error_parsing_evt_strike (error : string)
| Info_lightning_strike_detected (distance_km energy : float)
| Error_parsing_evt_precip (error : string)
| Info_rain_start_event (epoch : float)
| Warn_REST_fallback_activated
| Error_REST_fallback (error : string)
| Info_REST_fallback_observation_updated (air_temp_c : float).

(** [time.Duration]: nanoseconds in an [int64]. *)
Definition Nanosecond : Z := 1.
Definition Second : Z := 1000000000.
Definition Minute : Z := 60 * Second.

(** Arithmetic on [int64] wraps around. *)
Definition wrap64 (z : Z) : Z := ((z + 2 ^ 63) mod 2 ^ 64 - 2 ^ 63)%Z.

(* ================================================================= *)
(** ** StreamConnector: the WebSocket client *)

Module Client.
(** The fields of [Client] that never change after [NewClient]. *)
Record t := { token : string; deviceID : string; wsURL : string }.

(** What the client's goroutine mutates: the collector behind
    [c.collector], the counter [c.parseErrors], and the log. *)
Record state := {
  collector : Collector;
  parseErrors : Z;
  slog : list log_entry
}.
End Client.

Definition defaultWSURL : string := "wss://ws.weatherflow.com/swd/data".

Definition NewClient (token deviceID : string) : Client.t :=
  {| Client.token := token; Client.deviceID := deviceID;
     Client.wsURL := defaultWSURL |}.

(** One connection, as the network plays it: the error of
    [websocket.Dial] for the URL (if any), the error of [conn.Write] (if
    any), the messages [conn.Read] delivers, and the error of the read that
    ends the session (a transport error, the read timeout, or the
    cancellation of the context). *)
Record connection : Type := {
  dial : string -> option string;
  write : option string;
  messages : list string;
  read_error : string
}.

Section StreamConnector.
Context `{GoLibrary}.
Variable c : Client.t.

Definition log (e : log_entry) (st : Client.state) : Client.state :=
  {| Client.collector := Client.collector st;
     Client.parseErrors := Client.parseErrors st;
     Client.slog := Client.slog st ++ [e] |}.

Definition with_collector (f : Collector -> Collector) (st : Client.state)
  : Client.state :=
  {| Client.collector := f (Client.collector st);
     Client.parseErrors := Client.parseErrors st;
     Client.slog := Client.slog st |}.

Definition store_parseErrors (n : Z) (st : Client.state) : Client.state :=
  {| Client.collector := Client.collector st;
     Client.parseErrors := n;
     Client.slog := Client.slog st |}.

Definition handleObsST (data : string) (st : Client.state) : Client.state :=
  match json_Unmarshal_ObsSTMessage data with
  | Err err => log (Error_parsing_obs_st err) st
  | Ok msg =>
      match ObsSTMessage.Obs msg with
      | [] => log Warn_obs_st_with_empty_obs_array st
      | obs0 :: _ =>
          match ParseObservation obs0 with
          | Err err => log (Error_parsing_observation err) st
          | Ok obs =>
              log (Info_observation_updated
                     (AirTemperature obs) (RelativeHumidity obs)
                     (WindAvg obs) (StationPressure obs))
                  (with_collector (fun k => UpdateObservation k obs) st)
          end
      end
  end.

Definition handleStrike (data : string) (st : Client.state) : Client.state :=
  match json_Unmarshal_StrikeEvent data with
  | Err err => log (Error_parsing_evt_strike err) st
  | Ok msg =>
      let evt := StrikeEvent.Evt msg in
      if (3 <=? List.length evt)%nat then
        let dist := toFloat (at_ evt 1) in
        let energy := toFloat (at_ evt 2) in
        if negb (math_IsNaN dist)
        then log (Info_lightning_strike_detected dist energy) st
        else st
      else st
  end.

Definition handlePrecip (data : string) (st : Client.state) : Client.state :=
  match json_Unmarshal_PrecipEvent data with
  | Err err => log (Error_parsing_evt_precip err) st
  | Ok msg =>
      let evt := PrecipEvent.Evt msg in
      if (1 <=? List.length evt)%nat then
        let epoch := toFloat (at_ evt 0) in
        if negb (math_IsNaN epoch)
        then log (Info_rain_start_event epoch)
                 (with_collector (fun k => SetRainStart k epoch) st)
        else st
      else st
  end.

(** The body of [readLoop] for one message that [conn.Read] delivered. *)
Definition readLoop_message (data : string) (st : Client.state) : Client.state :=
  match json_Unmarshal_WSMessage data with
  | Err err =>
      let count := wrap64 (Client.parseErrors st + 1) in
      let st := store_parseErrors count st in
      if (count =? 1)%Z || (Z.rem count 100 =? 0)%Z
      then log (Warn_ignoring_unparseable_message err count) st
      else st
  | Ok envelope =>
      let ty := WSMessage.Type_ envelope in
      if String.eqb ty "obs_st" then handleObsST data st
      else if String.eqb ty "evt_strike" then handleStrike data st
      else if String.eqb ty "evt_precip" then handlePrecip data st
      else if String.eqb ty "ack" || String.eqb ty "connection_opened"
      then log (Info_received_control_message ty) st
      else log (Warn_ignoring_unknown_message_type ty) st
  end.

(** [readLoop]: the loop handles the messages read, one after the other,
    and returns the error of the read that fails. *)
Fixpoint readLoop (msgs : list string) (read_err : string) (st : Client.state)
  : string * Client.state :=
  match msgs with
  | [] => ("read: " ++ redactToken read_err (Client.token c), st)
  | data :: rest => readLoop rest read_err (readLoop_message data st)
  end.

(** [connectAndRead].  [json.Marshal] of the [listen_start] map (two
    strings and an [int]) has no error, so that branch is left out. *)
Definition connectAndRead (conn : connection) (st : Client.state)
  : string * Client.state :=
  let url := Client.wsURL c ++ "?token=" ++ Client.token c in
  match dial conn url with
  | Some err =>
      ("websocket dial failed: " ++ redactToken err (Client.token c), st)
  | None =>
      match strconv_Atoi (Client.deviceID c) with
      | Err err =>
          ("invalid device_id " ++ fmt_q (Client.deviceID c) ++ ": " ++ err, st)
      | Ok deviceIDNum =>
          match write conn with
          | Some err =>
              ("send listen_start: " ++ redactToken err (Client.token c), st)
          | None =>
              let st := with_collector (fun k => SetConnected k true) st in
              let st := log (Info_websocket_connected (Client.deviceID c)) st in
              let st := store_parseErrors 0 st in
              readLoop (messages conn) (read_error conn) st
          end
      end
  end.

(** One turn of the loop of [Run]: the connection, the reading
    [time.Since(start)] after it ended, whether the context is cancelled
    by then ([ctx.Err() != nil]), and whether it is cancelled during the
    backoff wait ([ctx.Done()] before [time.After(backoff)]). *)
Record cycle : Type := {
  conn : connection;
  since_start : Z;
  ctx_err : bool;
  ctx_done : bool
}.

Definition maxBackoff : Z := 60 * Second.

Inductive cycle_end : Type :=
| returned                       (* [Run] returns *)
| waited (wait next_backoff : Z). (* slept [wait]; loops with [next_backoff] *)

(** The body of the [for] loop of [Run]. *)
Definition Run_cycle (backoff : Z) (cy : cycle) (st : Client.state)
  : cycle_end * Client.state :=
  let (err, st) := connectAndRead (conn cy) st in
  if ctx_err cy then (returned, st)
  else
    let st := with_collector (fun k => SetConnected k false) st in
    let st := with_collector IncrReconnects st in
    let backoff := if (2 * Minute <? since_start cy)%Z then Second else backoff in
    let st := log (Warn_websocket_disconnected err backoff) st in
    if ctx_done cy then (returned, st)
    else
      let backoff' := wrap64 (backoff * 2) in
      let backoff' := if (maxBackoff <? backoff')%Z then maxBackoff else backoff' in
      (waited backoff backoff', st).

(** What a run of [Run] over a script of cycles leaves behind: the
    store, the waits it slept in full, and whether it returned or is
    about to start the next cycle with some backoff. *)
Record run : Type := {
  final : Client.state;
  waits : list Z;
  running : option Z
}.

Fixpoint Run_from (backoff : Z) (cycles : list cycle) (st : Client.state)
  (slept : list Z) : run :=
  match cycles with
  | [] => {| final := st; waits := slept; running := Some backoff |}
  | cy :: rest =>
      match Run_cycle backoff cy st with
      | (returned, st) => {| final := st; waits := slept; running := None |}
      | (waited w b, st) => Run_from b rest st (slept ++ [w])
      end
  end.

Definition Run (cycles : list cycle) (st : Client.state) : run :=
  Run_from Second cycles st [].

End StreamConnector.

(* ================================================================= *)
(** ** PollingFallback: the REST client *)

Module RESTClient.
Record t := { token : string; stationID : string; baseURL : string }.

(** What the fallback goroutine mutates: the collector behind
    [r.collector], its local [disconnectedSince], and the log. *)
Record state := {
  collector : Collector;
  disconnectedSince : option Z;
  slog : list log_entry
}.
End RESTClient.

Definition defaultBaseURL : string := "https://swd.weatherflow.com/swd/rest".
Definition maxResponseBytes : nat := 2 ^ 20.
Definition StatusOK : Z := 200.

Definition NewRESTClient (token stationID : string) : RESTClient.t :=
  {| RESTClient.token := token; RESTClient.stationID := stationID;
     RESTClient.baseURL := defaultBaseURL |}.

(** What a GET of a URL comes to: [http.NewRequestWithContext] fails,
    [httpClient.Do] fails, or a response with a status and a body. *)
Inductive http_result : Type :=
| NewRequest_error (err : string)
| Do_error (err : string)
| Response (StatusCode : Z) (Body : string).

(** The [%d] verb of [fmt]. *)
Definition fmt_d (n : Z) : string := NilZero.string_of_int (Z.to_int n).

(** One tick of the ticker: the connection flag the stream client last
    wrote to the store, the clock reading of this tick ([time.Now()] when
    the marker is set, [time.Since] when it is compared), and the answer of
    the network to a GET. *)
Record tick : Type := {
  stream_connected : bool;
  clock : Z;
  http : string -> http_result
}.

(** What the fallback did on a tick. *)
Inductive tick_action : Type :=
| cleared_marker
| recorded_marker
| below_threshold
| fetched (r : result string Observation).


Section PollingFallback.
Context `{GoLibrary}.
Variable r : RESTClient.t.

Definition FetchObservation (get : string -> http_result)
  : result string Observation :=
  let url := RESTClient.baseURL r ++ "/observations/station/"
             ++ RESTClient.stationID r ++ "?token=" ++ RESTClient.token r in
  match get url with
  | NewRequest_error err => Err ("creating request: " ++ err)
  | Do_error err =>
      Err ("fetching observations: " ++ redactToken err (RESTClient.token r))
  | Response status body =>
      if negb (status =? StatusOK)%Z
      then Err ("unexpected status " ++ fmt_d status ++ ": " ++ substring 0 512 body)
      else
        match json_Decode_restResponse (substring 0 maxResponseBytes body) with
        | Err err => Err ("decoding response: " ++ err)
        | Ok result =>
            match restResponse.Obs result with
            | [] => Err "no observations in response"
            | ro :: _ => Ok (restObsToObservation ro)
            end
        end
  end.

Definition rest_log (e : log_entry) (st : RESTClient.state) : RESTClient.state :=
  {| RESTClient.collector := RESTClient.collector st;
     RESTClient.disconnectedSince := RESTClient.disconnectedSince st;
     RESTClient.slog := RESTClient.slog st ++ [e] |}.

Definition set_disconnectedSince (m : option Z) (st : RESTClient.state)
  : RESTClient.state :=
  {| RESTClient.collector := RESTClient.collector st;
     RESTClient.disconnectedSince := m;
     RESTClient.slog := RESTClient.slog st |}.

Definition rest_with_collector (f : Collector -> Collector)
  (st : RESTClient.state) : RESTClient.state :=
  {| RESTClient.collector := f (RESTClient.collector st);
     RESTClient.disconnectedSince := RESTClient.disconnectedSince st;
     RESTClient.slog := RESTClient.slog st |}.

(** The [case <-ticker.C] branch of [RunFallback]. *)
Definition RunFallback_tick (disconnectThreshold : Z) (t : tick)
  (st : RESTClient.state) : tick_action * RESTClient.state :=
  let st := rest_with_collector (fun k => SetConnected k (stream_connected t)) st in
  if isConnected (RESTClient.collector st)
  then (cleared_marker, set_disconnectedSince None st)
  else
    let now := clock t in
    match RESTClient.disconnectedSince st with
    | None => (recorded_marker, set_disconnectedSince (Some now) st)
    | Some since =>
        if (clock t - since <? disconnectThreshold)%Z
        then (below_threshold, st)
        else
          let st := rest_log Warn_REST_fallback_activated st in
          match FetchObservation (http t) with
          | Err err =>
              (fetched (Err err), rest_log (Error_REST_fallback err) st)
          | Ok obs =>
              (fetched (Ok obs),
               rest_log (Info_REST_fallback_observation_updated (AirTemperature obs))
                 (rest_with_collector (fun k => UpdateObservation k obs) st))
          end
    end.

(** [RunFallback] over the ticks that fire before the context is
    cancelled: what it did on each, and the state it returns in. *)
Fixpoint RunFallback_from (disconnectThreshold : Z) (ticks : list tick)
  (st : RESTClient.state) : list tick_action * RESTClient.state :=
  match ticks with
  | [] => ([], st)
  | t :: rest =>
      let (a, st) := RunFallback_tick disconnectThreshold t st in
      let (acts, st) := RunFallback_from disconnectThreshold rest st in
      (a :: acts, st)
  end.


End PollingFallback.

(* ================================================================= *)
(** ** The HTTP endpoints and the start-up checks *)

Definition StatusServiceUnavailable : Z := 503.

(** What a handler writes: the status of [w.WriteHeader] and the bytes
    written to [w]. *)
Record reply : Type := {
  reply_status : Z;
  reply_body : string
}.

(** [fmt.Fprintln(w, s)] writes [s] and a newline. *)
Definition fmt_Fprintln (s : string) : string :=
  s ++ String "010"%char EmptyString.

(** The handlers [newMux] registers for [/healthz] and [/readyz]. *)
Definition healthz : reply :=
  {| reply_status := StatusOK; reply_body := fmt_Fprintln "ok" |}.

Definition readyz (collector : Collector) : reply :=
  if HasObservation collector
  then {| reply_status := StatusOK; reply_body := fmt_Fprintln "ready" |}
  else {| reply_status := StatusServiceUnavailable;
          reply_body := fmt_Fprintln "not ready: no observations received" |}.

(** The class [[a-zA-Z0-9_.\-]] of the pattern of [validStationName]. *)
Definition station_name_byte (a : ascii) : bool :=
  let n := nat_of_ascii a in
  ((97 <=? n) && (n <=? 122)      (* a-z *)
   || (65 <=? n) && (n <=? 90)    (* A-Z *)
   || (48 <=? n) && (n <=? 57)    (* 0-9 *)
   || (n =? 95) || (n =? 46) || (n =? 45))%nat.  (* _ . - *)

Fixpoint all_bytes (p : ascii -> bool) (s : string) : bool :=
  match s with
  | EmptyString => true
  | String a s' => p a && all_bytes p s'
  end.

(** [validStationName.MatchString(s)] for the pattern
    [^[a-zA-Z0-9_.\-]+$]: one byte of the class or more, from the start of
    the text to its end.  Every byte of the class is ASCII, so no
    multi-byte rune matches. *)
Definition validStationName (s : string) : bool :=
  negb (String.eqb s "") && all_bytes station_name_byte s.

(** The settings [main] starts the exporter with. *)
Module Settings.
Record t := {
  token : string;
  deviceID : string;
  stationID : string;
  stationName : string;
  listenAddr : string
}.
End Settings.

(** [main] up to the start of the goroutines: it exits with a status, or
    goes on to serve with the settings it read. *)
Inductive startup : Type :=
| os_Exit (code : Z)
| serve (s : Settings.t).

Section Main.
(** [os.Getenv], and the error of [net.SplitHostPort] (if any). *)
Variable os_Getenv : string -> string.
Variable net_SplitHostPort : string -> option string.

(** The checks of [main]; [showVersion] is the [-version] flag.  The log
    records are left out. *)
Definition main (showVersion : bool) : startup :=
  if showVersion then os_Exit 0
  else
    let token := os_Getenv "TEMPEST_TOKEN" in
    let deviceID := os_Getenv "TEMPEST_DEVICE_ID" in
    let stationID := os_Getenv "TEMPEST_STATION_ID" in
    if String.eqb token "" || String.eqb deviceID "" || String.eqb stationID ""
    then os_Exit 1
    else
      let stationName := os_Getenv "TEMPEST_STATION_NAME" in
      let stationName :=
        if String.eqb stationName "" then "tempest" else stationName in
      if negb (validStationName stationName) then os_Exit 1
      else
        let listenAddr := os_Getenv "LISTEN_ADDR" in
        let listenAddr :=
          if String.eqb listenAddr "" then ":8080" else listenAddr in
        match net_SplitHostPort listenAddr with
        | Some err => os_Exit 1
        | None =>
            serve {| Settings.token := token;
                     Settings.deviceID := deviceID;
                     Settings.stationID := stationID;
                     Settings.stationName := stationName;
                     Settings.listenAddr := listenAddr |}
        end.

End Main.

(** What [main] builds from the settings: the collector and the two
    clients, and the arguments it gives to [RunFallback]. *)
Definition main_collector (s : Settings.t) : Collector :=
  NewCollector (Settings.stationID s) (Settings.stationName s).

Definition main_wsClient (s : Settings.t) : Client.t :=
  NewClient (Settings.token s) (Settings.deviceID s).

Definition main_restClient (s : Settings.t) : RESTClient.t :=
  NewRESTClient (Settings.token s) (Settings.stationID s).

Definition main_disconnectThreshold : Z := 5 * Minute.
Definition main_pollInterval : Z := 60 * Second.

(* ================================================================= *)
(** ** The formulas as the specification words them *)

Section SpecifiedFormulas.
Context `{GoLibrary}.
Local Open Scope float_scope.

(** The wind-chill polynomial in the temperature and [windKmh^0.16]. *)
Definition wind_chill (tempC windKmh : float) : float :=
  13.12 + 0.6215 * tempC - 11.37 * math_Pow windKmh 0.16
  + 0.3965 * tempC * math_Pow windKmh 0.16.

(** The NOAA (Rothfusz) heat-index regression, in degrees Fahrenheit. *)
Definition heat_index_fahrenheit (tf rh : float) : float :=
  -42.379 + 2.04901523 * tf + 10.14333127 * rh - 0.22475541 * tf * rh
  - 0.00683783 * tf * tf - 0.05481717 * rh * rh + 0.00122874 * tf * tf * rh
  + 0.00085282 * tf * rh * rh - 0.00000199 * tf * tf * rh * rh.

(** The regression on a Celsius temperature, converted back to Celsius. *)
Definition heat_index (tempC rhPct : float) : float :=
  (heat_index_fahrenheit (tempC * 1.8 + 32.0) rhPct - 32.0) / 1.8.

(** The Magnus formula. *)
Definition magnus_gamma (tempC rhPct : float) : float :=
  (17.27 * tempC) / (237.7 + tempC) + math_Log (rhPct / 100.0).

Definition magnus (tempC rhPct : float) : float :=
  (237.7 * magnus_gamma tempC rhPct) / (17.27 - magnus_gamma tempC rhPct).

End SpecifiedFormulas.

(** The guard of [DewPoint]: an input is unknown, or the humidity is not
    positive. *)
Definition dew_point_unknown (tempC rhPct : float) : bool :=
  math_IsNaN tempC || math_IsNaN rhPct || (rhPct <=? 0)%float.

(** The Magnus formula at 22.5 degrees and 65 percent, as a function of the
    value [l] of the logarithm. *)
Definition magnus_22_5_65 (l : float) : float :=
  let gamma := ((17.27 * 22.5) / (237.7 + 22.5) + l)%float in
  ((237.7 * gamma) / (17.27 - gamma))%float.

(** The binary64 value nearest to the natural logarithm of 0.65, and the
    binary64 values at most [n] units in the last place away from [x]. *)
Definition ln_0_65 : float := (-0.43078291609245423)%float.

Fixpoint ulps_above (n : nat) (x : float) : list float :=
  match n with
  | O => []
  | S k => next_up x :: ulps_above k (next_up x)
  end.

Fixpoint ulps_below (n : nat) (x : float) : list float :=
  match n with
  | O => []
  | S k => next_down x :: ulps_below k (next_down x)
  end.

Definition within_ulps (n : nat) (x : float) : list float :=
  x :: ulps_above n x ++ ulps_below n x.

(** [math.Abs(x - y) <= tol]. *)
Definition within (tol x y : float) : bool := (abs (x - y) <=? tol)%float.

(* ================================================================= *)
(** ** Fixtures of the test suite, and a library to run the model on them *)

(** [validObsArray()] of the parser tests. *)
Definition validObsArray : list any :=
  [ any_float64 1700000000;  (* 0: timestamp *)
    any_float64 0.5;         (* 1: wind lull *)
    any_float64 1.2;         (* 2: wind avg *)
    any_float64 2.3;         (* 3: wind gust *)
    any_float64 180;         (* 4: wind direction *)
    any_float64 3;           (* 5: wind sample interval *)
    any_float64 1013.25;     (* 6: station pressure *)
    any_float64 22.5;        (* 7: air temperature *)
    any_float64 65.0;        (* 8: relative humidity *)
    any_float64 50000;       (* 9: illuminance *)
    any_float64 3.5;         (* 10: UV *)
    any_float64 300;         (* 11: solar radiation *)
    any_float64 0.1;         (* 12: rain accumulated *)
    any_float64 1;           (* 13: precipitation type *)
    any_float64 10;          (* 14: lightning strike avg distance *)
    any_float64 2;           (* 15: lightning strike count *)
    any_float64 2.65;        (* 16: battery *)
    any_float64 60 ].        (* 17: report interval *)

(** [raw[i] = v] on a copy of the frame. *)
Fixpoint set_slot (raw : list any) (i : nat) (v : any) : list any :=
  match raw, i with
  | [], _ => []
  | _ :: rest, O => v :: rest
  | x :: rest, S j => x :: set_slot rest j v
  end.

(** A [restObs] with no field present. *)
Definition restObs_empty : restObs.t :=
  {| restObs.Timestamp := None; restObs.WindLull := None;
     restObs.WindAvg := None; restObs.WindGust := None;
     restObs.WindDirection := None; restObs.StationPressure := None;
     restObs.AirTemperature := None; restObs.RelativeHumidity := None;
     restObs.Illuminance := None; restObs.UV := None;
     restObs.SolarRadiation := None; restObs.RainAccumulated := None;
     restObs.PrecipitationType := None;
     restObs.LightningStrikeAvgDist := None;
     restObs.LightningStrikeCount := None; restObs.Battery := None;
     restObs.ReportInterval := None |}.

(** A [restObs] with only its timestamp present. *)
Definition restObs_at (ts : float) : restObs.t :=
  {| restObs.Timestamp := Some ts; restObs.WindLull := None;
     restObs.WindAvg := None; restObs.WindGust := None;
     restObs.WindDirection := None; restObs.StationPressure := None;
     restObs.AirTemperature := None; restObs.RelativeHumidity := None;
     restObs.Illuminance := None; restObs.UV := None;
     restObs.SolarRadiation := None; restObs.RainAccumulated := None;
     restObs.PrecipitationType := None;
     restObs.LightningStrikeAvgDist := None;
     restObs.LightningStrikeCount := None; restObs.Battery := None;
     restObs.ReportInterval := None |}.

(** Decimal integers that fit an [int64], with an optional sign. *)
Fixpoint parse_digits (s : string) (acc : Z) : option Z :=
  match s with
  | EmptyString => Some acc
  | String ch s' =>
      let n := nat_of_ascii ch in
      if ((48 <=? n) && (n <=? 57))%nat
      then parse_digits s' (10 * acc + Z.of_nat (n - 48))%Z
      else None
  end.

Definition parse_int64 (s : string) : option Z :=
  let magnitude (digits : string) :=
    match digits with
    | EmptyString => None
    | _ => parse_digits digits 0
    end in
  let value :=
    match s with
    | String "-" digits => option_map Z.opp (magnitude digits)
    | String "+" digits => magnitude digits
    | _ => magnitude s
    end in
  match value with
  | Some z => if ((MinInt64 <=? z) && (z <=? MaxInt64))%Z then Some z else None
  | None => None
  end.

Definition dquote : string := String "034"%char EmptyString.

(** A stand-in for the Go library: integers are parsed, a message that
    starts with an opening brace decodes to an envelope whose type is the
    rest of the text, every observation message carries the fixture frame,
    the logarithm and the power are one-entry tables, and an out-of-range
    [int64(f)] is what amd64 gives. *)
Definition example_library : GoLibrary :=
  {| math_Log := fun _ => ln_0_65;
     math_Pow := fun _ _ => 1.6151%float;
     strconv_ParseFloat :=
       fun s => if String.eqb s "3.14" then Some 3.14%float else None;
     strconv_ParseInt := parse_int64;
     strconv_Atoi :=
       fun s => match parse_int64 s with
                | Some n => Ok n
                | None => Err ("strconv.Atoi: parsing " ++ dquote ++ s ++ dquote
                               ++ ": invalid syntax")
                end;
     fmt_q := fun s => dquote ++ s ++ dquote;
     int64_overflow := fun _ => MinInt64;
     json_Unmarshal_WSMessage :=
       fun data => match data with
                   | String "{" ty => Ok {| WSMessage.Type_ := ty |}
                   | _ => Err "invalid character"
                   end;
     json_Unmarshal_ObsSTMessage :=
       fun _ => Ok {| ObsSTMessage.Type_ := "obs_st";
                      ObsSTMessage.DeviceID := 12345;
                      ObsSTMessage.Obs := [validObsArray] |};
     json_Unmarshal_StrikeEvent :=
       fun _ => Ok {| StrikeEvent.Type_ := "evt_strike";
                      StrikeEvent.DeviceID := 12345;
                      StrikeEvent.Evt := [any_float64 1700000000;
                                          any_float64 27; any_float64 3848] |};
     json_Unmarshal_PrecipEvent :=
       fun _ => Ok {| PrecipEvent.Type_ := "evt_precip";
                      PrecipEvent.DeviceID := 12345;
                      PrecipEvent.Evt := [any_float64 1700000000] |};
     json_Decode_restResponse :=
       fun _ => Ok {| restResponse.Obs := [restObs_at 1700000000] |} |}.

(* ================================================================= *)
(** ** Tokens that redaction hides *)

Definition placeholder : string := "[REDACTED]".

(** The prefixes of the four error messages that carry a redacted text. *)
Definition redaction_prefixes : list string :=
  [ "websocket dial failed: "; "send listen_start: "; "read: ";
    "fetching observations: " ].

(** The byte [b] occurs in [s]. *)
Fixpoint has_byte (b : ascii) (s : string) : bool :=
  match s with
  | EmptyString => false
  | String a s' => Ascii.eqb b a || has_byte b s'
  end.

(** No byte of [s] occurs in [t]. *)
Fixpoint no_common_byte (s t : string) : bool :=
  match s with
  | EmptyString => true
  | String a s' => negb (has_byte a t) && no_common_byte s' t
  end.

(** A token that redaction hides in each of the four messages: it is not
    empty, its first byte is none of the placeholder, it holds no opening
    bracket (the first byte of the placeholder) and no space, and it
    occurs in none of the message prefixes. *)
Definition redactable (token : string) : bool :=
  match token with
  | EmptyString => false
  | String first _ =>
      negb (has_byte first placeholder)
      && negb (has_byte "[" token)
      && negb (has_byte " " token)
      && forallb (fun p => negb (strings_Contains p token)) redaction_prefixes
  end.

(** The last byte of a string. *)
Fixpoint last_byte (s : string) : option ascii :=
  match s with
  | EmptyString => None
  | String a EmptyString => Some a
  | String _ s' => last_byte s'
  end.

(* ================================================================= *)
(** ** What the codec is expected to decode *)

(** The seventeen float fields of an observation, in slot order (slots 1
    to 17). *)
Definition float_fields (o : Observation) : list float :=
  [ WindLull o; WindAvg o; WindGust o; WindDirection o; WindSampleInterval o;
    StationPressure o; AirTemperature o; RelativeHumidity o; Illuminance o;
    UV o; SolarRadiation o; RainAccumulated o; PrecipitationType o;
    LightningStrikeAvgDist o; LightningStrikeCount o; Battery o;
    ReportInterval o ].

(** A slot 0 that is no timestamp: null, a value that is no number, NaN, an
    infinity, a float whose integer part is below [MinInt64] or above
    [MaxInt64 + 1], or a [json.Number] that is no decimal [int64]. *)
Definition no_timestamp `{GoLibrary} (v : any) : Prop :=
  match v with
  | any_float64 n =>
      match float64_trunc n with
      | Some t => (t < MinInt64 \/ MaxInt64 + 1 < t)%Z
      | None => True
      end
  | any_Number n => strconv_ParseInt n = None
  | _ => True
  end.

(** A slot 0 that holds the [int64] [t]: a float whose integer part is
    [t], or a [json.Number] that reads [t]. *)
Definition timestamp_of `{GoLibrary} (v : any) (t : Z) : Prop :=
  match v with
  | any_float64 n =>
      float64_trunc n = Some t /\ (MinInt64 <= t <= MaxInt64)%Z
  | any_Number n => strconv_ParseInt n = Some t
  | _ => False
  end.

(* ================================================================= *)
(** ** What the export is expected to show *)

(** Both label values of the collector are valid UTF-8. *)
Definition valid_labels (c : Collector) : bool :=
  utf8_ValidString (stationID c) && utf8_ValidString (stationName c).

(** The gauge of a value that is known (not NaN), and nothing for one
    that is not. *)
Definition known_gauge (lv : list string) (desc : Desc) (val : float) : list Metric :=
  if negb (math_IsNaN val)
  then [ {| metric_desc := desc; metric_type := GaugeValue;
            metric_value := val; metric_labels := lv |} ]
  else [].

(** The metrics of a scrape in which no metric is refused, in order. *)
Definition scrape `{GoLibrary} (c : Collector) : list Metric :=
  let obs := obs c in
  let hasObs := hasObs c in
  let connected := connected c in
  let reconnects := reconnects c in
  let scrapeErrors := scrapeErrors c in
  let rainStart := rainStart c in
  let lv := [stationID c; stationName c] in
  let connVal := if connected then 1.0%float else 0.0%float in
  let health :=
    [ {| metric_desc := descUp; metric_type := GaugeValue;
         metric_value := connVal; metric_labels := lv |};
      {| metric_desc := descReconnects; metric_type := CounterValue;
         metric_value := reconnects; metric_labels := lv |};
      {| metric_desc := descScrapeErrors; metric_type := CounterValue;
         metric_value := scrapeErrors; metric_labels := lv |} ] in
  let last :=
    if hasObs
    then [ {| metric_desc := descLastObservation; metric_type := GaugeValue;
              metric_value := float64_of_int64 (Timestamp obs);
              metric_labels := lv |} ]
    else [] in
  if negb hasObs then health ++ last
  else
    health ++ last ++
    known_gauge lv descWindLull (WindLull obs) ++
    known_gauge lv descWindAvg (WindAvg obs) ++
    known_gauge lv descWindGust (WindGust obs) ++
    known_gauge lv descWindDirection (WindDirection obs) ++
    known_gauge lv descStationPressure (StationPressure obs) ++
    known_gauge lv descAirTemperature (AirTemperature obs) ++
    known_gauge lv descRelativeHumidity (RelativeHumidity obs) ++
    known_gauge lv descIlluminance (Illuminance obs) ++
    known_gauge lv descUV (UV obs) ++
    known_gauge lv descSolarRadiation (SolarRadiation obs) ++
    known_gauge lv descRainAccumulated (RainAccumulated obs) ++
    known_gauge lv descPrecipitationType (PrecipitationType obs) ++
    known_gauge lv descLightningStrikeAvgDist (LightningStrikeAvgDist obs) ++
    known_gauge lv descLightningStrikeCount (LightningStrikeCount obs) ++
    known_gauge lv descBattery (Battery obs) ++
    (let dp := DewPoint (AirTemperature obs) (RelativeHumidity obs) in
     known_gauge lv descDewPoint dp) ++
    (let fl := FeelsLike (AirTemperature obs) (RelativeHumidity obs) (WindAvg obs) in
     known_gauge lv descFeelsLike fl) ++
    (if (0 <? rainStart)%float
     then known_gauge lv descRainStartEpoch rainStart
     else []).

(** The three health metrics that every scrape carries. *)
Definition health_metrics (c : Collector) : list Metric :=
  let lv := [stationID c; stationName c] in
  [ {| metric_desc := descUp; metric_type := GaugeValue;
       metric_value := if connected c then 1.0%float else 0.0%float;
       metric_labels := lv |};
    {| metric_desc := descReconnects; metric_type := CounterValue;
       metric_value := reconnects c; metric_labels := lv |};
    {| metric_desc := descScrapeErrors; metric_type := CounterValue;
       metric_value := scrapeErrors c; metric_labels := lv |} ].

(** The stored or derived value behind each observation gauge; the health
    metrics and the last-observation timestamp are no such gauge. *)
Definition gauge_source `{GoLibrary} (c : Collector) (d : Desc) : option float :=
  let o := obs c in
  match d with
  | descWindLull => Some (WindLull o)
  | descWindAvg => Some (WindAvg o)
  | descWindGust => Some (WindGust o)
  | descWindDirection => Some (WindDirection o)
  | descStationPressure => Some (StationPressure o)
  | descAirTemperature => Some (AirTemperature o)
  | descRelativeHumidity => Some (RelativeHumidity o)
  | descIlluminance => Some (Illuminance o)
  | descUV => Some (UV o)
  | descSolarRadiation => Some (SolarRadiation o)
  | descRainAccumulated => Some (RainAccumulated o)
  | descPrecipitationType => Some (PrecipitationType o)
  | descLightningStrikeAvgDist => Some (LightningStrikeAvgDist o)
  | descLightningStrikeCount => Some (LightningStrikeCount o)
  | descBattery => Some (Battery o)
  | descDewPoint => Some (DewPoint (AirTemperature o) (RelativeHumidity o))
  | descFeelsLike =>
      Some (FeelsLike (AirTemperature o) (RelativeHumidity o) (WindAvg o))
  | descRainStartEpoch => Some (rainStart c)
  | descUp | descReconnects | descLastObservation | descScrapeErrors => None
  end.

Definition gauge (c : Collector) (d : Desc) (v : float) : Metric :=
  {| metric_desc := d; metric_type := GaugeValue; metric_value := v;
     metric_labels := [stationID c; stationName c] |}.

(** A collector that holds the fixture observation, with one field
    unknown, and a rain-start event. *)
Definition example_collector : Collector :=
  {| obs := {| Timestamp := 1700000000; WindLull := nan; WindAvg := 1.2;
               WindGust := 2.3; WindDirection := 180;
               WindSampleInterval := 3; StationPressure := 1013.25;
               AirTemperature := 22.5; RelativeHumidity := 65.0;
               Illuminance := 50000; UV := 3.5; SolarRadiation := 300;
               RainAccumulated := 0.1; PrecipitationType := 1;
               LightningStrikeAvgDist := 10; LightningStrikeCount := 2;
               Battery := 2.65; ReportInterval := 60 |};
     hasObs := true; connected := true; reconnects := 3; scrapeErrors := 0;
     rainStart := 1700000100; stationID := "12345";
     stationName := "backyard" |}.

(* ================================================================= *)
(** ** What the stream client is expected to do *)

(** The state after the read loop has handled the messages [msgs]. *)
Definition after_messages `{GoLibrary} (msgs : list string) (st : Client.state)
  : Client.state :=
  fold_left (fun st data => readLoop_message data st) msgs st.

(** Log-flood control: the first parse error is logged, and every
    hundredth. *)
Definition first_or_hundredth (count : Z) : bool :=
  ((count =? 1) || (count mod 100 =? 0))%Z.

(** The backoff after [k] quick failures in a row: 1, 2, 4, ... seconds,
    capped at 60. *)
Definition backoff_at (k : nat) : Z := (Z.min (2 ^ Z.of_nat k) 60 * Second)%Z.

(** A cycle that fails without cancellation. *)
Definition failure (cy : cycle) : Prop :=
  ctx_err cy = false /\ ctx_done cy = false.

(** A failure that ends two minutes at most after the start of its cycle
    ([time.Since(start)], which counts the dial), and one that ends
    later. *)
Definition quick_failure (cy : cycle) : Prop :=
  failure cy /\ (since_start cy <= 2 * Minute)%Z.

Definition late_failure (cy : cycle) : Prop :=
  failure cy /\ (2 * Minute < since_start cy)%Z.

(** A fresh client state on a fresh collector. *)
Definition example_state : Client.state :=
  {| Client.collector := NewCollector "12345" "backyard";
     Client.parseErrors := 0; Client.slog := [] |}.

(** A connection that is accepted and closed at once, as the server of
    [TestRun_BackoffIncreases] does, and one that delivers two unparseable
    messages and an observation, as in [TestReadLoop_UnparseableMessages]. *)
Definition closed_at_once : connection :=
  {| dial := fun _ => None; write := None; messages := [];
     read_error := "failed to get reader: EOF" |}.

Definition two_bad_messages : connection :=
  {| dial := fun _ => None; write := None;
     messages := ["not json at all"; "also {{{ invalid"; "{obs_st"];
     read_error := "failed to get reader: EOF" |}.

Definition quick_cycle : cycle :=
  {| conn := closed_at_once; since_start := 3 * 1000000;
     ctx_err := false; ctx_done := false |}.

Definition late_cycle : cycle :=
  {| conn := two_bad_messages; since_start := 5 * Minute;
     ctx_err := false; ctx_done := false |}.

(* ================================================================= *)
(** ** What the polling fallback is expected to do *)




(* ================================================================= *)
(** ** What reaches the export from each source *)

(** The slot of a stream frame behind each observation gauge. *)
Definition slot_of (d : Desc) : option nat :=
  match d with
  | descWindLull => Some 1%nat
  | descWindAvg => Some 2%nat
  | descWindGust => Some 3%nat
  | descWindDirection => Some 4%nat
  | descStationPressure => Some 6%nat
  | descAirTemperature => Some 7%nat
  | descRelativeHumidity => Some 8%nat
  | descIlluminance => Some 9%nat
  | descUV => Some 10%nat
  | descSolarRadiation => Some 11%nat
  | descRainAccumulated => Some 12%nat
  | descPrecipitationType => Some 13%nat
  | descLightningStrikeAvgDist => Some 14%nat
  | descLightningStrikeCount => Some 15%nat
  | descBattery => Some 16%nat
  | _ => None
  end.

(** The field of a poll response behind each observation gauge. *)
Definition restObs_field (ro : restObs.t) (d : Desc) : option (option float) :=
  match d with
  | descWindLull => Some (restObs.WindLull ro)
  | descWindAvg => Some (restObs.WindAvg ro)
  | descWindGust => Some (restObs.WindGust ro)
  | descWindDirection => Some (restObs.WindDirection ro)
  | descStationPressure => Some (restObs.StationPressure ro)
  | descAirTemperature => Some (restObs.AirTemperature ro)
  | descRelativeHumidity => Some (restObs.RelativeHumidity ro)
  | descIlluminance => Some (restObs.Illuminance ro)
  | descUV => Some (restObs.UV ro)
  | descSolarRadiation => Some (restObs.SolarRadiation ro)
  | descRainAccumulated => Some (restObs.RainAccumulated ro)
  | descPrecipitationType => Some (restObs.PrecipitationType ro)
  | descLightningStrikeAvgDist => Some (restObs.LightningStrikeAvgDist ro)
  | descLightningStrikeCount => Some (restObs.LightningStrikeCount ro)
  | descBattery => Some (restObs.Battery ro)
  | _ => None
  end.

(** The descriptors in the order in which [Collect] comes to them. *)
Definition Collect_order : list Desc :=
  [ descUp; descReconnects; descScrapeErrors; descLastObservation;
    descWindLull; descWindAvg; descWindGust; descWindDirection;
    descStationPressure; descAirTemperature; descRelativeHumidity;
    descIlluminance; descUV; descSolarRadiation; descRainAccumulated;
    descPrecipitationType; descLightningStrikeAvgDist;
    descLightningStrikeCount; descBattery; descDewPoint; descFeelsLike;
    descRainStartEpoch ].

(** Whether a scrape shows a metric for the descriptor: the health
    metrics always; the others once an observation is stored, a gauge only
    with a value that is not NaN, the rain start only when positive. *)
Definition exported `{GoLibrary} (c : Collector) (d : Desc) : bool :=
  match gauge_source c d with
  | Some v =>
      hasObs c && negb (math_IsNaN v)
      && match d with
         | descRainStartEpoch => (0 <? rainStart c)%float
         | _ => true
         end
  | None =>
      match d with
      | descLastObservation => hasObs c
      | _ => true
      end
  end.

(** Counters and gauges, as [Collect] types them. *)
Definition value_type (d : Desc) : ValueType :=
  match d with
  | descReconnects | descScrapeErrors => CounterValue
  | _ => GaugeValue
  end.

(* ================================================================= *)
(** ** What the engine is expected to leave in the store *)

(** A message whose envelope does not parse. *)
Definition unparseable `{GoLibrary} (data : string) : bool :=
  is_err (json_Unmarshal_WSMessage data).

(** The handshake of a connection succeeds: the dial, the conversion of
    the device id, and the write of [listen_start]. *)
Definition handshake `{GoLibrary} (c : Client.t) (k : connection) : bool :=
  match dial k (Client.wsURL c ++ "?token=" ++ Client.token c) with
  | Some _ => false
  | None =>
      is_ok (strconv_Atoi (Client.deviceID c))
      && match write k with Some _ => false | None => true end
  end.

(** The context is cancelled by the end of the cycle, or during its
    backoff wait. *)
Definition cancelled (cy : cycle) : bool := ctx_err cy || ctx_done cy.

(** An attempt that fails without a connected session (the handshake
    fails), but only after more than two minutes, as a dial that times
    out does; the context is not cancelled. *)
Definition slow_failed_attempt `{GoLibrary} (c : Client.t) (cy : cycle) : Prop :=
  failure cy /\ handshake c (conn cy) = false
  /\ (2 * Minute < since_start cy)%Z.

(** A dial that fails after 127 seconds, the time a TCP connect takes to
    time out. *)
Definition timed_out_dial : connection :=
  {| dial := fun _ => Some "dial tcp 203.0.113.7:443: connect: connection timed out";
     write := None; messages := []; read_error := "" |}.

Definition timed_out_cycle : cycle :=
  {| conn := timed_out_dial; since_start := 127 * Second;
     ctx_err := false; ctx_done := false |}.

(** The observation of the last fetch that succeeded. *)
Fixpoint last_fetched (acts : list tick_action) : option Observation :=
  match acts with
  | [] => None
  | a :: rest =>
      match last_fetched rest with
      | Some o => Some o
      | None => match a with fetched (Ok o) => Some o | _ => None end
      end
  end.

(** What one message of the stream can do to the store: nothing, a new
    observation, or a new rain start. *)
Inductive message_effect (k : Collector) : Collector -> Prop :=
| effect_none : message_effect k k
| effect_observation (o : Observation) : message_effect k (UpdateObservation k o)
| effect_rain_start (epoch : float) : message_effect k (SetRainStart k epoch).

(** The parts of the store behind the health metrics and the labels. *)
Definition health_and_labels (k : Collector)
  : bool * float * float * string * string :=
  (connected k, reconnects k, scrapeErrors k, stationID k, stationName k).

(** A fresh client state on a collector. *)
Definition fresh (k : Collector) : Client.state :=
  {| Client.collector := k; Client.parseErrors := 0; Client.slog := [] |}.

(* ================================================================= *)
(** ** Fixtures for the store and the start-up *)

(** The observation a frame decodes to with the stand-in library (the
    zero observation if it does not decode). *)
Definition decoded (raw : list any) : Observation :=
  match @ParseObservation example_library raw with
  | Ok o => o
  | Err _ => Observation_zero
  end.

(** A state in which the parse-error counter holds what an earlier
    connection left. *)
Definition state_after_41_errors : Client.state :=
  {| Client.collector := NewCollector "12345" "backyard";
     Client.parseErrors := 41; Client.slog := [] |}.

(** An environment that sets the three required variables and nothing
    else, with a given device id. *)
Definition example_env (deviceID : string) (name : string) : string :=
  if String.eqb name "TEMPEST_TOKEN" then "abc123secret"
  else if String.eqb name "TEMPEST_DEVICE_ID" then deviceID
  else if String.eqb name "TEMPEST_STATION_ID" then "99999"
  else "".

(** A [net.SplitHostPort] that accepts every address. *)
Definition any_address (addr : string) : option string := None.

(** [http.NewRequestWithContext] on a URL that does not parse for an
    invalid escape: the error of [url.Parse], which quotes the URL. *)
Definition bad_escape_request (url : string) : http_result :=
  NewRequest_error ("parse " ++ dquote ++ url ++ dquote
                    ++ ": invalid URL escape " ++ dquote ++ "%zz" ++ dquote).

(* ================================================================= *)
(** * Theorems *)

(* ================================================================= *)
(** ** DerivedMetrics *)

Section DerivedMetricsFacts.
Local Open Scope float_scope.

Lemma math_IsNaN_NaN : math_IsNaN math_NaN = true.
Proof. reflexivity. Qed.

(** Adding anything to minus infinity gives minus infinity or NaN. *)
Lemma add_neg_infinity (l : float) :
  neg_infinity + l = neg_infinity \/ neg_infinity + l = nan.
Proof.
  assert (E : Prim2SF (neg_infinity + l) = S754_infinity true
              \/ Prim2SF (neg_infinity + l) = S754_nan).
  { rewrite add_spec.
    change (Prim2SF neg_infinity) with (S754_infinity true).
    destruct (Prim2SF l) as [ s | s | | s m e ]; try destruct s; cbn; auto. }
  destruct E as [E | E]; [left | right];
    apply Prim2SF_inj; rewrite E; reflexivity.
Qed.

(** C5.  [FeelsLike] is NaN on a NaN temperature; otherwise, with
    [windKmh = windMps * 3.6], it is the wind-chill polynomial exactly on
    the branch [tempC < 10] and [windKmh > 4.8], else the heat-index
    regression (in Fahrenheit, converted back) exactly on the branch
    [tempC >= 27] and [rhPct >= 40], else [tempC] itself; and
    [FeelsLike(20.0, 50.0, 2.0) = 20.0]. *)
Theorem FeelsLike_tiers :
  forall (L : GoLibrary) (tempC rhPct windMps : float),
    let windKmh := windMps * 3.6 in
    let chill := (tempC <? 10.0) && (4.8 <? windKmh) in
    let heat := (27.0 <=? tempC) && (40.0 <=? rhPct) in
    (math_IsNaN tempC = true ->
       math_IsNaN (FeelsLike tempC rhPct windMps) = true)
    /\ (math_IsNaN tempC = false -> chill = true ->
          FeelsLike tempC rhPct windMps = wind_chill tempC windKmh)
    /\ (math_IsNaN tempC = false -> chill = false -> heat = true ->
          FeelsLike tempC rhPct windMps = heat_index tempC rhPct)
    /\ (math_IsNaN tempC = false -> chill = false -> heat = false ->
          FeelsLike tempC rhPct windMps = tempC)
    /\ FeelsLike 20.0 50.0 2.0 = 20.0.
Proof.
  intros L tempC rhPct windMps windKmh chill heat.
  subst windKmh chill heat. unfold FeelsLike.
  split; [| split; [| split; [| split]]].
  - intros ->. reflexivity.
  - intros -> ->. reflexivity.
  - intros -> -> ->. reflexivity.
  - intros -> -> ->. reflexivity.
  - reflexivity.
Qed.

(** The claim that [DewPoint] is NaN exactly under its guard fails: at
    -237.7 degrees the denominator [237.7 + tempC] is zero, and the
    formula gives NaN whatever [math.Log] returns. *)
Lemma DewPoint_NaN_outside_guard :
  exists tempC rhPct : float,
    dew_point_unknown tempC rhPct = false
    /\ forall L : GoLibrary, math_IsNaN (DewPoint tempC rhPct) = true.
Proof.
  exists (-237.7), 50.0. split; [reflexivity|].
  intros L. unfold DewPoint.
  change (math_IsNaN (-237.7) || math_IsNaN 50.0 || (50.0 <=? 0)) with false.
  cbv iota zeta.
  change (17.27 * -237.7 / (237.7 + -237.7)) with neg_infinity.
  destruct (add_neg_infinity (math_Log (50.0 / 100.0))) as [-> | ->];
    reflexivity.
Qed.

(** C6 (amended).  Under its guard (an input NaN, or [rhPct <= 0])
    [DewPoint] is NaN; outside the guard it is the value of the Magnus
    formula, which can be NaN too; and [DewPoint(22.5, 65.0)] is within
    0.1 of 15.6 for every [math.Log] whose value at 0.65 is at most 1024
    units in the last place away from the logarithm of 0.65. *)
Theorem DewPoint_magnus :
  forall (L : GoLibrary) (tempC rhPct : float),
    (dew_point_unknown tempC rhPct = true ->
       math_IsNaN (DewPoint tempC rhPct) = true)
    /\ (dew_point_unknown tempC rhPct = false ->
          DewPoint tempC rhPct = magnus tempC rhPct)
    /\ (In (math_Log (65.0 / 100.0)) (within_ulps 1024 ln_0_65) ->
          within 0.1 (DewPoint 22.5 65.0) 15.6 = true).
Proof.
  intros L tempC rhPct. unfold dew_point_unknown, DewPoint.
  split; [| split].
  - intros ->. reflexivity.
  - intros ->. reflexivity.
  - intros Hlog.
    assert (Hall : forallb (fun l => within 0.1 (magnus_22_5_65 l) 15.6)
                     (within_ulps 1024 ln_0_65) = true)
      by (vm_compute; reflexivity).
    rewrite forallb_forall in Hall.
    exact (Hall _ Hlog).
Qed.

End DerivedMetricsFacts.

(** The wind-chill tier, the heat-index tier and the plain tier are all
    taken: at (5, 50, 5.56), at (35, 60, 1) and at (20, 50, 2). *)
Lemma FeelsLike_tiers_witness :
  @FeelsLike example_library 5.0 50.0 5.56
  = @wind_chill example_library 5.0 (5.56 * 3.6)
  /\ within 0.5 (@FeelsLike example_library 5.0 50.0 5.56) 1.1 = true
  /\ @FeelsLike example_library 35.0 60.0 1.0
     = heat_index 35.0 60.0
  /\ (35.0 <? @FeelsLike example_library 35.0 60.0 1.0)%float = true
  /\ @FeelsLike example_library 20.0 50.0 2.0 = 20.0%float.
Proof.
  destruct (FeelsLike_tiers example_library 5.0 50.0 5.56) as (_ & A & _).
  destruct (FeelsLike_tiers example_library 35.0 60.0 1.0) as (_ & _ & B & _ & D).
  split; [| split; [| split; [| split]]].
  - apply A; reflexivity.
  - rewrite A by reflexivity. vm_compute. reflexivity.
  - apply B; reflexivity.
  - rewrite B by reflexivity. vm_compute. reflexivity.
  - exact D.
Defined.

(** With a logarithm that is right at 0.65, [DewPoint(22.5, 65.0)] is
    within 0.1 of 15.6; and [DewPoint(20, 0)] is NaN. *)
Lemma DewPoint_magnus_witness :
  In (@math_Log example_library (65.0 / 100.0)) (within_ulps 1024 ln_0_65)
  /\ within 0.1 (@DewPoint example_library 22.5 65.0) 15.6 = true
  /\ math_IsNaN (@DewPoint example_library 20 0) = true.
Proof.
  assert (H : In (@math_Log example_library (65.0 / 100.0))
                (within_ulps 1024 ln_0_65)) by (left; reflexivity).
  split; [exact H |]. split.
  - exact (proj2 (proj2 (DewPoint_magnus example_library 22.5 65.0)) H).
  - exact (proj1 (DewPoint_magnus example_library 20 0) eq_refl).
Defined.

(* ================================================================= *)
(** ** ObservationCodec *)

(** *** The range tests, read on the integer part of the float *)

(** A positive number of [d] binary digits lies between [2^(d-1)] and
    [2^d]. *)
Lemma digits2_pos_bounds (m : positive) :
  (2 ^ (Zpos (digits2_pos m) - 1) <= Zpos m < 2 ^ Zpos (digits2_pos m))%Z.
Proof.
  induction m as [p IH | p IH |]; cbn [digits2_pos].
  - rewrite Pos2Z.inj_succ.
    replace (Z.succ (Zpos (digits2_pos p)) - 1)%Z
      with (Z.succ (Zpos (digits2_pos p) - 1))%Z by lia.
    rewrite !Z.pow_succ_r by lia. lia.
  - rewrite Pos2Z.inj_succ.
    replace (Z.succ (Zpos (digits2_pos p)) - 1)%Z
      with (Z.succ (Zpos (digits2_pos p) - 1))%Z by lia.
    rewrite !Z.pow_succ_r by lia. lia.
  - cbn. lia.
Qed.

(** The mantissa of a binary64 float has at most 53 digits, and exactly 53
    above the least exponent. *)
Lemma valid_mantissa (m : positive) (e : Z) :
  bounded prec emax m e = true ->
  (Zpos m < 2 ^ 53 /\ (-1074 < e -> 2 ^ 52 <= Zpos m) /\ -1074 <= e <= 971)%Z.
Proof.
  unfold bounded, canonical_mantissa, fexp, SpecFloat.emin, prec, emax.
  intros [C B]%andb_prop. apply Z.eqb_eq in C. apply Z.leb_le in B.
  pose proof (digits2_pos_bounds m) as [Hlo Hhi].
  set (d := Zpos (digits2_pos m)) in *.
  assert (Hd : (d <= 53 /\ (-1074 < e -> d = 53))%Z) by lia.
  destruct Hd as [Hd53 Hd].
  split; [| split].
  - apply Z.lt_le_trans with (2 ^ d)%Z; [exact Hhi |].
    apply Z.pow_le_mono_r; lia.
  - intros He. rewrite (Hd He) in Hlo. exact Hlo.
  - lia.
Qed.

Lemma Prim2SF_float64_MinInt64 :
  Prim2SF float64_MinInt64 = S754_finite true 4503599627370496 11.
Proof. reflexivity. Qed.

Lemma Prim2SF_float64_MaxInt64 :
  Prim2SF float64_MaxInt64 = S754_finite false 4503599627370496 11.
Proof. reflexivity. Qed.

(** The integer part of a valid finite float, by the size of its exponent. *)
Lemma shiftl_mantissa (m : positive) (e : Z) :
  bounded prec emax m e = true ->
  let t := Z.shiftl (Zpos m) e in
  ((e < 11 -> 0 <= t < 2 ^ 63)
   /\ (e = 11 -> t = Zpos m * 2 ^ 11 /\ 2 ^ 52 <= Zpos m < 2 ^ 53)
   /\ (11 < e -> 2 ^ 64 <= t))%Z.
Proof.
  intros (Hm & Hnorm & He)%valid_mantissa t. subst t.
  split; [| split].
  - intros Hlt. destruct (Z.le_gt_cases 0 e) as [H0 | H0].
    + rewrite Z.shiftl_mul_pow2 by lia.
      assert (0 < 2 ^ e <= 2 ^ 10)%Z
        by (split; [apply Z.pow_pos_nonneg; lia | apply Z.pow_le_mono_r; lia]).
      change (2 ^ 63)%Z with (2 ^ 53 * 2 ^ 10)%Z. nia.
    + rewrite Z.shiftl_div_pow2 by lia.
      assert (0 < 2 ^ (- e))%Z by (apply Z.pow_pos_nonneg; lia).
      split; [apply Z.div_pos; lia |].
      apply Z.le_lt_trans with (Zpos m); [| lia].
      apply Z.div_le_upper_bound; [lia | nia].
  - intros ->. rewrite Z.shiftl_mul_pow2 by lia. split; [reflexivity | lia].
  - intros Hgt. rewrite Z.shiftl_mul_pow2 by lia.
    assert (2 ^ 12 <= 2 ^ e)%Z by (apply Z.pow_le_mono_r; lia).
    assert (2 ^ 52 <= Zpos m)%Z by (apply Hnorm; lia).
    change (2 ^ 64)%Z with (2 ^ 52 * 2 ^ 12)%Z. nia.
Qed.

Lemma SFeqb_finite_refl (s : bool) (m : positive) (e : Z) :
  SFeqb (S754_finite s m e) (S754_finite s m e) = true.
Proof.
  unfold SFeqb, SFcompare.
  destruct s; rewrite Z.compare_refl;
    change (Pos.compare_cont Eq m m) with (Pos.compare m m);
    rewrite Pos.compare_refl; reflexivity.
Qed.

Lemma Pos_compare_cont_Z (a b : positive) :
  Pos.compare_cont Eq a b = Z.compare (Zpos a) (Zpos b).
Proof. reflexivity. Qed.

Ltac range_inside :=
  symmetry; apply negb_false_iff; apply andb_true_iff; split;
  apply Z.leb_le; lia.

Ltac range_below :=
  symmetry; apply negb_true_iff; apply andb_false_iff; left;
  apply Z.leb_gt; lia.

Ltac range_above :=
  symmetry; apply negb_true_iff; apply andb_false_iff; right;
  apply Z.leb_gt; lia.

Ltac range_negative :=
  lazymatch goal with
  | |- false = _ => range_inside
  | |- true = _ => range_below
  end.

Ltac range_positive :=
  lazymatch goal with
  | |- false = _ => range_inside
  | |- true = _ => range_above
  end.

(** The range test of [toInt64], read on the integer part of the float:
    it rejects NaN, the infinities, and the floats whose integer part is
    below [MinInt64] or above [MaxInt64 + 1]. *)
Lemma toInt64_range_test (n : float) :
  ((n <? float64_MinInt64)%float || (float64_MaxInt64 <? n)%float
   || math_IsNaN n || math_IsInf n)
  = match float64_trunc n with
    | Some t => negb ((MinInt64 <=? t) && (t <=? MaxInt64 + 1))%Z
    | None => true
    end.
Proof.
  unfold math_IsNaN, math_IsInf, is_nan, is_infinity, float64_trunc.
  rewrite !ltb_spec, !eqb_spec, abs_spec,
    Prim2SF_float64_MinInt64, Prim2SF_float64_MaxInt64.
  change (Prim2SF infinity) with (S754_infinity false).
  pose proof (Prim2SF_valid n) as V.
  destruct (Prim2SF n) as [s | s | | s m e].
  - destruct s; reflexivity.
  - destruct s; reflexivity.
  - reflexivity.
  - rewrite SFeqb_finite_refl. cbn [valid_binary] in V.
    destruct (shiftl_mantissa m e V) as (Hlt & Heq & Hgt).
    cbv zeta in Hlt, Heq, Hgt. cbn [negb SFabs]. clear V.
    set (t := Z.shiftl (Zpos m) e) in *.
    change (SFeqb (S754_finite false m e) (S754_infinity false)) with false.
    rewrite !orb_false_r.
    unfold SFltb, SFcompare, MinInt64, MaxInt64.
    destruct s.
    + (* a negative float: only the lower bound can fail *)
      rewrite orb_false_r.
      rewrite Pos_compare_cont_Z.
      destruct (Z.compare_spec e 11) as [E | E | E]; cbv beta iota.
      * destruct (Heq E) as [Ht Hm]. clearbody t. subst t. clear Hlt Heq Hgt.
        destruct (Z.compare_spec (Zpos m) (Zpos 4503599627370496)) as [C | C | C];
          cbv beta iota delta [CompOpp]; range_negative.
      * specialize (Hlt E). clearbody t. clear Heq Hgt. range_negative.
      * specialize (Hgt E). clearbody t. clear Heq Hlt. range_negative.
    + (* a positive float: only the upper bound can fail *)
      rewrite orb_false_l.
      rewrite Pos_compare_cont_Z.
      rewrite (Z.compare_antisym e 11),
        (Z.compare_antisym (Zpos m) (Zpos 4503599627370496)).
      destruct (Z.compare_spec e 11) as [E | E | E];
        cbv beta iota delta [CompOpp].
      * destruct (Heq E) as [Ht Hm]. clearbody t. subst t. clear Hlt Heq Hgt.
        destruct (Z.compare_spec (Zpos m) (Zpos 4503599627370496)) as [C | C | C];
          cbv beta iota delta [CompOpp]; range_positive.
      * specialize (Hlt E). clearbody t. clear Heq Hgt. range_positive.
      * specialize (Hgt E). clearbody t. clear Heq Hlt. range_positive.
Qed.

Section RangeFacts.
Context {L : GoLibrary}.

(** [toInt64] on a float, read on its integer part [t]: [t] itself when it
    is an [int64]; an error when the float is NaN, infinite, or [t] is
    out of range, but for [t = MaxInt64 + 1], which passes the range
    test. *)
Lemma toInt64_float64 (n : float) :
  toInt64 (any_float64 n)
  = match float64_trunc n with
    | Some t =>
        if ((MinInt64 <=? t) && (t <=? MaxInt64))%Z then Ok t
        else if (t =? MaxInt64 + 1)%Z then Ok (int64_overflow n)
        else Err (timestamp_out_of_int64_range n)
    | None => Err (timestamp_out_of_int64_range n)
    end.
Proof.
  unfold toInt64, int64_of_float64. rewrite toInt64_range_test.
  destruct (float64_trunc n) as [t |]; [| reflexivity].
  unfold MinInt64, MaxInt64.
  destruct (Z.leb_spec (- 2 ^ 63) t), (Z.leb_spec t (2 ^ 63 - 1)),
    (Z.leb_spec t (2 ^ 63 - 1 + 1)), (Z.eqb_spec t (2 ^ 63 - 1 + 1));
    cbn [andb negb]; try reflexivity; lia.
Qed.

(** The range test of [restObsToObservation], read on the float. *)
Lemma restObs_range_test (ts : float) :
  ((0 <=? ts) && (ts <=? float64_MaxInt64))%float
  = match Prim2SF ts with
    | S754_zero _ => true
    | S754_finite false m e => (Z.shiftl (Zpos m) e <=? MaxInt64 + 1)%Z
    | _ => false
    end.
Proof.
  rewrite !leb_spec, Prim2SF_float64_MaxInt64.
  change (Prim2SF 0) with (S754_zero false).
  pose proof (Prim2SF_valid ts) as V.
  destruct (Prim2SF ts) as [s | s | | s m e].
  - destruct s; reflexivity.
  - destruct s; reflexivity.
  - reflexivity.
  - destruct s; [reflexivity |].
    cbn [valid_binary] in V.
    destruct (shiftl_mantissa m e V) as (Hlt & Heq & Hgt).
    cbv zeta in Hlt, Heq, Hgt. clear V.
    set (t := Z.shiftl (Zpos m) e) in *.
    unfold SFleb, SFcompare, MaxInt64. cbn [andb].
    rewrite Pos_compare_cont_Z.
    destruct (Z.compare_spec e 11) as [E | E | E]; cbv beta iota.
    + destruct (Heq E) as [Ht Hm]. clearbody t. subst t. clear Hlt Heq Hgt.
      destruct (Z.compare_spec (Zpos m) (Zpos 4503599627370496)) as [C | C | C];
        cbv beta iota; symmetry;
        first [ apply Z.leb_le; lia | apply Z.leb_gt; lia ].
    + specialize (Hlt E). clearbody t. clear Heq Hgt.
      symmetry. apply Z.leb_le. lia.
    + specialize (Hgt E). clearbody t. clear Heq Hlt.
      symmetry. apply Z.leb_gt. lia.
Qed.

(** The timestamp of a poll response, read on the integer part [t] of the
    float: [t] itself when it is a non-negative [int64]; zero when the
    field is absent, NaN, infinite, negative or out of range, but for
    [t = MaxInt64 + 1], which passes the range test. *)
Lemma restObsToObservation_Timestamp (ro : restObs.t) :
  Timestamp (restObsToObservation ro)
  = match restObs.Timestamp ro with
    | None => 0%Z
    | Some ts =>
        match float64_trunc ts with
        | Some t =>
            if ((0 <=? t) && (t <=? MaxInt64))%Z then t
            else if (t =? MaxInt64 + 1)%Z then int64_overflow ts
            else 0%Z
        | None => 0%Z
        end
    end.
Proof.
  unfold restObsToObservation.
  destruct (restObs.Timestamp ro) as [ts |]; [| reflexivity].
  rewrite restObs_range_test. unfold int64_of_float64, float64_trunc.
  pose proof (Prim2SF_valid ts) as V.
  destruct (Prim2SF ts) as [s | s | | s m e]; try reflexivity.
  cbn [valid_binary] in V.
  destruct (shiftl_mantissa m e V) as (Hlt & Heq & Hgt).
  assert (H0 : (0 <= Z.shiftl (Zpos m) e)%Z) by (apply Z.shiftl_nonneg; lia).
  clear V Hlt Heq Hgt.
  set (t := Z.shiftl (Zpos m) e) in *. clearbody t.
  unfold MinInt64, MaxInt64.
  destruct s.
  - (* a negative float fails the test *)
    cbn [Timestamp].
    destruct (Z.leb_spec 0 (- t)), (Z.leb_spec (- t) (2 ^ 63 - 1)),
      (Z.eqb_spec (- t) (2 ^ 63 - 1 + 1)); cbn [andb]; lia.
  - destruct (Z.leb_spec t (2 ^ 63 - 1 + 1)), (Z.leb_spec 0 t),
      (Z.leb_spec t (2 ^ 63 - 1)), (Z.leb_spec (- 2 ^ 63) t),
      (Z.eqb_spec t (2 ^ 63 - 1 + 1)); cbn [andb set_Timestamp Timestamp];
      try reflexivity; lia.
Qed.

End RangeFacts.

Section CodecFacts.
Context {L : GoLibrary}.

Lemma float64_MaxInt64_rounds_up :
  float64_MaxInt64 = 9223372036854775808%float
  /\ float64_trunc float64_MaxInt64 = Some (MaxInt64 + 1)%Z.
Proof. split; reflexivity. Qed.

Lemma at_set_slot_other (raw : list any) (i j : nat) (v : any) :
  i <> j -> at_ (set_slot raw i v) j = at_ raw j.
Proof.
  unfold at_. revert i j.
  induction raw as [| x raw IH]; intros [| i] [| j] Hij; cbn;
    try reflexivity; try congruence.
  apply IH. congruence.
Qed.

Lemma at_set_slot_same (raw : list any) (i : nat) (v : any) :
  (i < List.length raw)%nat -> at_ (set_slot raw i v) i = v.
Proof.
  unfold at_. revert i.
  induction raw as [| x raw IH]; intros [| i] Hi; cbn in *;
    try reflexivity; try lia.
  apply IH. lia.
Qed.

Lemma length_set_slot (raw : list any) (i : nat) (v : any) :
  List.length (set_slot raw i v) = List.length raw.
Proof.
  revert i. induction raw as [| x raw IH]; intros [| i]; cbn; auto.
Qed.

(** A frame with fewer than 18 slots is rejected. *)
Lemma ParseObservation_short (raw : list any) :
  (List.length raw < obsSTFieldCount)%nat ->
  ParseObservation raw
  = Err (obs_st_array_too_short (List.length raw) obsSTFieldCount).
Proof.
  intros Hlen. unfold ParseObservation.
  destruct (Nat.ltb_spec (List.length raw) obsSTFieldCount); [reflexivity | lia].
Qed.

(** A frame of at least 18 slots is decoded exactly when its slot 0
    converts, and then every other field is [toFloat] of its own slot. *)
Lemma ParseObservation_long (raw : list any) :
  (obsSTFieldCount <= List.length raw)%nat ->
  ParseObservation raw =
  match toInt64 (at_ raw 0) with
  | Err err => Err (parsing_timestamp err)
  | Ok ts =>
      Ok {| Timestamp := ts;
            WindLull := toFloat (at_ raw 1);
            WindAvg := toFloat (at_ raw 2);
            WindGust := toFloat (at_ raw 3);
            WindDirection := toFloat (at_ raw 4);
            WindSampleInterval := toFloat (at_ raw 5);
            StationPressure := toFloat (at_ raw 6);
            AirTemperature := toFloat (at_ raw 7);
            RelativeHumidity := toFloat (at_ raw 8);
            Illuminance := toFloat (at_ raw 9);
            UV := toFloat (at_ raw 10);
            SolarRadiation := toFloat (at_ raw 11);
            RainAccumulated := toFloat (at_ raw 12);
            PrecipitationType := toFloat (at_ raw 13);
            LightningStrikeAvgDist := toFloat (at_ raw 14);
            LightningStrikeCount := toFloat (at_ raw 15);
            Battery := toFloat (at_ raw 16);
            ReportInterval := toFloat (at_ raw 17) |}
  end.
Proof.
  intros Hlen. unfold ParseObservation.
  destruct (Nat.ltb_spec (List.length raw) obsSTFieldCount); [lia | reflexivity].
Qed.

(** Slot 0: null, a value that is no number, NaN and the infinities are
    errors. *)
Lemma toInt64_rejects (v : any) :
  match v with
  | any_nil | any_bool _ | any_string _ | any_slice _ | any_map _ => True
  | any_float64 n => math_IsNaN n = true \/ math_IsInf n = true
  | any_Number n => strconv_ParseInt n = None
  end ->
  is_err (toInt64 v) = true.
Proof.
  destruct v as [ | b | n | n | s | l | m ]; cbn; try reflexivity.
  - intros [E | E]; rewrite E; rewrite ?orb_true_r; reflexivity.
  - intros ->. reflexivity.
Qed.

(** A frame of at least 18 slots whose slot 0 is no timestamp is rejected;
    one whose slot 0 holds an [int64] is decoded, with that timestamp, and
    each float field is [toFloat] of its own slot and of no other. *)
Lemma ParseObservation_rejects (raw : list any) :
  (obsSTFieldCount <= List.length raw)%nat ->
  no_timestamp (at_ raw 0) ->
  is_err (ParseObservation raw) = true.
Proof.
  intros Hlen Hbad. rewrite (ParseObservation_long raw Hlen).
  destruct (at_ raw 0) as [ | b | n | n | s | l | m ]; try reflexivity.
  - rewrite toInt64_float64. cbn in Hbad.
    destruct (float64_trunc n) as [t |]; [| reflexivity].
    unfold MinInt64, MaxInt64 in *.
    destruct (Z.leb_spec (- 2 ^ 63) t), (Z.leb_spec t (2 ^ 63 - 1)),
      (Z.eqb_spec t (2 ^ 63 - 1 + 1)); cbn [andb]; try reflexivity; lia.
  - cbn in Hbad |- *. rewrite Hbad. reflexivity.
Qed.

Lemma ParseObservation_decodes (raw : list any) (t : Z) :
  (obsSTFieldCount <= List.length raw)%nat ->
  timestamp_of (at_ raw 0) t ->
  exists o,
    ParseObservation raw = Ok o
    /\ Timestamp o = t
    /\ float_fields o = map (fun i => toFloat (at_ raw i)) (seq 1 17).
Proof.
  intros Hlen Hts. rewrite (ParseObservation_long raw Hlen).
  assert (E : toInt64 (at_ raw 0) = Ok t).
  { destruct (at_ raw 0) as [ | b | n | n | s | l | m ]; try contradiction.
    - rewrite toInt64_float64. destruct Hts as [-> Hr].
      unfold MinInt64, MaxInt64 in *.
      destruct (Z.leb_spec (- 2 ^ 63) t), (Z.leb_spec t (2 ^ 63 - 1));
        cbn [andb]; try reflexivity; lia.
    - cbn in Hts |- *. rewrite Hts. reflexivity. }
  rewrite E. eexists. repeat split.
Qed.

Lemma nth_map_slots (f : nat -> float) (j : nat) :
  (j < 17)%nat -> nth j (map f (seq 1 17)) nan = f (S j).
Proof.
  intros Hj.
  rewrite (nth_indep _ nan (f 0%nat)) by (rewrite length_map, length_seq; exact Hj).
  rewrite map_nth, seq_nth by exact Hj. reflexivity.
Qed.

(** A null or a value of another type in one of the slots 1 to 17 leaves
    the other slots as they were. *)
Lemma ParseObservation_one_unknown_slot (raw : list any) (i : nat) (v : any) (t : Z) :
  (obsSTFieldCount <= List.length raw)%nat ->
  (1 <= i)%nat ->
  timestamp_of (at_ raw 0) t ->
  exists o o',
    ParseObservation raw = Ok o
    /\ ParseObservation (set_slot raw i v) = Ok o'
    /\ Timestamp o' = Timestamp o
    /\ forall j, (j < 17)%nat -> S j <> i ->
                 nth j (float_fields o') nan = nth j (float_fields o) nan.
Proof.
  intros Hlen Hi Hts.
  destruct (ParseObservation_decodes raw t Hlen Hts) as (o & Ho & Ht & Hf).
  destruct (ParseObservation_decodes (set_slot raw i v) t) as (o' & Ho' & Ht' & Hf').
  - rewrite length_set_slot. exact Hlen.
  - rewrite at_set_slot_other by lia. exact Hts.
  - exists o, o'. repeat split; try assumption; try congruence.
    intros j Hj Hne. rewrite Hf, Hf', !nth_map_slots by exact Hj.
    rewrite at_set_slot_other by congruence. reflexivity.
Qed.

(** The other slots: a number decodes to itself; null and values of
    another type decode to NaN. *)
Lemma toFloat_float64 (n : float) : toFloat (any_float64 n) = n.
Proof. reflexivity. Qed.

Lemma toFloat_unknown (v : any) :
  match v with
  | any_nil | any_bool _ | any_string _ | any_slice _ | any_map _ => True
  | any_float64 _ => False
  | any_Number n => strconv_ParseFloat n = None
  end ->
  math_IsNaN (toFloat v) = true.
Proof.
  destruct v as [ | b | n | n | s | l | m ]; cbn; try reflexivity.
  - intros [].
  - intros ->. reflexivity.
Qed.

(** An absent field of a poll response is zero in the observation. *)
Lemma restObsToObservation_absent_fields (ro : restObs.t) :
  let o := restObsToObservation ro in
  (restObs.WindLull ro = None -> WindLull o = 0%float)
  /\ (restObs.WindAvg ro = None -> WindAvg o = 0%float)
  /\ (restObs.WindGust ro = None -> WindGust o = 0%float)
  /\ (restObs.WindDirection ro = None -> WindDirection o = 0%float)
  /\ (restObs.StationPressure ro = None -> StationPressure o = 0%float)
  /\ (restObs.AirTemperature ro = None -> AirTemperature o = 0%float)
  /\ (restObs.RelativeHumidity ro = None -> RelativeHumidity o = 0%float)
  /\ (restObs.Illuminance ro = None -> Illuminance o = 0%float)
  /\ (restObs.UV ro = None -> UV o = 0%float)
  /\ (restObs.SolarRadiation ro = None -> SolarRadiation o = 0%float)
  /\ (restObs.RainAccumulated ro = None -> RainAccumulated o = 0%float)
  /\ (restObs.PrecipitationType ro = None -> PrecipitationType o = 0%float)
  /\ (restObs.LightningStrikeAvgDist ro = None ->
      LightningStrikeAvgDist o = 0%float)
  /\ (restObs.LightningStrikeCount ro = None ->
      LightningStrikeCount o = 0%float)
  /\ (restObs.Battery ro = None -> Battery o = 0%float)
  /\ (restObs.ReportInterval ro = None -> ReportInterval o = 0%float)
  /\ (restObs.Timestamp ro = None -> Timestamp o = 0%Z).
Proof.
  unfold restObsToObservation.
  destruct (restObs.Timestamp ro) as [ts |];
    [destruct ((0 <=? ts)%float && (ts <=? float64_MaxInt64)%float) |];
    cbn; repeat split; intros E; rewrite ?E; try reflexivity; discriminate.
Qed.

(** A timestamp that fails the range test leaves the observation's
    timestamp at zero; one that passes it is converted by [int64]. *)
Lemma restObsToObservation_timestamp (ro : restObs.t) (ts : float) :
  restObs.Timestamp ro = Some ts ->
  Timestamp (restObsToObservation ro)
  = if ((0 <=? ts) && (ts <=? float64_MaxInt64))%float
    then int64_of_float64 ts else 0%Z.
Proof.
  intros E. unfold restObsToObservation. rewrite E.
  destruct ((0 <=? ts)%float && (ts <=? float64_MaxInt64)%float); reflexivity.
Qed.

(** C1, at the input where the code leaves the claim: a frame whose slot
    0 is the [float64] 9223372036854775808.  It is out of the [int64]
    range (it truncates to [MaxInt64 + 1]), yet [toInt64] passes it, the
    test [n > math.MaxInt64] comparing against the same [float64]; the
    frame decodes, with whatever [int64] of it is on the platform as its
    timestamp. *)
Theorem ParseObservation_accepts_timestamp_2_pow_63 :
  let ts := 9223372036854775808%float in
  let frame := set_slot validObsArray 0 (any_float64 ts) in
  float64_trunc ts = Some (MaxInt64 + 1)%Z
  /\ (float64_MaxInt64 <? ts)%float = false
  /\ is_ok (ParseObservation frame) = true
  /\ exists o, ParseObservation frame = Ok o
               /\ Timestamp o = int64_overflow ts
               /\ WindLull o = 0.5%float.
Proof.
  cbv zeta. split; [reflexivity |]. split; [reflexivity |].
  split; [reflexivity |].
  eexists. split; [reflexivity |]. split; reflexivity.
Qed.

(** C2, at the input where the code leaves the claim: a poll response
    whose timestamp is the [float64] 9223372036854775808.  It is out of
    the [int64] range, yet it passes [ts <= float64(math.MaxInt64)], and
    the observation's timestamp is whatever [int64] of it is on the
    platform, not zero. *)
Theorem restObsToObservation_timestamp_2_pow_63 :
  let ts := 9223372036854775808%float in
  float64_trunc ts = Some (MaxInt64 + 1)%Z
  /\ (ts <=? float64_MaxInt64)%float = true
  /\ Timestamp (restObsToObservation (restObs_at ts)) = int64_overflow ts.
Proof.
  cbv zeta. split; [reflexivity |]. split; reflexivity.
Qed.

(** C8 (amended).  A [json.Number] whose text parses as a [float64]
    decodes to the parsed number, as a native number decodes to itself; a
    plain string decodes to NaN, whatever its text. *)
Theorem toFloat_json_Number (n : string) (f : float) :
  strconv_ParseFloat n = Some f ->
  toFloat (any_Number n) = f
  /\ toFloat (any_float64 f) = f
  /\ math_IsNaN (toFloat (any_string n)) = true.
Proof.
  intros E. cbn. rewrite E. repeat split.
Qed.

End CodecFacts.

(** The claim that a string holding a number decodes to that number
    fails: [toFloat] sends the string 3.14 to NaN, whatever the library
    parses, and 3.14 is not NaN. *)
Lemma toFloat_string_3_14_is_NaN :
  (forall L : GoLibrary, math_IsNaN (@toFloat L (any_string "3.14")) = true)
  /\ math_IsNaN 3.14%float = false.
Proof. split; reflexivity. Qed.

(** The parser tests on the fixture frame: the frame decodes; a short
    frame, a null timestamp and an infinite one are rejected; a null or a
    string in another slot gives NaN there and leaves the other fields. *)
Example ParseObservation_fixture :
  is_ok (@ParseObservation example_library validObsArray) = true
  /\ is_err (@ParseObservation example_library
               [any_float64 1700000000; any_float64 1.0]) = true
  /\ is_err (@ParseObservation example_library
               (set_slot validObsArray 0 any_nil)) = true
  /\ is_err (@ParseObservation example_library
               (set_slot validObsArray 0 (any_float64 infinity))) = true
  /\ is_err (@ParseObservation example_library
               (set_slot validObsArray 0 (any_float64 1e19))) = true
  /\ match @ParseObservation example_library
             (set_slot validObsArray 2 (any_string "not a number")) with
     | Ok o => math_IsNaN (WindAvg o) && (AirTemperature o =? 22.5)%float
               && (Timestamp o =? 1700000000)%Z
     | Err _ => false
     end = true.
Proof. repeat split. Qed.

(** On amd64 the out-of-range conversion gives [MinInt64]: the frame and
    the poll response with the timestamp 9223372036854775808 get the
    timestamp -9223372036854775808. *)
Example timestamp_2_pow_63_on_amd64 :
  match @ParseObservation example_library
          (set_slot validObsArray 0 (any_float64 9223372036854775808)) with
  | Ok o => Timestamp o
  | Err _ => 0%Z
  end = (-9223372036854775808)%Z
  /\ Timestamp (@restObsToObservation example_library
                  (restObs_at 9223372036854775808))
     = (-9223372036854775808)%Z.
Proof. split; reflexivity. Qed.

(** The poll-response tests: a present timestamp in range is converted, a
    negative one and an absent one leave zero, and an empty response is
    the zero observation. *)
Example restObsToObservation_fixture :
  Timestamp (@restObsToObservation example_library (restObs_at 1700000000))
  = 1700000000%Z
  /\ Timestamp (@restObsToObservation example_library (restObs_at (-1))) = 0%Z
  /\ Timestamp (@restObsToObservation example_library (restObs_at nan)) = 0%Z
  /\ @restObsToObservation example_library restObs_empty = Observation_zero.
Proof. repeat split. Qed.

(** [toFloat(json.Number("3.14"))] is 3.14, with a library that parses
    that text. *)
Lemma toFloat_json_Number_witness :
  @strconv_ParseFloat example_library "3.14" = Some 3.14%float
  /\ @toFloat example_library (any_Number "3.14") = 3.14%float
  /\ @toFloat example_library (any_float64 3.14) = 3.14%float
  /\ math_IsNaN (@toFloat example_library (any_string "3.14")) = true.
Proof.
  split; [reflexivity |].
  exact (@toFloat_json_Number example_library "3.14" 3.14%float eq_refl).
Defined.

(* ================================================================= *)
(** ** Token redaction *)

Section RedactionFacts.

Lemma prefix_cons (a b : ascii) (u s : string) :
  prefix (String a u) (String b s) = Ascii.eqb a b && prefix u s.
Proof.
  cbn. destruct (ascii_dec a b) as [-> | Hne].
  - rewrite Ascii.eqb_refl. reflexivity.
  - apply Ascii.eqb_neq in Hne. rewrite Hne. reflexivity.
Qed.

Lemma prefix_empty_r (u : string) :
  prefix u EmptyString = true -> u = EmptyString.
Proof. destruct u; [reflexivity | discriminate]. Qed.

Lemma strings_Contains_cons (a : ascii) (s t : string) :
  strings_Contains (String a s) t = prefix t (String a s) || strings_Contains s t.
Proof. reflexivity. Qed.

Lemma has_byte_prefix (b : ascii) (q t : string) :
  prefix q t = true -> has_byte b q = true -> has_byte b t = true.
Proof.
  revert t. induction q as [| a q IH]; intros [| c t]; cbn [has_byte];
    try discriminate.
  rewrite prefix_cons. intros [E P]%andb_prop [Hb | Hb]%orb_prop.
  - apply Ascii.eqb_eq in E. subst c. rewrite Hb. reflexivity.
  - rewrite (IH _ P Hb). apply orb_true_r.
Qed.

(** A prefix of [q ++ x] is a prefix of [q], or [q] is a prefix of it. *)
Lemma prefix_app_split (q x t : string) :
  prefix t (q ++ x) = true -> prefix t q = true \/ prefix q t = true.
Proof.
  revert t. induction q as [| a q IH]; intros t P.
  - right. destruct t; reflexivity.
  - destruct t as [| b t]; [left; reflexivity |].
    cbn [append] in P. rewrite prefix_cons in P.
    apply andb_prop in P as [E P].
    rewrite !prefix_cons.
    rewrite E. rewrite Ascii.eqb_sym in E. rewrite E. cbn.
    apply IH, P.
Qed.

Section Replace.
Variables (old new new' : string) (o r : ascii) (old' : string).
Hypothesis old_eq : old = String o old'.
Hypothesis new_eq : new = String r new'.
Hypothesis first_not_in_new : has_byte o new = false.
Hypothesis new_first_not_in_old : has_byte r old = false.

(** What the output starts with, the input started with: as long as
    the text holds no first byte of [new]. *)
Lemma prefix_replace_from (s u : string) :
  has_byte r u = false ->
  prefix u (replace_from old new 0 s) = true -> prefix u s = true.
Proof.
  revert u. induction s as [| c s IH]; intros [| b u] Hu P;
    try reflexivity; try (cbn in P; discriminate).
  cbn [replace_from] in P.
  cbn [has_byte] in Hu. apply orb_false_elim in Hu as [Hrb Hu].
  destruct (prefix old (String c s)).
  - rewrite new_eq in P. cbn [append] in P. rewrite prefix_cons in P.
    rewrite Ascii.eqb_sym, Hrb in P. discriminate.
  - rewrite prefix_cons in P |- *.
    apply andb_prop in P as [E P]. rewrite E. cbn.
    apply IH; assumption.
Qed.

(** No occurrence of [old] starts inside a copy of [new]. *)
Lemma strings_Contains_after (front x : string) :
  has_byte o front = false ->
  strings_Contains (front ++ x) old = strings_Contains x old.
Proof.
  induction front as [| a front IH]; intros Hf; [reflexivity |].
  cbn [has_byte] in Hf. apply orb_false_elim in Hf as [Hoa Hf].
  cbn [append]. rewrite strings_Contains_cons, old_eq, prefix_cons, Hoa.
  cbn. rewrite <- old_eq. apply IH, Hf.
Qed.

Lemma replace_from_hides (s : string) (skip : nat) :
  strings_Contains (replace_from old new skip s) old = false.
Proof.
  revert skip. induction s as [| c s IH]; intros skip.
  - cbn. rewrite old_eq. reflexivity.
  - cbn [replace_from]. destruct skip as [| k]; [| apply IH].
    destruct (prefix old (String c s)) eqn:E.
    + rewrite strings_Contains_after by exact first_not_in_new. apply IH.
    + rewrite strings_Contains_cons, IH, orb_false_r.
      destruct (prefix old (String c (replace_from old new 0 s))) eqn:P;
        [| reflexivity].
      assert (P' : prefix old (replace_from old new 0 (String c s)) = true)
        by (cbn [replace_from]; rewrite E; exact P).
      apply prefix_replace_from in P'; [congruence | assumption].
Qed.
End Replace.

Lemma no_common_byte_head (a : ascii) (s t : string) :
  no_common_byte (String a s) t = true -> has_byte a t = false.
Proof. cbn. intros [E _]%andb_prop. now apply negb_true_iff in E. Qed.

Lemma no_common_byte_spec (s t : string) (b : ascii) :
  no_common_byte s t = true -> has_byte b t = true -> has_byte b s = false.
Proof.
  induction s as [| a s IH]; intros Hs Hb; [reflexivity |].
  cbn in Hs |- *. apply andb_prop in Hs as [Ha Hs].
  rewrite (IH Hs Hb), orb_false_r.
  destruct (Ascii.eqb_spec b a) as [-> |]; [| reflexivity].
  rewrite Hb in Ha. discriminate.
Qed.

(** [redactToken] leaves no occurrence of a token that is not empty and
    shares no byte with the placeholder. *)
Lemma redactToken_hides (s token : string) :
  token <> EmptyString ->
  no_common_byte token placeholder = true ->
  strings_Contains (redactToken s token) token = false.
Proof.
  intros Hne Hdis. unfold redactToken.
  destruct (String.eqb_spec token ""); [contradiction |].
  destruct token as [| o old']; [contradiction |].
  unfold strings_ReplaceAll, placeholder.
  apply replace_from_hides with (o := o) (old' := old')
                                (r := "["%char) (new' := "REDACTED]").
  - reflexivity.
  - reflexivity.
  - exact (no_common_byte_head _ _ _ Hdis).
  - apply (no_common_byte_spec _ _ _ Hdis). reflexivity.
Qed.


Lemma has_last_byte (s : string) (b : ascii) :
  last_byte s = Some b -> has_byte b s = true.
Proof.
  induction s as [| a s IH]; [discriminate |].
  destruct s as [| a' s'].
  - cbn. intros [= ->]. rewrite Ascii.eqb_refl. reflexivity.
  - intros E. specialize (IH E). cbn [has_byte] in IH |- *.
    rewrite IH. apply orb_true_r.
Qed.

(** After a prefix that ends in a space, a text without occurrence of
    the token has none either, for a token without space that does not
    occur in the prefix. *)
Lemma strings_Contains_after_prefix (p x token : string) :
  token <> EmptyString ->
  has_byte " " token = false ->
  (p = EmptyString \/ last_byte p = Some " "%char) ->
  strings_Contains p token = false ->
  strings_Contains x token = false ->
  strings_Contains (p ++ x) token = false.
Proof.
  intros Hne Hsp. induction p as [| a p IH]; intros Hlast Hp Hx; [exact Hx |].
  rewrite strings_Contains_cons in Hp. apply orb_false_elim in Hp as [Hpre Hp].
  cbn [append]. rewrite strings_Contains_cons.
  assert (Hlast' : p = EmptyString \/ last_byte p = Some " "%char).
  { destruct Hlast as [| Hlast]; [discriminate |].
    destruct p; [left; reflexivity | right; exact Hlast]. }
  rewrite (IH Hlast' Hp Hx), orb_false_r.
  destruct (prefix token (String a (p ++ x))) eqn:P; [| reflexivity].
  change (String a (p ++ x)) with (String a p ++ x) in P.
  apply prefix_app_split in P as [P | P]; [congruence |].
  destruct Hlast as [| Hlast]; [discriminate |].
  apply has_last_byte in Hlast.
  rewrite (has_byte_prefix _ _ _ P Hlast) in Hsp. discriminate.
Qed.

(** [redactToken] leaves no occurrence of a token whose first byte is
    none of the placeholder and which holds no opening bracket. *)
Lemma redactToken_hides_first_byte (s token : string) (first : ascii)
      (others : string) :
  token = String first others ->
  has_byte first placeholder = false ->
  has_byte "[" token = false ->
  strings_Contains (redactToken s token) token = false.
Proof.
  intros -> Hfirst Hbracket. unfold redactToken.
  destruct (String.eqb_spec (String first others) ""); [discriminate |].
  unfold strings_ReplaceAll.
  apply replace_from_hides with (o := first) (old' := others)
                                (r := "["%char) (new' := "REDACTED]").
  - reflexivity.
  - reflexivity.
  - exact Hfirst.
  - exact Hbracket.
Qed.

Lemma redactable_spec (token : string) :
  redactable token = true ->
  token <> EmptyString
  /\ (forall s, strings_Contains (redactToken s token) token = false)
  /\ has_byte " " token = false
  /\ forall p, In p redaction_prefixes -> strings_Contains p token = false.
Proof.
  unfold redactable. destruct token as [| first others]; [discriminate |].
  intros [[[H1 H2]%andb_prop H3]%andb_prop H4]%andb_prop.
  apply negb_true_iff in H1, H2, H3.
  repeat split.
  - discriminate.
  - intros s. exact (redactToken_hides_first_byte s eq_refl H1 H2).
  - exact H3.
  - intros p Hp. rewrite forallb_forall in H4.
    specialize (H4 p Hp). now apply negb_true_iff in H4.
Qed.

(** A message made of one of the four prefixes and a redacted text holds
    no occurrence of a redactable token. *)
Lemma redacted_message_hides (p e token : string) :
  redactable token = true ->
  In p redaction_prefixes ->
  strings_Contains (p ++ redactToken e token) token = false.
Proof.
  intros (Hne & Hhid & Hsp & Hpre)%redactable_spec Hp.
  apply strings_Contains_after_prefix; auto.
  right. cbn in Hp.
  destruct Hp as [<- | [<- | [<- | [<- | []]]]]; reflexivity.
Qed.

Lemma strings_Contains_app_r (p x token : string) :
  strings_Contains x token = true -> strings_Contains (p ++ x) token = true.
Proof.
  intros H. induction p as [| a p IH]; [exact H |].
  cbn [append]. rewrite strings_Contains_cons, IH. apply orb_true_r.
Qed.

(** Redaction does not hide every token: for the token [ED] the
    placeholder itself holds it. *)
Lemma redaction_shows_token_ED :
  redactToken "dial wss://host/data?token=ED: refused" "ED"
  = "dial wss://host/data?token=[REDACTED]: refused"
  /\ strings_Contains
       (redactToken "dial wss://host/data?token=ED: refused" "ED") "ED" = true
  /\ strings_Contains
       (fst (@connectAndRead example_library
               (NewClient "ED" "12345")
               {| dial := fun url => Some ("dial " ++ url ++ ": refused");
                  write := None; messages := []; read_error := "EOF" |}
               {| Client.collector := NewCollector "12345" "backyard";
                  Client.parseErrors := 0; Client.slog := [] |}))
       "ED" = true.
Proof. repeat split. Qed.

(** Where the error text goes through [redactToken], a redactable token
    is hidden: in every redacted text; in the error [connectAndRead]
    returns from the dial, the subscribe write or the read (its only other
    error is the one on the device id); and in the error
    [FetchObservation] returns when the HTTP client fails. *)
Lemma redacted_errors_hide_token
  (L : GoLibrary) (c : Client.t) (r : RESTClient.t) :
  (redactable (Client.token c) = true ->
   (forall e, strings_Contains (redactToken e (Client.token c)) (Client.token c) = false)
   /\ (forall conn st,
         strings_Contains (fst (connectAndRead c conn st)) (Client.token c) = false
         \/ exists err,
              strconv_Atoi (Client.deviceID c) = Err err
              /\ fst (connectAndRead c conn st)
                 = "invalid device_id " ++ fmt_q (Client.deviceID c) ++ ": " ++ err))
  /\ (redactable (RESTClient.token r) = true ->
      forall get url e,
        get url = Do_error e ->
        url = (RESTClient.baseURL r ++ "/observations/station/"
               ++ RESTClient.stationID r ++ "?token=" ++ RESTClient.token r)%string ->
        exists msg, FetchObservation r get = Err msg
                    /\ strings_Contains msg (RESTClient.token r) = false).
Proof.
  split.
  - intros Hsafe. split.
    + intros e. apply redactable_spec in Hsafe as (_ & Hhid & _).
      apply Hhid.
    + intros conn st. unfold connectAndRead.
      destruct (dial conn _) as [err |].
      { left. cbn [fst]. apply redacted_message_hides; cbn; auto. }
      destruct (strconv_Atoi (Client.deviceID c)) as [n | err].
      2: { right. exists err. split; reflexivity. }
      left. destruct (write conn) as [err |].
      { cbn [fst]. apply redacted_message_hides; cbn; auto. }
      generalize (store_parseErrors 0
        (log (Info_websocket_connected (Client.deviceID c))
           (with_collector (fun k => SetConnected k true) st))).
      induction (messages conn) as [| data rest IH]; intros st0.
      * cbn [readLoop fst]. apply redacted_message_hides; cbn; auto.
      * cbn [readLoop]. apply IH.
  - intros Hsafe get url e Hget ->. unfold FetchObservation. rewrite Hget.
    eexists. split; [reflexivity |].
    apply redacted_message_hides; cbn; auto.
Qed.

End RedactionFacts.

(** An ordinary token is hidden in a dial error that quotes the URL, also
    by a client whose device id is no number. *)
Example redacted_dial_error :
  redactable "abc123secret" = true
  /\ redactable "SECRET" = true
  /\ strings_Contains
       (fst (@connectAndRead example_library
               (NewClient "abc123secret" "not-a-number")
               {| dial := fun url => Some ("dial " ++ url ++ ": connection refused");
                  write := None; messages := []; read_error := "EOF" |}
               {| Client.collector := NewCollector "12345" "backyard";
                  Client.parseErrors := 0; Client.slog := [] |}))
       "abc123secret" = false.
Proof. repeat split. Qed.

(** C7.  The error of [http.NewRequestWithContext] is returned as it is:
    [FetchObservation] wraps its text without passing it through
    [redactToken], unlike the error of the HTTP client just below it.  The
    request is refused when the URL does not parse, and the error of
    [url.Parse] quotes the whole URL, token included: with a station id
    that holds an invalid escape and an ordinary token, the error
    [FetchObservation] returns, and [RunFallback] logs, holds the token;
    the same text is redacted when it comes from the HTTP client. *)
Theorem creating_request_error_shows_token :
  (forall (L : GoLibrary) (r : RESTClient.t) (get : string -> http_result)
          (err : string),
      get (RESTClient.baseURL r ++ "/observations/station/"
           ++ RESTClient.stationID r ++ "?token=" ++ RESTClient.token r)
      = NewRequest_error err ->
      strings_Contains err (RESTClient.token r) = true ->
      exists msg,
        FetchObservation r get = Err msg
        /\ strings_Contains msg (RESTClient.token r) = true)
  /\ (let r := NewRESTClient "abc123secret" "12%zz" in
      let msg := "creating request: parse " ++ dquote
                 ++ "https://swd.weatherflow.com/swd/rest/observations/station/12%zz?token=abc123secret"
                 ++ dquote ++ ": invalid URL escape " ++ dquote ++ "%zz" ++ dquote in
      redactable "abc123secret" = true
      /\ strings_Contains msg "abc123secret" = true
      /\ (forall L : GoLibrary,
            @FetchObservation L r bad_escape_request = Err msg
            /\ RESTClient.slog
                 (snd (@RunFallback_tick L r (5 * Minute)
                         {| stream_connected := false; clock := 360 * Second;
                            http := bad_escape_request |}
                         {| RESTClient.collector := NewCollector "12%zz" "tempest";
                            RESTClient.disconnectedSince := Some 0%Z;
                            RESTClient.slog := [] |}))
               = [Warn_REST_fallback_activated; Error_REST_fallback msg]
            /\ exists redacted,
                 @FetchObservation L r
                   (fun url => match bad_escape_request url with
                               | NewRequest_error e => Do_error e
                               | other => other
                               end) = Err redacted
                 /\ strings_Contains redacted "abc123secret" = false)).
Proof.
  split.
  - intros L r get err Hget Herr. unfold FetchObservation. rewrite Hget.
    eexists. split; [reflexivity |].
    apply strings_Contains_app_r. exact Herr.
  - cbv zeta. split; [reflexivity |]. split; [reflexivity |].
    intros L. split; [reflexivity |]. split; [reflexivity |].
    eexists. split; reflexivity.
Qed.

(* ================================================================= *)
(** ** SnapshotStore: the export *)

Section CollectFacts.
Context {L : GoLibrary}.

Lemma In_known_gauge (lv : list string) (d : Desc) (v : float) (m : Metric) :
  In m (known_gauge lv d v) ->
  m = {| metric_desc := d; metric_type := GaugeValue;
         metric_value := v; metric_labels := lv |}
  /\ math_IsNaN v = false.
Proof.
  unfold known_gauge. destruct (math_IsNaN v); cbn; [tauto |].
  intros [<- | []]. split; reflexivity.
Qed.

Lemma known_gauge_known (lv : list string) (d : Desc) (v : float) :
  math_IsNaN v = false ->
  known_gauge lv d v = [ {| metric_desc := d; metric_type := GaugeValue;
                            metric_value := v; metric_labels := lv |} ].
Proof. unfold known_gauge. intros ->. reflexivity. Qed.


(** [MustNewConstMetric] on the labels of a collector: the metric when
    both are valid UTF-8, and otherwise the panic on the first that is
    not. *)
Lemma MustNewConstMetric_valid (c : Collector) (d : Desc) (t : ValueType)
      (v : float) :
  valid_labels c = true ->
  MustNewConstMetric d t v [stationID c; stationName c]
  = Ok {| metric_desc := d; metric_type := t; metric_value := v;
          metric_labels := [stationID c; stationName c] |}.
Proof.
  unfold valid_labels, MustNewConstMetric. intros [H1 H2]%andb_prop.
  cbn. rewrite H1, H2. reflexivity.
Qed.

Lemma MustNewConstMetric_invalid (c : Collector) (d : Desc) (t : ValueType)
      (v : float) :
  valid_labels c = false ->
  MustNewConstMetric d t v [stationID c; stationName c]
  = Err (label_value_not_valid_UTF8
           (if utf8_ValidString (stationID c) then stationName c
            else stationID c)).
Proof.
  unfold valid_labels, MustNewConstMetric. intros H. cbn.
  destruct (utf8_ValidString (stationID c)); cbn in H |- *; [| reflexivity].
  rewrite H. reflexivity.
Qed.

(** A statement of [Collect] on a channel without panic, when the labels
    are valid; and on a channel with a panic. *)
Lemma send_valid (c : Collector) (d : Desc) (t : ValueType) (v : float)
      (s : list Metric) :
  valid_labels c = true ->
  send (MustNewConstMetric d t v [stationID c; stationName c])
    {| sent := s; panicked := None |}
  = {| sent := (s ++ [ {| metric_desc := d; metric_type := t;
                          metric_value := v;
                          metric_labels := [stationID c; stationName c] |} ])%list;
       panicked := None |}.
Proof. intros H. rewrite (MustNewConstMetric_valid c d t v H). reflexivity. Qed.

Lemma emitGauge_valid (c : Collector) (d : Desc) (v : float) (s : list Metric) :
  valid_labels c = true ->
  emitGauge [stationID c; stationName c] d v {| sent := s; panicked := None |}
  = {| sent := (s ++ known_gauge [stationID c; stationName c] d v)%list;
       panicked := None |}.
Proof.
  intros H. unfold emitGauge, known_gauge.
  destruct (negb (math_IsNaN v)).
  - apply send_valid. exact H.
  - unfold skip. rewrite app_nil_r. reflexivity.
Qed.

Lemma send_panicked (m : result panic Metric) (s : list Metric) (p : panic) :
  send m {| sent := s; panicked := Some p |} = {| sent := s; panicked := Some p |}.
Proof. reflexivity. Qed.

Lemma emitGauge_panicked (lv : list string) (d : Desc) (v : float)
      (s : list Metric) (p : panic) :
  emitGauge lv d v {| sent := s; panicked := Some p |}
  = {| sent := s; panicked := Some p |}.
Proof. unfold emitGauge. destruct (negb (math_IsNaN v)); reflexivity. Qed.

(** With valid labels [Collect] ends without panic, having sent the whole
    scrape. *)
Lemma Collect_valid (c : Collector) :
  valid_labels c = true ->
  Collect c = {| sent := scrape c; panicked := None |}.
Proof.
  intros H. unfold Collect, scrape. cbv beta zeta.
  rewrite !(send_valid c _ _ _ _ H).
  destruct (hasObs c); cbn [negb]; unfold skip.
  - rewrite (send_valid c _ _ _ _ H).
    rewrite !(emitGauge_valid c _ _ _ H).
    destruct (0 <? rainStart c)%float.
    + rewrite (emitGauge_valid c _ _ _ H).
      rewrite <- !app_assoc. reflexivity.
    + rewrite <- !app_assoc, app_nil_r. reflexivity.
  - reflexivity.
Qed.

(** With a label that is not valid UTF-8 [Collect] panics while it makes
    its first metric, and sends nothing. *)
Lemma Collect_invalid (c : Collector) :
  valid_labels c = false ->
  Collect c
  = {| sent := [];
       panicked := Some (label_value_not_valid_UTF8
                           (if utf8_ValidString (stationID c)
                            then stationName c else stationID c)) |}.
Proof.
  intros H. unfold Collect. cbv beta zeta.
  rewrite !(MustNewConstMetric_invalid c _ _ _ H).
  change (send (Err ?p) {| sent := []; panicked := None |})
    with {| sent := []; panicked := Some p |}.
  rewrite !send_panicked.
  destruct (hasObs c); cbn [negb]; unfold skip; rewrite ?send_panicked;
    [| reflexivity].
  rewrite !emitGauge_panicked.
  destruct (0 <? rainStart c)%float; rewrite ?emitGauge_panicked; reflexivity.
Qed.

Lemma sent_Collect (c : Collector) :
  sent (Collect c) = if valid_labels c then scrape c else [].
Proof.
  destruct (valid_labels c) eqn:H.
  - rewrite (Collect_valid c H). reflexivity.
  - rewrite (Collect_invalid c H). reflexivity.
Qed.

Lemma In_sent_Collect (c : Collector) (m : Metric) :
  In m (sent (Collect c)) -> In m (scrape c).
Proof.
  rewrite sent_Collect. destruct (valid_labels c); [tauto | intros []].
Qed.


Lemma scrape_health (c : Collector) :
  (hasObs c = false -> scrape c = health_metrics c)
  /\ exists rest, scrape c = (health_metrics c ++ rest)%list.
Proof.
  split.
  - intros Hobs. unfold scrape. rewrite Hobs. cbn. reflexivity.
  - unfold scrape. cbv zeta. destruct (hasObs c); cbn [negb];
      eexists; reflexivity.
Qed.


(** A known value behind a gauge is in the scrape, once an observation is
    stored (the rain start only when positive); with valid labels
    [Collect] emits it. *)
Lemma scrape_exports_known (c : Collector) (d : Desc) (v : float) :
  hasObs c = true ->
  gauge_source c d = Some v ->
  math_IsNaN v = false ->
  (d = descRainStartEpoch -> (0 <? rainStart c)%float = true) ->
  In (gauge c d v) (scrape c).
Proof.
  intros Hobs Hsrc Hv Hrain. unfold scrape. cbv zeta. rewrite Hobs.
  cbn [negb]. rewrite !in_app_iff. unfold gauge.
  destruct d; cbn in Hsrc; try discriminate; injection Hsrc as <-;
    try rewrite (Hrain eq_refl);
    rewrite (known_gauge_known _ _ _ Hv); cbn; tauto.
Qed.

Lemma Collect_exports_known (c : Collector) (d : Desc) (v : float) :
  valid_labels c = true ->
  hasObs c = true ->
  gauge_source c d = Some v ->
  math_IsNaN v = false ->
  (d = descRainStartEpoch -> (0 <? rainStart c)%float = true) ->
  In (gauge c d v) (sent (Collect c)).
Proof.
  intros H Hobs Hsrc Hv Hrain. rewrite (Collect_valid c H). cbn [sent].
  apply scrape_exports_known; assumption.
Qed.

End CollectFacts.



(* ================================================================= *)
(** ** StreamConnector *)

Section StreamFacts.
Context {L : GoLibrary}.
Variable c : Client.t.

Local Ltac branches :=
  repeat match goal with
    | |- context [match ?x with _ => _ end] => destruct x
    end.

Lemma wrap64_small (z : Z) :
  (MinInt64 <= z <= MaxInt64)%Z -> wrap64 z = z.
Proof.
  unfold wrap64, MinInt64, MaxInt64. intros Hz.
  rewrite Z.mod_small; lia.
Qed.

Lemma rem_100_multiple (count : Z) :
  (0 <= count)%Z -> (Z.rem count 100 =? 0)%Z = (count mod 100 =? 0)%Z.
Proof. intros H. rewrite Z.rem_mod_nonneg by lia. reflexivity. Qed.

(** The handlers leave the parse-error counter alone. *)
Lemma readLoop_message_parsed (data : string) (st : Client.state)
      (envelope : WSMessage.t) :
  json_Unmarshal_WSMessage data = Ok envelope ->
  Client.parseErrors (readLoop_message data st) = Client.parseErrors st.
Proof.
  intros E. unfold readLoop_message. rewrite E.
  unfold handleObsST, handleStrike, handlePrecip. branches; reflexivity.
Qed.

Lemma readLoop_message_unparseable (data : string) (st : Client.state)
      (err : string) :
  json_Unmarshal_WSMessage data = Err err ->
  (0 <= Client.parseErrors st < MaxInt64)%Z ->
  let count := (Client.parseErrors st + 1)%Z in
  Client.parseErrors (readLoop_message data st) = count
  /\ Client.collector (readLoop_message data st) = Client.collector st
  /\ Client.slog (readLoop_message data st)
     = (Client.slog st
        ++ if first_or_hundredth count
           then [Warn_ignoring_unparseable_message err count] else [])%list.
Proof.
  intros E Hp count. unfold readLoop_message. rewrite E.
  rewrite wrap64_small by (unfold MinInt64, MaxInt64 in *; lia).
  rewrite rem_100_multiple by lia. fold count. unfold first_or_hundredth.
  destruct ((count =? 1)%Z || (count mod 100 =? 0)%Z); cbn;
    rewrite ?app_nil_r; repeat split.
Qed.

Lemma after_messages_parseErrors (msgs : list string) (st : Client.state) :
  (0 <= Client.parseErrors st)%Z ->
  (Client.parseErrors st + Z.of_nat (List.length msgs) <= MaxInt64)%Z ->
  (Client.parseErrors st <= Client.parseErrors (after_messages msgs st)
   <= Client.parseErrors st + Z.of_nat (List.length msgs))%Z.
Proof.
  revert st. induction msgs as [| data msgs IH]; intros st H0 Hmax.
  - cbn. lia.
  - cbn [after_messages fold_left List.length] in *.
    fold (after_messages msgs (readLoop_message data st)).
    assert (Hstep : (Client.parseErrors st
                     <= Client.parseErrors (readLoop_message data st)
                     <= Client.parseErrors st + 1)%Z).
    { destruct (json_Unmarshal_WSMessage data) as [env | err] eqn:E.
      - rewrite (readLoop_message_parsed _ _ E). lia.
      - destruct (readLoop_message_unparseable data st E) as (-> & _); lia. }
    specialize (IH (readLoop_message data st)). lia.
Qed.

(** [readLoop] handles every message and returns the error of the read
    that failed. *)
Lemma readLoop_after_messages (msgs : list string) (read_err : string)
      (st : Client.state) :
  readLoop c msgs read_err st
  = (("read: " ++ redactToken read_err (Client.token c))%string,
     after_messages msgs st).
Proof.
  revert st. induction msgs as [| data msgs IH]; intros st; [reflexivity |].
  cbn [readLoop]. rewrite IH. reflexivity.
Qed.

Lemma after_messages_app (pre post : list string) (st : Client.state) :
  after_messages (pre ++ post) st = after_messages post (after_messages pre st).
Proof. unfold after_messages. apply fold_left_app. Qed.

(** C9.  In every sequence of messages the read loop handles, a message
    whose envelope does not parse raises the parse-error counter by one
    and changes nothing in the store; it is logged exactly when the new
    count is 1 or a multiple of 100; and the loop goes on: the messages
    after it are handled, and the loop returns only the error of a failed
    read.  (The counter is an [int64]: it starts a connection at zero and
    the sequence is shorter than [MaxInt64].) *)
Theorem readLoop_parse_errors
  (pre post : list string) (data read_err err : string) (st : Client.state) :
  json_Unmarshal_WSMessage data = Err err ->
  (0 <= Client.parseErrors st)%Z ->
  (Client.parseErrors st + Z.of_nat (List.length pre) < MaxInt64)%Z ->
  let before := after_messages pre st in
  let after := readLoop_message data before in
  let count := (Client.parseErrors before + 1)%Z in
  Client.parseErrors after = count
  /\ Client.collector after = Client.collector before
  /\ Client.slog after
     = (Client.slog before
        ++ if first_or_hundredth count
           then [Warn_ignoring_unparseable_message err count] else [])%list
  /\ readLoop c (pre ++ data :: post) read_err st
     = (("read: " ++ redactToken read_err (Client.token c))%string,
        after_messages post after).
Proof.
  intros E H0 Hmax before after count.
  assert (Hb : (0 <= Client.parseErrors before < MaxInt64)%Z).
  { pose proof (after_messages_parseErrors pre st H0) as Hb.
    subst before. lia. }
  destruct (readLoop_message_unparseable data before E Hb) as (A & B & C).
  repeat split; try assumption.
  rewrite readLoop_after_messages, after_messages_app. reflexivity.
Qed.

(** The connection never touches the reconnect counter. *)
Lemma readLoop_message_reconnects (data : string) (st : Client.state) :
  reconnects (Client.collector (readLoop_message data st))
  = reconnects (Client.collector st).
Proof.
  unfold readLoop_message, handleObsST, handleStrike, handlePrecip.
  branches; reflexivity.
Qed.

Lemma after_messages_reconnects (msgs : list string) (st : Client.state) :
  reconnects (Client.collector (after_messages msgs st))
  = reconnects (Client.collector st).
Proof.
  revert st. induction msgs as [| data msgs IH]; intros st; [reflexivity |].
  cbn [after_messages fold_left].
  fold (after_messages msgs (readLoop_message data st)).
  rewrite IH. apply readLoop_message_reconnects.
Qed.

Lemma connectAndRead_reconnects (k : connection) (st : Client.state) :
  reconnects (Client.collector (snd (connectAndRead c k st)))
  = reconnects (Client.collector st).
Proof.
  unfold connectAndRead.
  destruct (dial k _); [reflexivity |].
  destruct (strconv_Atoi _); [| reflexivity].
  destruct (write k); [reflexivity |].
  rewrite readLoop_after_messages. cbn [snd].
  rewrite after_messages_reconnects. reflexivity.
Qed.

(** A failed cycle counts one reconnect. *)
Lemma Run_cycle_reconnects (b : Z) (cy : cycle) (st : Client.state) :
  ctx_err cy = false ->
  reconnects (Client.collector (snd (Run_cycle c b cy st)))
  = (reconnects (Client.collector st) + 1)%float.
Proof.
  intros E. unfold Run_cycle.
  pose proof (connectAndRead_reconnects (conn cy) st) as R.
  destruct (connectAndRead c (conn cy) st) as [err st1]. cbn [snd] in R.
  rewrite E. destruct (ctx_done cy); cbn; rewrite R; reflexivity.
Qed.

Lemma backoff_at_bounds (k : nat) : (Second <= backoff_at k <= maxBackoff)%Z.
Proof.
  unfold backoff_at, maxBackoff, Second.
  assert (0 < 2 ^ Z.of_nat k)%Z by (apply Z.pow_pos_nonneg; lia).
  lia.
Qed.

Lemma backoff_at_succ (k : nat) :
  (let b' := wrap64 (backoff_at k * 2) in
   if (maxBackoff <? b')%Z then maxBackoff else b') = backoff_at (S k).
Proof.
  pose proof (backoff_at_bounds k) as Hb.
  cbv zeta. rewrite wrap64_small
    by (unfold MinInt64, MaxInt64, maxBackoff, Second in *; lia).
  unfold backoff_at, maxBackoff, Second in *.
  rewrite Nat2Z.inj_succ, Z.pow_succ_r by lia.
  assert (0 < 2 ^ Z.of_nat k)%Z by (apply Z.pow_pos_nonneg; lia).
  destruct (Z.ltb_spec (60 * 1000000000)
              (Z.min (2 ^ Z.of_nat k) 60 * 1000000000 * 2)); lia.
Qed.

Lemma Run_cycle_quick (k : nat) (cy : cycle) (st : Client.state) :
  quick_failure cy ->
  fst (Run_cycle c (backoff_at k) cy st)
  = waited (backoff_at k) (backoff_at (S k)).
Proof.
  intros [[E1 E2] Hq]. unfold Run_cycle.
  destruct (connectAndRead c (conn cy) st) as [err st1].
  rewrite E1, E2.
  destruct (Z.ltb_spec (2 * Minute) (since_start cy)); [lia |].
  cbn [fst]. f_equal. apply backoff_at_succ.
Qed.

Lemma Run_cycle_late (b : Z) (cy : cycle) (st : Client.state) :
  late_failure cy ->
  fst (Run_cycle c b cy st) = waited (backoff_at 0) (backoff_at 1).
Proof.
  intros [[E1 E2] Hq]. unfold Run_cycle.
  destruct (connectAndRead c (conn cy) st) as [err st1].
  rewrite E1, E2.
  destruct (Z.ltb_spec (2 * Minute) (since_start cy)); [| lia].
  reflexivity.
Qed.

(** From the backoff of [k] quick failures, [n] more of them sleep the
    next [n] backoffs and count [n] reconnects. *)
Lemma Run_from_quick (cycles : list cycle) :
  forall (k : nat) (st : Client.state) (slept : list Z),
    Forall quick_failure cycles ->
    let n := List.length cycles in
    let res := Run_from c (backoff_at k) cycles st slept in
    waits res = (slept ++ map backoff_at (seq k n))%list
    /\ running res = Some (backoff_at (k + n))
    /\ reconnects (Client.collector (final res))
       = Nat.iter n (fun x => (x + 1)%float) (reconnects (Client.collector st)).
Proof.
  induction cycles as [| cy cycles IH]; intros k st slept Hall.
  - cbn. rewrite app_nil_r, Nat.add_0_r. repeat split.
  - inversion Hall as [| ? ? Hcy Hrest]; subst.
    cbn [Run_from List.length].
    pose proof (Run_cycle_quick k st Hcy) as Hw.
    pose proof (Run_cycle_reconnects (backoff_at k) cy st (proj1 (proj1 Hcy))) as Hr.
    destruct (Run_cycle c (backoff_at k) cy st) as [e st1].
    cbn [fst snd] in Hw, Hr. subst e.
    destruct (IH (S k) st1 (slept ++ [backoff_at k])%list Hrest) as (A & B & C).
    cbv zeta. rewrite A, B, C, Hr. repeat split.
    + rewrite <- app_assoc. reflexivity.
    + f_equal. f_equal. lia.
    + rewrite Nat.iter_succ_r. reflexivity.
Qed.

(** Read on [time.Since(start)], the time from before the dial to the
    end of the cycle: each cycle that fails without cancellation counts one
    reconnect; [n] failures in a row from the start, each within two
    minutes of its start, sleep 1, 2, 4, ... seconds capped at 60, and
    count [n] reconnects; and after a cycle longer than two minutes the
    wait is one second again, whatever the backoff was, and doubles again
    from there. *)
Lemma Run_reconnects_and_backoff :
  (forall (b : Z) (cy : cycle) (st : Client.state),
      ctx_err cy = false ->
      reconnects (Client.collector (snd (Run_cycle c b cy st)))
      = (reconnects (Client.collector st) + 1)%float)
  /\ (forall (cycles : list cycle) (st : Client.state),
        Forall quick_failure cycles ->
        let n := List.length cycles in
        waits (Run c cycles st) = map backoff_at (seq 0 n)
        /\ running (Run c cycles st) = Some (backoff_at n)
        /\ reconnects (Client.collector (final (Run c cycles st)))
           = Nat.iter n (fun x => (x + 1)%float)
               (reconnects (Client.collector st)))
  /\ (forall (b : Z) (cy : cycle) (cycles : list cycle)
             (st : Client.state) (slept : list Z),
        late_failure cy ->
        Forall quick_failure cycles ->
        fst (Run_cycle c b cy st) = waited Second (2 * Second)
        /\ waits (Run_from c b (cy :: cycles) st slept)
           = (slept ++ map backoff_at (seq 0 (S (List.length cycles))))%list).
Proof.
  split; [| split].
  - apply Run_cycle_reconnects.
  - intros cycles st Hall n. unfold Run.
    change Second with (backoff_at 0).
    destruct (Run_from_quick 0 st [] Hall) as (A & B & C).
    repeat split; assumption.
  - intros b cy cycles st slept Hcy Hall.
    pose proof (Run_cycle_late b st Hcy) as Hw.
    split; [exact Hw |].
    cbn [Run_from]. destruct (Run_cycle c b cy st) as [e st1].
    cbn [fst] in Hw. subst e.
    destruct (Run_from_quick 1 st1 (slept ++ [backoff_at 0])%list Hall)
      as (A & _).
    rewrite A, <- app_assoc. reflexivity.
Qed.

(** Failures without a connected session, each after more than two
    minutes: every wait is one second. *)
Lemma Run_from_slow_attempts (cycles : list cycle) :
  forall (b : Z) (st : Client.state) (slept : list Z),
    Forall (slow_failed_attempt c) cycles ->
    waits (Run_from c b cycles st slept)
    = (slept ++ repeat Second (List.length cycles))%list.
Proof.
  induction cycles as [| cy cycles IH]; intros b st slept Hall.
  - cbn. rewrite app_nil_r. reflexivity.
  - inversion Hall as [| cy' rest (Hf & _ & Hlate) Hrest]; subst.
    pose proof (@Run_cycle_late b cy st (conj Hf Hlate)) as Hw.
    cbn [Run_from]. destruct (Run_cycle c b cy st) as [e st1].
    cbn [fst] in Hw. subst e.
    rewrite (IH _ st1 _ Hrest), <- app_assoc. reflexivity.
Qed.

End StreamFacts.

(** C3.  The backoff is reset by the time since the start of the cycle,
    which is taken before the dial, not by the time the connection was up:
    failures that never had a connected session, each ending more than
    two minutes after its start (a dial that times out), are all followed
    by a wait of one second, where quick failures in a row are to wait 1,
    2, 4, 8, ... seconds.  So it is for six dials that time out after 127
    seconds each. *)
Theorem Run_resets_backoff_without_a_session :
  (forall (L : GoLibrary) (c : Client.t) (cycles : list cycle)
          (st : Client.state),
      Forall (slow_failed_attempt c) cycles ->
      waits (Run c cycles st) = repeat Second (List.length cycles)
      /\ Forall (fun cy => forall st', snd (connectAndRead c (conn cy) st') = st')
           cycles)
  /\ (let c := NewClient "abc123secret" "12345" in
      let cycles := repeat timed_out_cycle 6 in
      Forall (@slow_failed_attempt example_library c) cycles
      /\ waits (@Run example_library c cycles example_state)
         = map (fun s => (s * Second)%Z) [1; 1; 1; 1; 1; 1]%Z
      /\ map backoff_at (seq 0 6)
         = map (fun s => (s * Second)%Z) [1; 2; 4; 8; 16; 32]%Z
      /\ connected (Client.collector
                      (final (@Run example_library c cycles example_state)))
         = false
      /\ Client.slog (final (@Run example_library c cycles example_state))
         = repeat (Warn_websocket_disconnected
                     "websocket dial failed: dial tcp 203.0.113.7:443: connect: connection timed out"
                     Second) 6).
Proof.
  split.
  - intros L c cycles st Hall. split.
    + unfold Run. rewrite (Run_from_slow_attempts Second st [] Hall).
      reflexivity.
    + apply Forall_forall. intros cy Hin st'.
      rewrite Forall_forall in Hall. destruct (Hall cy Hin) as (_ & Hh & _).
      revert Hh. unfold handshake, connectAndRead.
      destruct (dial (conn cy) _); [reflexivity |].
      destruct (strconv_Atoi (Client.deviceID c)); cbn; [| reflexivity].
      destruct (write (conn cy)); [reflexivity | discriminate].
  - cbv zeta. split.
    + repeat constructor; cbn; unfold Minute, Second; lia.
    + repeat split.
Qed.

(** [TestReadLoop_UnparseableMessages]: two unparseable messages, then an
    observation.  The second one brings the counter to 2 and is not logged;
    the observation after it is still stored. *)
Lemma readLoop_parse_errors_witness :
  let c := NewClient "abc123secret" "12345" in
  let before := @after_messages example_library ["not json at all"] example_state in
  let after := @readLoop_message example_library "also {{{ invalid" before in
  Client.parseErrors before = 1%Z
  /\ Client.parseErrors after = 2%Z
  /\ Client.slog after = Client.slog before
  /\ hasObs (Client.collector
               (snd (@readLoop example_library c
                       ["not json at all"; "also {{{ invalid"; "{obs_st"]
                       "EOF" example_state))) = true.
Proof.
  cbv zeta.
  destruct (@readLoop_parse_errors example_library
              (NewClient "abc123secret" "12345")
              ["not json at all"] ["{obs_st"] "also {{{ invalid" "EOF"
              "invalid character" example_state eq_refl)
    as (A & B & C & D).
  - cbn. lia.
  - cbn. unfold MaxInt64. lia.
  - split; [reflexivity |]. split; [exact A |]. split.
    + rewrite C. reflexivity.
    + cbn [app] in D. rewrite D. reflexivity.
Defined.

(** [TestRun_BackoffIncreases], longer: eight connections closed at once
    sleep 1, 2, 4, 8, 16, 32, 60 and 60 seconds and count eight
    reconnects; a failure after a session of five minutes sleeps one
    second, whatever the backoff was. *)
Lemma Run_reconnects_and_backoff_witness :
  let c := NewClient "abc123secret" "12345" in
  Forall quick_failure (repeat quick_cycle 8)
  /\ late_failure late_cycle
  /\ waits (@Run example_library c (repeat quick_cycle 8) example_state)
     = map (fun s => (s * Second)%Z) [1; 2; 4; 8; 16; 32; 60; 60]%Z
  /\ reconnects (Client.collector
                   (final (@Run example_library c (repeat quick_cycle 8)
                             example_state))) = 8%float
  /\ fst (@Run_cycle example_library c (60 * Second) late_cycle example_state)
     = waited Second (2 * Second).
Proof.
  cbv zeta.
  assert (Q : Forall quick_failure (repeat quick_cycle 8)).
  { repeat constructor; cbn; unfold Minute, Second; lia. }
  assert (S : late_failure late_cycle).
  { repeat constructor; cbn; unfold Minute, Second; lia. }
  destruct (@Run_reconnects_and_backoff example_library
              (NewClient "abc123secret" "12345")) as (_ & B & C).
  destruct (B _ example_state Q) as (W & _ & R).
  destruct (C (60 * Second)%Z late_cycle [] example_state [] S (Forall_nil _))
    as (W' & _).
  split; [exact Q |]. split; [exact S |]. split; [| split].
  - rewrite W. reflexivity.
  - rewrite R. reflexivity.
  - exact W'.
Defined.

(* ================================================================= *)
(** ** PollingFallback *)

Section FallbackFacts.
Context {L : GoLibrary}.
Variable r : RESTClient.t.
Variable threshold : Z.

Local Abbreviation step := (RunFallback_tick r threshold).
Local Abbreviation run_from := (RunFallback_from r threshold).
Local Abbreviation marker := RESTClient.disconnectedSince.




Lemma RunFallback_from_cons (t : tick) (post : list tick) (st : RESTClient.state) :
  run_from (t :: post) st
  = (fst (step t st) :: fst (run_from post (snd (step t st))),
     snd (run_from post (snd (step t st)))).
Proof.
  cbn [RunFallback_from]. destruct (step t st) as [a st1]. cbn.
  destruct (run_from post st1); reflexivity.
Qed.





End FallbackFacts.


(* ================================================================= *)
(** ** ObservationCodec: the frame beyond its eighteen slots, and the sign
    of a timestamp *)

Section CodecSlots.
Context {L : GoLibrary}.

Lemma at_app (raw extra : list any) (i : nat) :
  (i < List.length raw)%nat -> at_ (raw ++ extra)%list i = at_ raw i.
Proof. intros Hi. unfold at_. apply app_nth1. exact Hi. Qed.

(** X1.  The slots after the eighteenth are not read: a frame decodes as its
    first eighteen slots do, whatever follows them. *)
Theorem ParseObservation_ignores_trailing_slots (raw extra : list any) :
  (obsSTFieldCount <= List.length raw)%nat ->
  ParseObservation (raw ++ extra)%list = ParseObservation raw.
Proof.
  intros Hlen. unfold obsSTFieldCount in Hlen.
  rewrite (ParseObservation_long raw Hlen).
  rewrite ParseObservation_long
    by (rewrite length_app; unfold obsSTFieldCount; lia).
  rewrite !at_app by lia. reflexivity.
Qed.

(** X2.  Both decoders drop the fraction of a timestamp, truncating toward
    zero; the stream decoder keeps a negative timestamp, the poll decoder
    turns it into 0.  For a float whose integer part [t] is an [int64]:
    a frame with that slot 0 decodes with the timestamp [t], and a poll
    response with that timestamp gives [t] when [t] is not negative, and
    0 otherwise. *)
Theorem timestamp_is_truncated_and_poll_drops_negative
  (n : float) (t : Z) (raw : list any) (ro : restObs.t) :
  float64_trunc n = Some t ->
  (MinInt64 <= t <= MaxInt64)%Z ->
  (obsSTFieldCount <= List.length raw)%nat ->
  at_ raw 0 = any_float64 n ->
  restObs.Timestamp ro = Some n ->
  (exists o, ParseObservation raw = Ok o /\ Timestamp o = t)
  /\ Timestamp (restObsToObservation ro) = (if (0 <=? t)%Z then t else 0%Z).
Proof.
  intros Ht Hr Hlen H0 Hro. split.
  - destruct (ParseObservation_decodes raw t Hlen) as (o & Ho & Hts & _).
    + rewrite H0. cbn. split; [exact Ht | exact Hr].
    + exists o. split; assumption.
  - rewrite restObsToObservation_Timestamp, Hro, Ht.
    unfold MinInt64, MaxInt64 in *.
    destruct (Z.leb_spec 0 t); cbn [andb].
    + destruct (Z.leb_spec t (2 ^ 63 - 1)); [reflexivity | lia].
    + destruct (Z.eqb_spec t (2 ^ 63 - 1 + 1)); [lia | reflexivity].
Qed.

End CodecSlots.

Lemma ParseObservation_ignores_trailing_slots_witness :
  (obsSTFieldCount <= List.length validObsArray)%nat
  /\ @ParseObservation example_library
       (validObsArray ++ [any_string "one more"; any_nil])%list
     = @ParseObservation example_library validObsArray.
Proof.
  assert (H : (obsSTFieldCount <= List.length validObsArray)%nat)
    by (unfold obsSTFieldCount; cbn; lia).
  split; [exact H |].
  exact (@ParseObservation_ignores_trailing_slots example_library
           validObsArray [any_string "one more"; any_nil] H).
Defined.

Lemma timestamp_is_truncated_and_poll_drops_negative_witness :
  (exists o, @ParseObservation example_library
               (set_slot validObsArray 0 (any_float64 (-5.5))) = Ok o
             /\ Timestamp o = (-5)%Z)
  /\ Timestamp (@restObsToObservation example_library (restObs_at (-5.5))) = 0%Z.
Proof.
  apply (@timestamp_is_truncated_and_poll_drops_negative example_library
           (-5.5)%float (-5)%Z
           (set_slot validObsArray 0 (any_float64 (-5.5))) (restObs_at (-5.5))).
  - reflexivity.
  - unfold MinInt64, MaxInt64. lia.
  - unfold obsSTFieldCount. cbn. lia.
  - reflexivity.
  - reflexivity.
Defined.

(* ================================================================= *)
(** ** SnapshotStore: which metrics a scrape shows *)

Section ExportFacts.
Context {L : GoLibrary}.

Lemma map_desc_known_gauge (lv : list string) (d : Desc) (v : float) :
  map metric_desc (known_gauge lv d v) = if negb (math_IsNaN v) then [d] else [].
Proof. unfold known_gauge. destruct (negb (math_IsNaN v)); reflexivity. Qed.

Lemma filter_flat_map (A : Type) (p : A -> bool) (l : list A) :
  filter p l = flat_map (fun x => if p x then [x] else []) l.
Proof.
  induction l as [| x l IH]; cbn; [reflexivity |].
  rewrite IH. destruct (p x); reflexivity.
Qed.

(** The descriptors of the metrics of a scrape, in order: those of
    [Collect_order] that are [exported], each once. *)
Lemma scrape_metric_desc (c : Collector) :
  map metric_desc (scrape c) = filter (exported c) Collect_order.
Proof.
  rewrite filter_flat_map.
  unfold Collect_order. cbn [flat_map].
  unfold scrape. cbv zeta.
  destruct (hasObs c) eqn:Hobs; cbn [negb].
  - rewrite !map_app, !map_desc_known_gauge.
    unfold exported; cbn [gauge_source]; rewrite Hobs; cbn [andb].
    rewrite !andb_true_r.
    destruct (0 <? rainStart c)%float.
    + rewrite map_desc_known_gauge, andb_true_r.
      cbn [map metric_desc app]. rewrite app_nil_r. reflexivity.
    + rewrite andb_false_r. cbn [map metric_desc app].
      rewrite !app_nil_r. reflexivity.
  - unfold exported; cbn [gauge_source]; rewrite Hobs. reflexivity.
Qed.
Lemma In_Collect_order (d : Desc) : In d Collect_order.
Proof. destruct d; cbn; tauto. Qed.

Lemma NoDup_Collect_order : NoDup Collect_order.
Proof.
  unfold Collect_order.
  repeat (constructor; [cbn; intuition discriminate |]). constructor.
Qed.

Lemma fqName_injective (d d' : Desc) : fqName d = fqName d' -> d = d'.
Proof. destruct d, d'; intros H; try reflexivity; discriminate H. Qed.

Lemma NoDup_map_injective (A B : Type) (f : A -> B) (l : list A) :
  (forall x y, f x = f y -> x = y) -> NoDup l -> NoDup (map f l).
Proof.
  intros Hinj. induction 1 as [| x l Hnotin Hnd IH]; cbn; constructor; auto.
  intros Hin. apply in_map_iff in Hin as (y & Hy & Hin).
  apply Hinj in Hy. subst y. contradiction.
Qed.

(** What a metric of a scrape is made of. *)
Lemma In_scrape (c : Collector) (m : Metric) :
  In m (scrape c) ->
  metric_labels m = [stationID c; stationName c]
  /\ metric_type m = value_type (metric_desc m).
Proof.
  intros Hin. unfold scrape in Hin. cbv zeta in Hin.
  assert (E : forall d v,
             In m (known_gauge [stationID c; stationName c] d v) ->
             value_type d = GaugeValue ->
             metric_labels m = [stationID c; stationName c]
             /\ metric_type m = value_type (metric_desc m)).
  { intros d v H Hd. apply In_known_gauge in H as [-> _]. cbn.
    rewrite Hd. split; reflexivity. }
  destruct (hasObs c); cbn [negb] in Hin.
  - rewrite !in_app_iff in Hin.
    repeat (destruct Hin as [Hin | Hin];
            [first [ exact (E _ _ Hin eq_refl)
                   | cbn in Hin;
                     repeat (destruct Hin as [<- | Hin];
                             [split; reflexivity |]);
                     destruct Hin ] |]).
    destruct (0 <? rainStart c)%float; [exact (E _ _ Hin eq_refl) | destruct Hin].
  - cbn in Hin.
    repeat (destruct Hin as [<- | Hin]; [split; reflexivity |]).
    destruct Hin.
Qed.

Lemma exported_iff (c : Collector) (d : Desc) :
  (exists m, In m (scrape c) /\ metric_desc m = d) <-> exported c d = true.
Proof.
  pose proof (In_Collect_order d) as Hd.
  pose proof (in_map_iff metric_desc (scrape c) d) as Hm.
  rewrite scrape_metric_desc, filter_In in Hm.
  split.
  - intros (m & Hin & E). apply Hm. exists m. split; assumption.
  - intros E. destruct (proj1 Hm (conj Hd E)) as (m & Em & Hin).
    exists m. split; assumption.
Qed.

Lemma not_exported (c : Collector) (d : Desc) (m : Metric) :
  exported c d = false -> In m (sent (Collect c)) -> metric_desc m <> d.
Proof.
  intros Hx Hin E.
  assert (X : exported c d = true).
  { apply exported_iff. exists m. split; [| exact E].
    apply In_sent_Collect. exact Hin. }
  congruence.
Qed.

(** X3.  [Collect] emits a metric only for a descriptor that is
    [exported]: the three health metrics; the last-observation timestamp
    once an observation is stored; an observation or derived gauge once an
    observation is stored and the value is not NaN; the rain start
    moreover only when positive.  With a station id and a station name
    that are valid UTF-8 it emits a metric for every such descriptor; with
    one that is not, it emits none. *)
Theorem Collect_shows_exactly_the_exported (c : Collector) (d : Desc) :
  ((exists m, In m (sent (Collect c)) /\ metric_desc m = d) ->
   exported c d = true)
  /\ (valid_labels c = true ->
      exported c d = true ->
      exists m, In m (sent (Collect c)) /\ metric_desc m = d)
  /\ (valid_labels c = false -> sent (Collect c) = []).
Proof.
  split; [| split].
  - intros (m & Hin & E). apply exported_iff. exists m.
    split; [apply In_sent_Collect; exact Hin | exact E].
  - intros H Hx. rewrite (Collect_valid c H). cbn [sent].
    apply exported_iff. exact Hx.
  - intros H. rewrite (Collect_invalid c H). reflexivity.
Qed.

(** X4.  No two metrics of a scrape have the same name (the registry rejects a
    scrape that repeats a metric with the same labels). *)
Theorem Collect_metric_names_are_distinct (c : Collector) :
  NoDup (map (fun m => fqName (metric_desc m)) (sent (Collect c))).
Proof.
  rewrite sent_Collect. destruct (valid_labels c); [| constructor].
  rewrite <- (map_map metric_desc fqName), scrape_metric_desc.
  apply NoDup_map_injective; [exact fqName_injective |].
  apply NoDup_filter. exact NoDup_Collect_order.
Qed.

(** X5.  Every metric of a scrape fits what [Describe] announced: its
    descriptor is one of [allDescs], it carries one value for each of the
    two label names (the station id and the station name of the
    collector), and it is a counter for the two totals and a gauge
    otherwise. *)
Theorem Collect_fits_Describe (c : Collector) (m : Metric) :
  In m (sent (Collect c)) ->
  In (metric_desc m) (Describe c)
  /\ metric_labels m = [stationID c; stationName c]
  /\ List.length (metric_labels m) = List.length labels
  /\ metric_type m = value_type (metric_desc m).
Proof.
  intros Hin%In_sent_Collect. destruct (In_scrape c m Hin) as [Hl Ht].
  split; [| split; [exact Hl | split; [rewrite Hl; reflexivity | exact Ht]]].
  unfold Describe, allDescs. destruct (metric_desc m); cbn; tauto.
Qed.

(** The gauge behind a slot of a decoded frame. *)
Lemma gauge_source_of_slot (c : Collector) (raw : list any) (o : Observation)
      (d : Desc) (i : nat) :
  ParseObservation raw = Ok o ->
  slot_of d = Some i ->
  gauge_source (UpdateObservation c o) d = Some (toFloat (at_ raw i)).
Proof.
  unfold ParseObservation. intros Ho Hd.
  destruct (List.length raw <? obsSTFieldCount)%nat; [discriminate |].
  destruct (toInt64 (at_ raw 0)); [| discriminate].
  injection Ho as <-.
  destruct d; cbn in Hd; try discriminate; injection Hd as <-; reflexivity.
Qed.

(** X6.  From the stream to the scrape: after a frame is decoded and
    stored, no metric is shown for the gauge of a slot that decodes to NaN
    (a null slot, or one of another type); and when the station id and the
    station name are valid UTF-8, the gauge of a slot that decodes to a
    number is shown, with the decoded value. *)
Theorem stream_slot_at_export (c : Collector) (raw : list any)
        (o : Observation) (d : Desc) (i : nat) :
  ParseObservation raw = Ok o ->
  slot_of d = Some i ->
  let c' := UpdateObservation c o in
  let v := toFloat (at_ raw i) in
  (valid_labels c = true -> math_IsNaN v = false ->
   In (gauge c' d v) (sent (Collect c')))
  /\ (math_IsNaN v = true ->
      forall m, In m (sent (Collect c')) -> metric_desc m <> d).
Proof.
  intros Ho Hd c' v.
  pose proof (gauge_source_of_slot c raw d Ho Hd) as Hsrc. fold c' v in Hsrc.
  split.
  - intros Hl Hv. apply Collect_exports_known; try assumption; [reflexivity |].
    intros ->. discriminate Hd.
  - intros Hv m. apply not_exported.
    unfold exported. rewrite Hsrc, Hv. cbn [negb].
    rewrite andb_false_r. reflexivity.
Qed.

(** The gauge behind a field of a converted poll response. *)
Lemma gauge_source_of_field (c : Collector) (ro : restObs.t) (d : Desc)
      (p : option float) :
  restObs_field ro d = Some p ->
  gauge_source (UpdateObservation c (restObsToObservation ro)) d
  = Some (deref p).
Proof.
  intros Hd. unfold restObsToObservation.
  destruct (restObs.Timestamp ro) as [ts |];
    [destruct ((0 <=? ts)%float && (ts <=? float64_MaxInt64)%float) |];
    destruct d; cbn in Hd; try discriminate; injection Hd as <-; reflexivity.
Qed.

(** X7.  From the poll to the scrape, for a station id and a station
    name that are valid UTF-8: after a poll response is converted and
    stored, a field that is absent from the response is shown as a gauge
    with the value 0 (it is not left out, as a null slot of the stream
    is), and a field that is present is shown with its value. *)
Theorem poll_field_at_export (c : Collector) (ro : restObs.t) (d : Desc)
        (p : option float) :
  valid_labels c = true ->
  restObs_field ro d = Some p ->
  let c' := UpdateObservation c (restObsToObservation ro) in
  (p = None -> In (gauge c' d 0) (sent (Collect c')))
  /\ (forall v, p = Some v -> math_IsNaN v = false ->
                In (gauge c' d v) (sent (Collect c'))).
Proof.
  intros Hl Hd c'.
  pose proof (gauge_source_of_field c ro d Hd) as Hsrc. fold c' in Hsrc.
  assert (Hrain : d = descRainStartEpoch -> (0 <? rainStart c')%float = true)
    by (intros ->; discriminate Hd).
  split.
  - intros ->. apply Collect_exports_known; try assumption; reflexivity.
  - intros v -> Hv. apply Collect_exports_known; try assumption; reflexivity.
Qed.

(** X8.  A rain start that arrives before the first observation is kept
    in the store, but no scrape shows it until an observation is stored
    (the scrape shows the health metrics at most); from then on, with a
    station id and a station name that are valid UTF-8, the scrape shows
    it, with the epoch of the event. *)
Theorem rain_start_is_shown_once_an_observation_is_stored
  (data : string) (st : Client.state) (msg : PrecipEvent.t)
  (v : any) (rest : list any) :
  json_Unmarshal_PrecipEvent data = Ok msg ->
  PrecipEvent.Evt msg = v :: rest ->
  (0 <? toFloat v)%float = true ->
  let epoch := toFloat v in
  let k := Client.collector (handlePrecip data st) in
  rainStart k = epoch
  /\ (hasObs (Client.collector st) = false ->
      forall m, In m (sent (Collect k)) -> In m (health_metrics k))
  /\ (valid_labels (Client.collector st) = true ->
      forall o, In (gauge k descRainStartEpoch epoch)
                   (sent (Collect (UpdateObservation k o)))).
Proof.
  intros Hmsg Hevt Hpos epoch k.
  assert (Hnan : math_IsNaN epoch = false).
  { subst epoch. unfold math_IsNaN, is_nan.
    destruct (toFloat v =? toFloat v)%float eqn:E; [reflexivity |].
    exfalso. rewrite eqb_spec in E. rewrite ltb_spec in Hpos.
    destruct (Prim2SF (toFloat v)) as [s | s | | s m e];
      try destruct s; try discriminate.
    all: rewrite SFeqb_finite_refl in E; discriminate. }
  assert (Hk : k = SetRainStart (Client.collector st) epoch).
  { subst k. unfold handlePrecip. rewrite Hmsg, Hevt. cbn [List.length Nat.leb].
    unfold at_. cbn [nth]. fold epoch. rewrite Hnan. reflexivity. }
  split; [rewrite Hk; reflexivity |]. split.
  - intros Hobs m Hin%In_sent_Collect.
    rewrite (proj1 (scrape_health k)) in Hin; [exact Hin |].
    rewrite Hk. exact Hobs.
  - intros Hl o.
    change (gauge k descRainStartEpoch epoch)
      with (gauge (UpdateObservation k o) descRainStartEpoch epoch).
    apply Collect_exports_known; try assumption; try reflexivity.
    + rewrite Hk. exact Hl.
    + rewrite Hk. reflexivity.
    + intros _. rewrite Hk. exact Hpos.
Qed.

(** X9.  A poll response without a humidity shows no dew point:
    [DewPoint] is unknown at a humidity of 0, and the scrape leaves the
    gauge out; the humidity itself is shown as 0, when the station id and
    the station name are valid UTF-8. *)
Theorem poll_without_humidity_shows_no_dew_point (c : Collector) (ro : restObs.t) :
  restObs.RelativeHumidity ro = None ->
  let c' := UpdateObservation c (restObsToObservation ro) in
  (valid_labels c = true ->
   In (gauge c' descRelativeHumidity 0) (sent (Collect c')))
  /\ forall m, In m (sent (Collect c')) -> metric_desc m <> descDewPoint.
Proof.
  intros Hh c'.
  assert (Hrh : RelativeHumidity (obs c') = 0%float).
  { destruct (restObsToObservation_absent_fields ro)
      as (_ & _ & _ & _ & _ & _ & H & _).
    exact (H Hh). }
  split.
  - intros Hl. apply Collect_exports_known; try reflexivity.
    + exact Hl.
    + cbn [gauge_source]. rewrite Hrh. reflexivity.
    + intros E. discriminate E.
  - intros m. apply not_exported.
    unfold exported. cbn [gauge_source].
    rewrite Hrh. unfold DewPoint.
    change (0 <=? 0)%float with true.
    rewrite !orb_true_r. cbv iota.
    change (math_IsNaN math_NaN) with true. cbn [negb].
    rewrite andb_false_r. reflexivity.
Qed.

End ExportFacts.

Lemma Collect_fits_Describe_witness :
  let m := gauge example_collector descRainStartEpoch 1700000100 in
  In m (sent (@Collect example_library example_collector))
  /\ In (metric_desc m) (Describe example_collector)
  /\ metric_labels m = ["12345"; "backyard"]
  /\ List.length (metric_labels m) = List.length labels
  /\ metric_type m = GaugeValue.
Proof.
  assert (H : In (gauge example_collector descRainStartEpoch 1700000100)
                (sent (@Collect example_library example_collector)))
    by (vm_compute; tauto).
  split; [exact H |].
  exact (@Collect_fits_Describe example_library example_collector _ H).
Defined.

Lemma stream_slot_at_export_witness :
  let raw := set_slot validObsArray 1 any_nil in
  let c' := UpdateObservation (NewCollector "12345" "backyard") (decoded raw) in
  @ParseObservation example_library raw = Ok (decoded raw)
  /\ In (gauge c' descWindAvg 1.2) (sent (@Collect example_library c'))
  /\ forall m, In m (sent (@Collect example_library c')) ->
               metric_desc m <> descWindLull.
Proof.
  cbv zeta. split; [reflexivity |]. split.
  - apply (proj1 (@stream_slot_at_export example_library
                    (NewCollector "12345" "backyard")
                    (set_slot validObsArray 1 any_nil)
                    (decoded (set_slot validObsArray 1 any_nil))
                    descWindAvg 2 eq_refl eq_refl)).
    + reflexivity.
    + reflexivity.
  - apply (proj2 (@stream_slot_at_export example_library
                    (NewCollector "12345" "backyard")
                    (set_slot validObsArray 1 any_nil)
                    (decoded (set_slot validObsArray 1 any_nil))
                    descWindLull 1 eq_refl eq_refl)).
    reflexivity.
Defined.

Lemma poll_field_at_export_witness :
  let c' := UpdateObservation (NewCollector "99999" "backyard")
              (@restObsToObservation example_library (restObs_at 1700000000)) in
  In (gauge c' descBattery 0) (sent (@Collect example_library c')).
Proof.
  exact (proj1 (@poll_field_at_export example_library
                  (NewCollector "99999" "backyard") (restObs_at 1700000000)
                  descBattery None eq_refl eq_refl) eq_refl).
Defined.

Lemma rain_start_is_shown_once_an_observation_is_stored_witness :
  let k := Client.collector
             (@handlePrecip example_library "{evt_precip" example_state) in
  rainStart k = 1700000000%float
  /\ (hasObs (Client.collector example_state) = false ->
      forall m, In m (sent (@Collect example_library k)) ->
                In m (health_metrics k))
  /\ (valid_labels (Client.collector example_state) = true ->
      forall o, In (gauge k descRainStartEpoch 1700000000)
                   (sent (@Collect example_library (UpdateObservation k o)))).
Proof.
  exact (@rain_start_is_shown_once_an_observation_is_stored example_library
           "{evt_precip" example_state
           {| PrecipEvent.Type_ := "evt_precip"; PrecipEvent.DeviceID := 12345;
              PrecipEvent.Evt := [any_float64 1700000000] |}
           (any_float64 1700000000) [] eq_refl eq_refl eq_refl).
Defined.

Lemma poll_without_humidity_shows_no_dew_point_witness :
  let c' := UpdateObservation (NewCollector "99999" "backyard")
              (@restObsToObservation example_library (restObs_at 1700000000)) in
  In (gauge c' descRelativeHumidity 0) (sent (@Collect example_library c'))
  /\ forall m, In m (sent (@Collect example_library c')) ->
               metric_desc m <> descDewPoint.
Proof.
  destruct (@poll_without_humidity_shows_no_dew_point example_library
              (NewCollector "99999" "backyard") (restObs_at 1700000000) eq_refl)
    as [A B].
  split; [exact (A eq_refl) | exact B].
Defined.

(* ================================================================= *)
(** ** DerivedMetrics: unknown inputs *)

Section UnknownInputs.
Context {L : GoLibrary}.
Local Open Scope float_scope.

Lemma is_nan_Prim2SF (f : float) :
  math_IsNaN f = true -> Prim2SF f = S754_nan.
Proof.
  unfold math_IsNaN, is_nan. rewrite eqb_spec.
  destruct (Prim2SF f) as [s | s | | s m e]; try reflexivity.
  - destruct s; discriminate.
  - destruct s; discriminate.
  - rewrite SFeqb_finite_refl. discriminate.
Qed.

Lemma is_nan_eq (f : float) : math_IsNaN f = true -> f = nan.
Proof.
  intros H. apply Prim2SF_inj. rewrite (@is_nan_Prim2SF f H). reflexivity.
Qed.

Lemma ltb_nan_r (x y : float) : math_IsNaN y = true -> (x <? y) = false.
Proof.
  intros H. rewrite ltb_spec, (@is_nan_Prim2SF y H).
  destruct (Prim2SF x) as [s | s | | s m e]; try destruct s; reflexivity.
Qed.

Lemma leb_nan_r (x y : float) : math_IsNaN y = true -> (x <=? y) = false.
Proof.
  intros H. rewrite leb_spec, (@is_nan_Prim2SF y H).
  destruct (Prim2SF x) as [s | s | | s m e]; try destruct s; reflexivity.
Qed.

Lemma mul_nan_l (x y : float) : math_IsNaN x = true -> math_IsNaN (x * y) = true.
Proof.
  intros H.
  assert (E : x * y = nan).
  { apply Prim2SF_inj. rewrite mul_spec, (@is_nan_Prim2SF x H). reflexivity. }
  rewrite E. reflexivity.
Qed.

Lemma FeelsLike_no_wind_no_humidity (tempC humidityPct windMps : float) :
  math_IsNaN humidityPct = true ->
  math_IsNaN windMps = true ->
  FeelsLike tempC humidityPct windMps = tempC.
Proof.
  intros Hh Hw. unfold FeelsLike.
  destruct (math_IsNaN tempC) eqn:Ht.
  - symmetry. apply is_nan_eq. exact Ht.
  - cbv zeta.
    rewrite (@ltb_nan_r 4.8 _ (@mul_nan_l windMps 3.6 Hw)), andb_false_r.
    rewrite (@leb_nan_r 40.0 _ Hh), andb_false_r. reflexivity.
Qed.

(** X10.  [FeelsLike] with an unknown wind never takes the wind-chill tier, and
    with an unknown humidity never the heat-index tier; with both unknown
    it is the temperature itself. *)
Theorem FeelsLike_with_unknown_inputs (tempC humidityPct windMps : float) :
  (math_IsNaN windMps = true ->
   FeelsLike tempC humidityPct windMps
   = if math_IsNaN tempC then math_NaN
     else if (27.0 <=? tempC) && (40.0 <=? humidityPct)
          then heat_index tempC humidityPct else tempC)
  /\ (math_IsNaN humidityPct = true ->
      FeelsLike tempC humidityPct windMps
      = if math_IsNaN tempC then math_NaN
        else if (tempC <? 10.0) && (4.8 <? windMps * 3.6)
             then wind_chill tempC (windMps * 3.6) else tempC)
  /\ (math_IsNaN humidityPct = true -> math_IsNaN windMps = true ->
      FeelsLike tempC humidityPct windMps = tempC).
Proof.
  split; [| split].
  - intros Hw. unfold FeelsLike. cbv zeta.
    rewrite (@ltb_nan_r 4.8 _ (@mul_nan_l windMps 3.6 Hw)), andb_false_r.
    reflexivity.
  - intros Hh. unfold FeelsLike. cbv zeta.
    rewrite (@leb_nan_r 40.0 _ Hh), andb_false_r. reflexivity.
  - apply FeelsLike_no_wind_no_humidity.
Qed.

(** X11.  At the export: with a known temperature and both the humidity
    and the wind unknown, no dew-point gauge is shown, and the feels-like
    gauge is shown with the temperature as its value (when the station id
    and the station name are valid UTF-8, so that [Collect] does not
    panic). *)
Theorem export_without_humidity_and_wind (c : Collector) :
  hasObs c = true ->
  math_IsNaN (AirTemperature (obs c)) = false ->
  math_IsNaN (RelativeHumidity (obs c)) = true ->
  math_IsNaN (WindAvg (obs c)) = true ->
  (valid_labels c = true ->
   In (gauge c descFeelsLike (AirTemperature (obs c))) (sent (Collect c)))
  /\ forall m, In m (sent (Collect c)) -> metric_desc m <> descDewPoint.
Proof.
  intros Hobs Ht Hh Hw. split.
  - intros Hl. apply Collect_exports_known; try assumption; [| discriminate].
    cbn. rewrite (@FeelsLike_no_wind_no_humidity _ _ _ Hh Hw). reflexivity.
  - intros m. apply not_exported.
    unfold exported. cbn [gauge_source].
    unfold DewPoint. rewrite Hh, orb_true_r. cbv iota.
    change (math_IsNaN math_NaN) with true. cbn [negb].
    rewrite andb_false_r. reflexivity.
Qed.

End UnknownInputs.

Lemma export_without_humidity_and_wind_witness :
  let c := UpdateObservation (NewCollector "12345" "backyard")
             (decoded (set_slot (set_slot validObsArray 2 any_nil) 8 any_nil)) in
  In (gauge c descFeelsLike 22.5) (sent (@Collect example_library c))
  /\ forall m, In m (sent (@Collect example_library c)) ->
               metric_desc m <> descDewPoint.
Proof.
  destruct (@export_without_humidity_and_wind example_library
              (UpdateObservation (NewCollector "12345" "backyard")
                 (decoded (set_slot (set_slot validObsArray 2 any_nil) 8 any_nil)))
              eq_refl eq_refl eq_refl eq_refl) as [A B].
  split; [exact (A eq_refl) | exact B].
Defined.

(* ================================================================= *)
(** ** Token redaction: texts without the token *)

Section RedactionMore.

Lemma replace_from_absent (old new s : string) :
  strings_Contains s old = false -> replace_from old new 0 s = s.
Proof.
  induction s as [| a s IH]; [reflexivity |].
  rewrite strings_Contains_cons. intros H.
  apply orb_false_iff in H as [Hp Hs].
  cbn [replace_from]. rewrite Hp, (IH Hs). reflexivity.
Qed.

(** X12.  A text that does not hold the token is returned as it is, byte for
    byte; so is every text when the token is empty. *)
Theorem redactToken_leaves_text_without_token (s token : string) :
  token = "" \/ strings_Contains s token = false ->
  redactToken s token = s.
Proof.
  unfold redactToken, strings_ReplaceAll. intros [-> | H]; [reflexivity |].
  destruct (String.eqb token ""); [reflexivity |].
  apply replace_from_absent. exact H.
Qed.

(** X13.  Redacting twice is redacting once, for a token that shares no byte
    with the placeholder. *)
Theorem redactToken_is_idempotent (s token : string) :
  no_common_byte token placeholder = true ->
  redactToken (redactToken s token) token = redactToken s token.
Proof.
  intros Hp. destruct (String.eqb_spec token "") as [-> | Hne]; [reflexivity |].
  pose proof (redactToken_hides s Hne Hp) as Hh.
  unfold redactToken at 1. unfold strings_ReplaceAll.
  destruct (String.eqb token ""); [reflexivity |].
  apply replace_from_absent. exact Hh.
Qed.

Lemma replace_from_skip (old new u rest : string) :
  replace_from old new (String.length u) (u ++ rest) = replace_from old new 0 rest.
Proof.
  induction u as [| a u IH]; [| exact IH].
  cbn. destruct rest; reflexivity.
Qed.

Lemma prefix_app_self (u rest : string) : prefix u (u ++ rest) = true.
Proof.
  induction u as [| a u IH]; [destruct rest; reflexivity |].
  cbn [append]. rewrite prefix_cons, Ascii.eqb_refl. exact IH.
Qed.

Lemma replace_from_first (old new front rest : string) :
  old <> "" ->
  index 0 old (front ++ old ++ rest) = Some (String.length front) ->
  replace_from old new 0 (front ++ old ++ rest)
  = front ++ new ++ replace_from old new 0 rest.
Proof.
  intros Hne. induction front as [| a front IH]; intros Hi.
  - destruct old as [| o old']; [contradiction |].
    cbn [append replace_from].
    change (String o (old' ++ rest)) with (String o old' ++ rest).
    rewrite prefix_app_self.
    cbn [String.length]. rewrite Nat.sub_0_r + rewrite Nat.sub_succ, Nat.sub_0_r.
    rewrite replace_from_skip. reflexivity.
  - cbn [append String.length index] in Hi.
    cbn [append replace_from].
    change (String a (front ++ old ++ rest))
      with (String a front ++ old ++ rest) in Hi |- *.
    destruct (prefix old (String a front ++ old ++ rest)); [discriminate |].
    cbn [append] in Hi |- *.
    destruct (index 0 old (front ++ old ++ rest)) as [n |]; [| discriminate].
    injection Hi as ->. rewrite (IH eq_refl). reflexivity.
Qed.

(** X14.  Redaction goes through the text from the left: when the first
    occurrence of the token comes right after [front], the text up to it
    is kept, the occurrence is replaced by the placeholder, and the rest
    is redacted in the same way. *)
Theorem redactToken_replaces_the_first_occurrence
  (front token rest : string) :
  token <> "" ->
  index 0 token (front ++ token ++ rest) = Some (String.length front) ->
  redactToken (front ++ token ++ rest) token
  = front ++ "[REDACTED]" ++ redactToken rest token.
Proof.
  intros Hne Hi. unfold redactToken, strings_ReplaceAll.
  destruct (String.eqb_spec token ""); [contradiction |].
  apply replace_from_first; assumption.
Qed.

End RedactionMore.

Lemma redactToken_leaves_text_without_token_witness :
  redactToken "failed to get reader: EOF" "abc123secret"
  = "failed to get reader: EOF".
Proof.
  apply redactToken_leaves_text_without_token. right. reflexivity.
Defined.

Lemma redactToken_is_idempotent_witness :
  let once := redactToken "dial wss://host/data?token=abc123secret: refused"
                "abc123secret" in
  once = "dial wss://host/data?token=[REDACTED]: refused"
  /\ redactToken once "abc123secret" = once.
Proof.
  split; [reflexivity |].
  apply redactToken_is_idempotent. reflexivity.
Defined.

Lemma redactToken_replaces_the_first_occurrence_witness :
  redactToken ("dial wss://host/data?token=" ++ "abc123secret" ++ ": refused")
    "abc123secret"
  = "dial wss://host/data?token=" ++ "[REDACTED]"
    ++ redactToken ": refused" "abc123secret".
Proof.
  apply redactToken_replaces_the_first_occurrence.
  - discriminate.
  - reflexivity.
Defined.

(* ================================================================= *)
(** ** StreamConnector: what the stream can and cannot do to the store *)

Section StreamStore.
Context {L : GoLibrary}.
Variable c : Client.t.

Local Ltac cases :=
  repeat match goal with
    | |- context [match ?x with _ => _ end] => destruct x eqn:?
    end.

Lemma readLoop_message_effect (data : string) (st : Client.state) :
  message_effect (Client.collector st)
    (Client.collector (readLoop_message data st)).
Proof.
  unfold readLoop_message, handleObsST, handleStrike, handlePrecip.
  cases; cbn; constructor.
Qed.

Lemma message_effect_health (k k' : Collector) :
  message_effect k k' -> health_and_labels k' = health_and_labels k.
Proof. intros []; reflexivity. Qed.

Lemma message_effect_hasObs (k k' : Collector) :
  message_effect k k' -> hasObs k = true -> hasObs k' = true.
Proof. intros []; cbn; auto. Qed.

Lemma after_messages_cons (data : string) (msgs : list string)
      (st : Client.state) :
  after_messages (data :: msgs) st = after_messages msgs (readLoop_message data st).
Proof. reflexivity. Qed.

Lemma after_messages_health (msgs : list string) (st : Client.state) :
  health_and_labels (Client.collector (after_messages msgs st))
  = health_and_labels (Client.collector st).
Proof.
  revert st. induction msgs as [| data msgs IH]; intros st; [reflexivity |].
  rewrite after_messages_cons, IH.
  apply message_effect_health, readLoop_message_effect.
Qed.

Lemma after_messages_hasObs (msgs : list string) (st : Client.state) :
  hasObs (Client.collector st) = true ->
  hasObs (Client.collector (after_messages msgs st)) = true.
Proof.
  revert st. induction msgs as [| data msgs IH]; intros st H; [exact H |].
  rewrite after_messages_cons. apply IH.
  exact (message_effect_hasObs (readLoop_message_effect data st) H).
Qed.

(** The handshake decides what [connectAndRead] does. *)
Lemma connectAndRead_no_handshake (k : connection) (st : Client.state) :
  handshake c k = false -> snd (connectAndRead c k st) = st.
Proof.
  unfold handshake, connectAndRead.
  destruct (dial k _); [reflexivity |].
  destruct (strconv_Atoi (Client.deviceID c)); cbn; [| reflexivity].
  destruct (write k); [reflexivity | discriminate].
Qed.

Lemma connectAndRead_handshake (k : connection) (st : Client.state) :
  handshake c k = true ->
  snd (connectAndRead c k st)
  = after_messages (messages k)
      (store_parseErrors 0
         (log (Info_websocket_connected (Client.deviceID c))
            (with_collector (fun x => SetConnected x true) st))).
Proof.
  unfold handshake, connectAndRead.
  destruct (dial k _); [discriminate |].
  destruct (strconv_Atoi (Client.deviceID c)); cbn; [| discriminate].
  destruct (write k); [discriminate |].
  intros _. rewrite readLoop_after_messages. reflexivity.
Qed.

Lemma connectAndRead_connected (k : connection) (st : Client.state) :
  connected (Client.collector (snd (connectAndRead c k st)))
  = handshake c k || connected (Client.collector st).
Proof.
  destruct (handshake c k) eqn:H.
  - rewrite (connectAndRead_handshake k st H).
    pose proof (after_messages_health (messages k)
                  (store_parseErrors 0
                     (log (Info_websocket_connected (Client.deviceID c))
                        (with_collector (fun x => SetConnected x true) st)))) as E.
    unfold health_and_labels in E. injection E as E _ _ _ _. exact E.
  - rewrite (connectAndRead_no_handshake k st H). reflexivity.
Qed.

Lemma connectAndRead_health (k : connection) (st : Client.state) :
  let k' := Client.collector (snd (connectAndRead c k st)) in
  reconnects k' = reconnects (Client.collector st)
  /\ scrapeErrors k' = scrapeErrors (Client.collector st)
  /\ stationID k' = stationID (Client.collector st)
  /\ stationName k' = stationName (Client.collector st).
Proof.
  cbv zeta. destruct (handshake c k) eqn:H.
  - rewrite (connectAndRead_handshake k st H).
    pose proof (after_messages_health (messages k)
                  (store_parseErrors 0
                     (log (Info_websocket_connected (Client.deviceID c))
                        (with_collector (fun x => SetConnected x true) st)))) as E.
    unfold health_and_labels in E. injection E as _ E1 E2 E3 E4.
    repeat split; assumption.
  - rewrite (connectAndRead_no_handshake k st H). repeat split.
Qed.

Lemma connectAndRead_hasObs (k : connection) (st : Client.state) :
  hasObs (Client.collector st) = true ->
  hasObs (Client.collector (snd (connectAndRead c k st))) = true.
Proof.
  intros Hobs. destruct (handshake c k) eqn:H.
  - rewrite (connectAndRead_handshake k st H).
    apply after_messages_hasObs. exact Hobs.
  - rewrite (connectAndRead_no_handshake k st H). exact Hobs.
Qed.

(** The store after one turn of the loop of [Run]. *)
Lemma Run_cycle_collector (b : Z) (cy : cycle) (st : Client.state) :
  Client.collector (snd (Run_cycle c b cy st))
  = let k := Client.collector (snd (connectAndRead c (conn cy) st)) in
    if ctx_err cy then k else IncrReconnects (SetConnected k false).
Proof.
  unfold Run_cycle. destruct (connectAndRead c (conn cy) st) as [err st'].
  cbn [snd]. destruct (ctx_err cy); [reflexivity |].
  destruct (ctx_done cy); reflexivity.
Qed.

(** X15.  No message of the stream changes what is behind the health metrics
    and the labels: whatever the messages a read loop handles, the
    connection flag, the two counters, the station id and the station
    name are as before. *)
Theorem readLoop_leaves_health_and_labels
  (msgs : list string) (read_err : string) (st : Client.state) :
  health_and_labels (Client.collector (snd (readLoop c msgs read_err st)))
  = health_and_labels (Client.collector st).
Proof.
  rewrite readLoop_after_messages. cbn [snd]. apply after_messages_health.
Qed.

(** X16.  Only an [obs_st] and an [evt_precip] message can change the store: a
    message that does not parse, a lightning strike, a control message
    and a message of an unknown type leave it as it is. *)
Theorem store_changes_only_on_obs_st_and_evt_precip
  (data : string) (st : Client.state) :
  Client.collector (readLoop_message data st) <> Client.collector st ->
  exists envelope,
    json_Unmarshal_WSMessage data = Ok envelope
    /\ (WSMessage.Type_ envelope = "obs_st"
        \/ WSMessage.Type_ envelope = "evt_precip").
Proof.
  unfold readLoop_message.
  destruct (json_Unmarshal_WSMessage data) as [envelope | err].
  - intros Hne. exists envelope. split; [reflexivity |].
    destruct (String.eqb_spec (WSMessage.Type_ envelope) "obs_st") as [E | _];
      [left; exact E |].
    destruct (String.eqb_spec (WSMessage.Type_ envelope) "evt_strike") as [_ | _].
    + exfalso. apply Hne. unfold handleStrike. cases; reflexivity.
    + destruct (String.eqb_spec (WSMessage.Type_ envelope) "evt_precip") as [E | _];
        [right; exact E |].
      exfalso. apply Hne. cases; reflexivity.
  - intros Hne. exfalso. apply Hne. cbv zeta. cases; reflexivity.
Qed.

(** X17.  After a connection attempt the store says connected exactly when the
    handshake (dial, device id, subscription) succeeded, or when it said
    so before; and an attempt whose handshake fails changes nothing at
    all: no flag, no counter, no log record. *)
Theorem connectAndRead_marks_connected_after_handshake
  (k : connection) (st : Client.state) :
  connected (Client.collector (snd (connectAndRead c k st)))
  = handshake c k || connected (Client.collector st)
  /\ (handshake c k = false -> snd (connectAndRead c k st) = st).
Proof.
  split; [apply connectAndRead_connected | apply connectAndRead_no_handshake].
Qed.

(** X18.  The connection flag after one turn of [Run]: down after every turn
    that ends without cancellation; after a turn that ends with the
    context cancelled, [Run] returns at once and the flag stays as the
    connection attempt left it (up, if the handshake had succeeded). *)
Theorem Run_cycle_connected (b : Z) (cy : cycle) (st : Client.state) :
  connected (Client.collector (snd (Run_cycle c b cy st)))
  = if ctx_err cy
    then handshake c (conn cy) || connected (Client.collector st)
    else false.
Proof.
  rewrite Run_cycle_collector. cbv zeta.
  destruct (ctx_err cy); [apply connectAndRead_connected | reflexivity].
Qed.

End StreamStore.

Lemma store_changes_only_on_obs_st_and_evt_precip_witness :
  exists envelope,
    @json_Unmarshal_WSMessage example_library "{obs_st" = Ok envelope
    /\ (WSMessage.Type_ envelope = "obs_st"
        \/ WSMessage.Type_ envelope = "evt_precip").
Proof.
  apply (@store_changes_only_on_obs_st_and_evt_precip example_library
           "{obs_st" example_state).
  intros E. apply (f_equal hasObs) in E. discriminate E.
Defined.

(* ================================================================= *)
(** ** StreamConnector: the reconnect loop over any script *)

Section RunLoop.
Context {L : GoLibrary}.
Variable c : Client.t.

Lemma Run_cycle_end (b : Z) (cy : cycle) (st : Client.state) :
  fst (Run_cycle c b cy st)
  = if cancelled cy then returned
    else
      let w := if (2 * Minute <? since_start cy)%Z then Second else b in
      let b' := wrap64 (w * 2) in
      waited w (if (maxBackoff <? b')%Z then maxBackoff else b').
Proof.
  unfold Run_cycle, cancelled.
  destruct (connectAndRead c (conn cy) st) as [err st'].
  destruct (ctx_err cy); [reflexivity |].
  destruct (ctx_done cy); reflexivity.
Qed.

Lemma next_backoff_bounds (w : Z) :
  (Second <= w <= maxBackoff)%Z ->
  let b' := wrap64 (w * 2) in
  (Second <= (if (maxBackoff <? b')%Z then maxBackoff else b') <= maxBackoff)%Z.
Proof.
  unfold maxBackoff, Second. intros Hw. cbv zeta.
  rewrite wrap64_small by (unfold MinInt64, MaxInt64; lia).
  destruct (Z.ltb_spec (60 * 1000000000) (w * 2)); lia.
Qed.

Lemma Run_cycle_waited_bounds (b : Z) (cy : cycle) (st : Client.state)
      (w b' : Z) :
  (Second <= b <= maxBackoff)%Z ->
  fst (Run_cycle c b cy st) = waited w b' ->
  (Second <= w <= maxBackoff)%Z /\ (Second <= b' <= maxBackoff)%Z.
Proof.
  intros Hb. rewrite Run_cycle_end.
  destruct (cancelled cy); [discriminate |]. cbv zeta.
  intros E. injection E as <- <-.
  assert (Hw : (Second <= (if (2 * Minute <? since_start cy)%Z
                           then Second else b) <= maxBackoff)%Z).
  { destruct (2 * Minute <? since_start cy)%Z; [| exact Hb].
    unfold maxBackoff, Second. lia. }
  split; [exact Hw |]. exact (next_backoff_bounds Hw).
Qed.

Lemma Run_from_bounds (cycles : list cycle) :
  forall (b : Z) (st : Client.state) (slept : list Z),
    (Second <= b <= maxBackoff)%Z ->
    Forall (fun w => Second <= w <= maxBackoff)%Z slept ->
    let res := Run_from c b cycles st slept in
    Forall (fun w => Second <= w <= maxBackoff)%Z (waits res)
    /\ forall b', running res = Some b' -> (Second <= b' <= maxBackoff)%Z.
Proof.
  induction cycles as [| cy cycles IH]; intros b st slept Hb Hs; cbn.
  - split; [exact Hs |]. intros b' E. injection E as <-. exact Hb.
  - pose proof (@Run_cycle_waited_bounds b cy st) as Hc.
    destruct (Run_cycle c b cy st) as [[| w b2] st']; cbn.
    + split; [exact Hs | discriminate].
    + destruct (Hc w b2 Hb eq_refl) as [Hw Hb2].
      apply IH; [exact Hb2 |].
      apply Forall_app. split; [exact Hs |]. constructor; [exact Hw | constructor].
Qed.

Lemma Run_from_running (cycles : list cycle) :
  forall (b : Z) (st : Client.state) (slept : list Z),
    let res := Run_from c b cycles st slept in
    (existsb cancelled cycles = true -> running res = None)
    /\ (existsb cancelled cycles = false ->
        running res <> None
        /\ List.length (waits res)
           = (List.length slept + List.length cycles)%nat).
Proof.
  induction cycles as [| cy cycles IH]; intros b st slept; cbn.
  - split; [discriminate |]. intros _. split; [discriminate | lia].
  - pose proof (Run_cycle_end b cy st) as E.
    destruct (Run_cycle c b cy st) as [e st']. cbn [fst] in E. subst e.
    destruct (cancelled cy); cbn.
    + split; [reflexivity | discriminate].
    + cbv zeta.
      match goal with
      | |- context [Run_from c ?b2 cycles st' ?sl] =>
          destruct (IH b2 st' sl) as [A B]
      end.
      split; [exact A |]. intros Hno. destruct (B Hno) as [B1 B2].
      split; [exact B1 |]. rewrite B2, length_app. cbn. lia.
Qed.

Lemma Run_from_invariant (P : Collector -> Prop) (cycles : list cycle) :
  (forall b cy st, P (Client.collector st) ->
                   P (Client.collector (snd (Run_cycle c b cy st)))) ->
  forall (b : Z) (st : Client.state) (slept : list Z),
    P (Client.collector st) ->
    P (Client.collector (final (Run_from c b cycles st slept))).
Proof.
  intros Hstep.
  induction cycles as [| cy cycles IH]; intros b st slept HP; cbn; [exact HP |].
  pose proof (Hstep b cy st HP) as H1.
  destruct (Run_cycle c b cy st) as [[| w b2] st']; cbn in *; [exact H1 |].
  apply IH. exact H1.
Qed.

(** X19.  Every wait of [Run] is between one second and sixty, whatever the
    connections do and however long they last, and so is the backoff it
    holds for the next turn. *)
Theorem Run_waits_between_1s_and_60s (cycles : list cycle) (st : Client.state) :
  Forall (fun w => Second <= w <= maxBackoff)%Z (waits (Run c cycles st))
  /\ forall b, running (Run c cycles st) = Some b ->
               (Second <= b <= maxBackoff)%Z.
Proof.
  unfold Run. apply Run_from_bounds.
  - unfold maxBackoff, Second. lia.
  - constructor.
Qed.

(** X20.  [Run] returns only on cancellation: over a script with no cancelled
    cycle it is still running, having slept once after every cycle; with a
    cancelled cycle in the script it has returned. *)
Theorem Run_returns_only_on_cancellation (cycles : list cycle) (st : Client.state) :
  (existsb cancelled cycles = true -> running (Run c cycles st) = None)
  /\ (existsb cancelled cycles = false ->
      running (Run c cycles st) <> None
      /\ List.length (waits (Run c cycles st)) = List.length cycles).
Proof.
  unfold Run.
  destruct (Run_from_running cycles Second st []) as [A B].
  split; [exact A |]. intros H. destruct (B H) as [B1 B2].
  split; [exact B1 | exact B2].
Qed.

(** X21.  A device id that is no number is found only after the dial: every
    connection attempt fails before the subscription, so [Run] never marks
    the store connected and never stores an observation or a rain start,
    whatever the server sends. *)
Theorem Run_with_invalid_device_id (cycles : list cycle) (st : Client.state) :
  is_ok (strconv_Atoi (Client.deviceID c)) = false ->
  connected (Client.collector st) = false ->
  let k := Client.collector (final (Run c cycles st)) in
  connected k = false
  /\ hasObs k = hasObs (Client.collector st)
  /\ obs k = obs (Client.collector st)
  /\ rainStart k = rainStart (Client.collector st).
Proof.
  intros Hid Hdown. cbv zeta. unfold Run.
  apply (@Run_from_invariant
           (fun k => connected k = false
                     /\ hasObs k = hasObs (Client.collector st)
                     /\ obs k = obs (Client.collector st)
                     /\ rainStart k = rainStart (Client.collector st)));
    [| repeat split; assumption].
  intros b cy st0 (H1 & H2 & H3 & H4).
  rewrite Run_cycle_collector. cbv zeta.
  assert (Hh : handshake c (conn cy) = false).
  { unfold handshake. rewrite Hid. destruct (dial (conn cy) _); reflexivity. }
  rewrite (connectAndRead_no_handshake c (conn cy) st0 Hh).
  destruct (ctx_err cy); cbn; repeat split; assumption.
Qed.

(** X22.  The counter behind [tempest_scrape_errors_total] is never
    incremented by the stream client, nor are the labels changed: after
    any run of [Run] they are as at the start, so a collector made by
    [NewCollector] with a station id and a station name that are valid
    UTF-8 exports the counter with the value 0. *)
Theorem Run_never_counts_scrape_errors (cycles : list cycle) (st : Client.state) :
  let k := Client.collector (final (Run c cycles st)) in
  scrapeErrors k = scrapeErrors (Client.collector st)
  /\ stationID k = stationID (Client.collector st)
  /\ stationName k = stationName (Client.collector st)
  /\ (valid_labels (Client.collector st) = true ->
      scrapeErrors (Client.collector st) = 0%float ->
      In {| metric_desc := descScrapeErrors; metric_type := CounterValue;
            metric_value := 0%float;
            metric_labels := [stationID (Client.collector st);
                              stationName (Client.collector st)] |}
         (sent (Collect k))).
Proof.
  cbv zeta.
  assert (H : scrapeErrors (Client.collector (final (Run c cycles st)))
              = scrapeErrors (Client.collector st)
              /\ stationID (Client.collector (final (Run c cycles st)))
                 = stationID (Client.collector st)
              /\ stationName (Client.collector (final (Run c cycles st)))
                 = stationName (Client.collector st)).
  { unfold Run.
    apply (@Run_from_invariant
             (fun k => scrapeErrors k = scrapeErrors (Client.collector st)
                       /\ stationID k = stationID (Client.collector st)
                       /\ stationName k = stationName (Client.collector st)));
      [| repeat split].
    intros b cy st0 (H1 & H2 & H3).
    rewrite Run_cycle_collector. cbv zeta.
    destruct (connectAndRead_health c (conn cy) st0) as (_ & E1 & E2 & E3).
    destruct (ctx_err cy); cbn; rewrite ?E1, ?E2, ?E3; repeat split; assumption. }
  destruct H as (H1 & H2 & H3).
  split; [exact H1 |]. split; [exact H2 |]. split; [exact H3 |].
  intros Hl H0.
  assert (Hl' : valid_labels (Client.collector (final (Run c cycles st))) = true)
    by (unfold valid_labels in *; rewrite H2, H3; exact Hl).
  rewrite (Collect_valid _ Hl'). cbn [sent].
  destruct (scrape_health (Client.collector (final (Run c cycles st))))
    as [_ [rest ->]].
  apply in_or_app. left. unfold health_metrics.
  rewrite H1, H2, H3, H0. cbn. tauto.
Qed.

(** X23.  The parse-error counter is per connection: after a connection whose
    handshake succeeded it holds the number of messages of that connection
    whose envelope did not parse, whatever it held before. *)
Theorem parse_errors_are_counted_per_connection
  (k : connection) (st : Client.state) :
  handshake c k = true ->
  (Z.of_nat (List.length (messages k)) <= MaxInt64)%Z ->
  Client.parseErrors (snd (connectAndRead c k st))
  = Z.of_nat (List.length (filter unparseable (messages k))).
Proof.
  intros Hh Hlen. rewrite (connectAndRead_handshake c k st Hh).
  set (st0 := store_parseErrors 0 _).
  assert (G : forall msgs s,
             (0 <= Client.parseErrors s)%Z ->
             (Client.parseErrors s + Z.of_nat (List.length msgs) <= MaxInt64)%Z ->
             Client.parseErrors (after_messages msgs s)
             = (Client.parseErrors s
                + Z.of_nat (List.length (filter unparseable msgs)))%Z).
  { induction msgs as [| data msgs IH]; intros s H0 H1.
    - cbn. lia.
    - cbn [List.length] in H1. rewrite Nat2Z.inj_succ in H1.
      change (after_messages (data :: msgs) s)
        with (after_messages msgs (readLoop_message data s)).
      cbn [filter]. unfold unparseable at 1.
      destruct (json_Unmarshal_WSMessage data) as [envelope | e] eqn:E;
        cbn [is_err is_ok negb].
      + pose proof (readLoop_message_parsed data s E) as P.
        rewrite IH; rewrite P; lia.
      + destruct (@readLoop_message_unparseable L data s e E) as (P & _);
          [lia |].
        cbn [List.length]. rewrite Nat2Z.inj_succ.
        rewrite IH; rewrite P; lia. }
  rewrite G; change (Client.parseErrors st0) with 0%Z; lia.
Qed.

End RunLoop.

Lemma Run_with_invalid_device_id_witness :
  let c := NewClient "abc123secret" "not-a-number" in
  let k := Client.collector
             (final (@Run example_library c [late_cycle; quick_cycle]
                       example_state)) in
  connected k = false
  /\ hasObs k = false
  /\ obs k = Observation_zero
  /\ rainStart k = 0%float.
Proof.
  apply (@Run_with_invalid_device_id example_library
           (NewClient "abc123secret" "not-a-number")
           [late_cycle; quick_cycle] example_state).
  - reflexivity.
  - reflexivity.
Defined.

Lemma parse_errors_are_counted_per_connection_witness :
  Client.parseErrors state_after_41_errors = 41%Z
  /\ Client.parseErrors
       (snd (@connectAndRead example_library (NewClient "abc123secret" "12345")
               two_bad_messages state_after_41_errors)) = 2%Z.
Proof.
  split; [reflexivity |].
  apply (@parse_errors_are_counted_per_connection example_library
           (NewClient "abc123secret" "12345") two_bad_messages
           state_after_41_errors).
  - reflexivity.
  - unfold MaxInt64. cbn. lia.
Defined.

(* ================================================================= *)
(** ** PollingFallback: the answers of the network, and the store *)

Section FetchFacts.
Context {L : GoLibrary}.
Variable r : RESTClient.t.

Local Abbreviation url :=
  (RESTClient.baseURL r ++ "/observations/station/"
   ++ RESTClient.stationID r ++ "?token=" ++ RESTClient.token r).

Lemma substring_0_length (n : nat) (s : string) :
  (String.length (substring 0 n s) <= n)%nat.
Proof.
  revert s. induction n as [| n IH]; intros [| a s]; cbn; try lia.
  specialize (IH s). lia.
Qed.

Lemma substring_0_prefix (n : nat) (s : string) :
  prefix (substring 0 n s) s = true.
Proof.
  revert s. induction n as [| n IH]; intros [| a s]; try reflexivity.
  cbn [substring]. rewrite prefix_cons, Ascii.eqb_refl. apply IH.
Qed.

(** X24.  [FetchObservation] returns an observation exactly when the answer has
    the status 200, its body (the first MiB of it) decodes, and the
    decoded response holds an observation; the observation returned is
    then the first one of the response, converted. *)
Theorem FetchObservation_succeeds_exactly_when
  (get : string -> http_result) (o : Observation) :
  FetchObservation r get = Ok o
  <-> exists body result ro rest,
        get url = Response StatusOK body
        /\ json_Decode_restResponse (substring 0 maxResponseBytes body) = Ok result
        /\ restResponse.Obs result = ro :: rest
        /\ o = restObsToObservation ro.
Proof.
  unfold FetchObservation. split.
  - destruct (get url) as [err | err | status body]; try discriminate.
    destruct (Z.eqb_spec status StatusOK) as [-> | Hne]; cbn [negb];
      [| discriminate].
    destruct (json_Decode_restResponse (substring 0 maxResponseBytes body))
      as [result | err] eqn:Hdec; [| discriminate].
    destruct (restResponse.Obs result) as [| ro rest] eqn:Hobs; [discriminate |].
    intros E. injection E as <-.
    exists body, result, ro, rest. repeat split; assumption.
  - intros (body & result & ro & rest & -> & -> & -> & ->).
    rewrite Z.eqb_refl. reflexivity.
Qed.

(** X25.  An answer with another status than 200 is an error that names the
    status and quotes the body, its first 512 bytes at most. *)
Theorem FetchObservation_quotes_512_bytes_of_a_bad_status
  (get : string -> http_result) (status : Z) (body : string) :
  get url = Response status body ->
  status <> StatusOK ->
  exists excerpt,
    FetchObservation r get
    = Err ("unexpected status " ++ fmt_d status ++ ": " ++ excerpt)
    /\ prefix excerpt body = true
    /\ (String.length excerpt <= 512)%nat.
Proof.
  intros Hget Hne. exists (substring 0 512 body).
  split; [| split].
  - unfold FetchObservation. rewrite Hget.
    destruct (Z.eqb_spec status StatusOK); [contradiction | reflexivity].
  - apply substring_0_prefix.
  - apply substring_0_length.
Qed.

End FetchFacts.

Lemma FetchObservation_quotes_512_bytes_of_a_bad_status_witness :
  exists excerpt,
    @FetchObservation example_library (NewRESTClient "abc123secret" "99999")
      (fun _ => Response 503 "upstream unavailable")
    = Err ("unexpected status " ++ fmt_d 503 ++ ": " ++ excerpt)
    /\ prefix excerpt "upstream unavailable" = true
    /\ (String.length excerpt <= 512)%nat.
Proof.
  apply (@FetchObservation_quotes_512_bytes_of_a_bad_status example_library
           (NewRESTClient "abc123secret" "99999")
           (fun _ => Response 503 "upstream unavailable") 503
           "upstream unavailable").
  - reflexivity.
  - discriminate.
Defined.

Section FallbackStore.
Context {L : GoLibrary}.
Variable r : RESTClient.t.
Variable threshold : Z.

Local Ltac cases :=
  repeat match goal with
    | |- context [match ?x with _ => _ end] => destruct x eqn:?
    end.

(** The store after a tick: the flag the stream client wrote, and the
    observation of the fetch, if one succeeded. *)
Lemma RunFallback_tick_collector (t : tick) (st : RESTClient.state) :
  RESTClient.collector (snd (RunFallback_tick r threshold t st))
  = let k := SetConnected (RESTClient.collector st) (stream_connected t) in
    match fst (RunFallback_tick r threshold t st) with
    | fetched (Ok o) => UpdateObservation k o
    | _ => k
    end.
Proof.
  unfold RunFallback_tick, isConnected. cbn.
  destruct (stream_connected t); [reflexivity |].
  destruct (RESTClient.disconnectedSince st); [| reflexivity].
  destruct (clock t - z <? threshold)%Z; [reflexivity |].
  destruct (FetchObservation r (http t)); reflexivity.
Qed.

Lemma RunFallback_from_store (ticks : list tick) :
  forall st : RESTClient.state,
    let acts := fst (RunFallback_from r threshold ticks st) in
    let k := RESTClient.collector (snd (RunFallback_from r threshold ticks st)) in
    obs k = match last_fetched acts with
            | Some o => o
            | None => obs (RESTClient.collector st)
            end
    /\ hasObs k = match last_fetched acts with
                  | Some _ => true
                  | None => hasObs (RESTClient.collector st)
                  end
    /\ reconnects k = reconnects (RESTClient.collector st)
    /\ scrapeErrors k = scrapeErrors (RESTClient.collector st)
    /\ rainStart k = rainStart (RESTClient.collector st)
    /\ stationID k = stationID (RESTClient.collector st)
    /\ stationName k = stationName (RESTClient.collector st).
Proof.
  induction ticks as [| t ticks IH]; intros st; cbv zeta.
  - cbn. repeat split.
  - rewrite RunFallback_from_cons. cbn [fst snd last_fetched].
    destruct (IH (snd (RunFallback_tick r threshold t st)))
      as (I1 & I2 & I3 & I4 & I5 & I6 & I7).
    rewrite I1, I2, I3, I4, I5, I6, I7.
    rewrite RunFallback_tick_collector. cbv zeta.
    destruct (last_fetched (fst (RunFallback_from r threshold ticks
                                   (snd (RunFallback_tick r threshold t st)))));
      [repeat split; cases; reflexivity |].
    destruct (fst (RunFallback_tick r threshold t st)) as [| | | [o | e]];
      repeat split.
Qed.

(** X26.  The fallback keeps the observation of its last fetch that
    succeeded: a fetch that fails, and a tick without a fetch, leave the
    stored observation as it was.  It never changes the two counters, the
    rain start or the labels. *)
Theorem RunFallback_keeps_last_successful_fetch
  (ticks : list tick) (st : RESTClient.state) :
  let acts := fst (RunFallback_from r threshold ticks st) in
  let k := RESTClient.collector (snd (RunFallback_from r threshold ticks st)) in
  obs k = match last_fetched acts with
          | Some o => o
          | None => obs (RESTClient.collector st)
          end
  /\ hasObs k = match last_fetched acts with
                | Some _ => true
                | None => hasObs (RESTClient.collector st)
                end
  /\ reconnects k = reconnects (RESTClient.collector st)
  /\ scrapeErrors k = scrapeErrors (RESTClient.collector st)
  /\ rainStart k = rainStart (RESTClient.collector st)
  /\ stationID k = stationID (RESTClient.collector st)
  /\ stationName k = stationName (RESTClient.collector st).
Proof. apply RunFallback_from_store. Qed.

End FallbackStore.

(* ================================================================= *)
(** ** Readiness *)

Section Readiness.
Context {L : GoLibrary}.

Lemma readyz_status (k : Collector) :
  reply_status (readyz k) = StatusOK <-> hasObs k = true.
Proof.
  unfold readyz, HasObservation. destruct (hasObs k); cbn; split;
    intros H; try reflexivity; discriminate H.
Qed.

(** X27.  [/readyz] answers 503 on a new collector, 200 once an observation is
    stored, and never goes back: neither the stream client nor the
    fallback ever clears a stored observation; and the fallback makes the
    exporter ready with its first fetch that succeeds. *)
Theorem readyz_never_goes_back :
  (forall stationID stationName,
      readyz (NewCollector stationID stationName)
      = {| reply_status := StatusServiceUnavailable;
           reply_body := fmt_Fprintln "not ready: no observations received" |})
  /\ (forall k o, readyz (UpdateObservation k o)
                  = {| reply_status := StatusOK;
                       reply_body := fmt_Fprintln "ready" |})
  /\ (forall (c : Client.t) (cycles : list cycle) (st : Client.state),
         reply_status (readyz (Client.collector st)) = StatusOK ->
         reply_status (readyz (Client.collector (final (Run c cycles st))))
         = StatusOK)
  /\ (forall (r : RESTClient.t) (threshold : Z) (ticks : list tick)
             (st : RESTClient.state),
         let res := RunFallback_from r threshold ticks st in
         (reply_status (readyz (RESTClient.collector st)) = StatusOK
          \/ last_fetched (fst res) <> None) ->
         reply_status (readyz (RESTClient.collector (snd res))) = StatusOK).
Proof.
  split; [reflexivity |]. split; [reflexivity |]. split.
  - intros c cycles st H. rewrite readyz_status in H |- *. unfold Run.
    apply (@Run_from_invariant L c (fun k => hasObs k = true)); [| exact H].
    intros b cy st0 H0. rewrite Run_cycle_collector. cbv zeta.
    pose proof (connectAndRead_hasObs c (conn cy) st0 H0) as H1.
    destruct (ctx_err cy); [exact H1 | exact H1].
  - intros r threshold ticks st res H. subst res.
    rewrite readyz_status in H |- *.
    destruct (RunFallback_from_store r threshold ticks st) as (_ & E & _).
    rewrite E.
    destruct (last_fetched (fst (RunFallback_from r threshold ticks st)));
      [reflexivity |].
    destruct H as [H | H]; [exact H | contradiction].
Qed.

End Readiness.

(* ================================================================= *)
(** ** Start-up *)

Section StartUp.
Context {L : GoLibrary}.
Variable os_Getenv : string -> string.
Variable net_SplitHostPort : string -> option string.

Lemma all_bytes_has_byte (p : ascii -> bool) (s : string) (b : ascii) :
  all_bytes p s = true -> has_byte b s = true -> p b = true.
Proof.
  induction s as [| a s IH]; cbn; [discriminate |].
  intros H Hb. apply andb_true_iff in H as [Ha Hs].
  apply orb_true_iff in Hb as [E | Hb]; [| exact (IH Hs Hb)].
  apply Ascii.eqb_eq in E. subst b. exact Ha.
Qed.

(** X28.  When [main] goes on to serve, the settings it serves with have passed
    every check: the token, the device id and the station id are the
    values of the environment and none is empty (so [redactToken] never
    meets an empty token); the station name is the one of the environment,
    or [tempest] when that is empty, and is made of letters, digits,
    underscores, dots and hyphens only; the listen address is the one of
    the environment, or [:8080], and splits into host and port. *)
Theorem main_serves_with_checked_settings (showVersion : bool) (s : Settings.t) :
  main os_Getenv net_SplitHostPort showVersion = serve s ->
  showVersion = false
  /\ Settings.token s = os_Getenv "TEMPEST_TOKEN"
  /\ Settings.deviceID s = os_Getenv "TEMPEST_DEVICE_ID"
  /\ Settings.stationID s = os_Getenv "TEMPEST_STATION_ID"
  /\ Settings.token s <> "" /\ Settings.deviceID s <> ""
  /\ Settings.stationID s <> ""
  /\ Settings.stationName s
     = (if String.eqb (os_Getenv "TEMPEST_STATION_NAME") "" then "tempest"
        else os_Getenv "TEMPEST_STATION_NAME")
  /\ Settings.stationName s <> ""
  /\ (forall b, has_byte b (Settings.stationName s) = true ->
                station_name_byte b = true)
  /\ Settings.listenAddr s
     = (if String.eqb (os_Getenv "LISTEN_ADDR") "" then ":8080"
        else os_Getenv "LISTEN_ADDR")
  /\ net_SplitHostPort (Settings.listenAddr s) = None.
Proof.
  unfold main. destruct showVersion; [discriminate |].
  destruct (String.eqb_spec (os_Getenv "TEMPEST_TOKEN") "") as [| Ht];
    [discriminate |].
  destruct (String.eqb_spec (os_Getenv "TEMPEST_DEVICE_ID") "") as [| Hd];
    [discriminate |].
  destruct (String.eqb_spec (os_Getenv "TEMPEST_STATION_ID") "") as [| Hs];
    [discriminate |].
  cbn [orb]. cbv zeta.
  set (name := if String.eqb (os_Getenv "TEMPEST_STATION_NAME") "" then "tempest"
               else os_Getenv "TEMPEST_STATION_NAME").
  set (addr := if String.eqb (os_Getenv "LISTEN_ADDR") "" then ":8080"
               else os_Getenv "LISTEN_ADDR").
  destruct (validStationName name) eqn:Hv; cbn [negb]; [| discriminate].
  destruct (net_SplitHostPort addr) eqn:Ha; [discriminate |].
  intros E. injection E as <-. cbn.
  unfold validStationName in Hv. apply andb_true_iff in Hv as [Hne Hall].
  repeat split; try assumption; try reflexivity.
  - intros E. rewrite E in Hne. discriminate Hne.
  - intros b Hb. exact (all_bytes_has_byte _ _ _ Hall Hb).
Qed.

(** X29.  The device id is not checked at start-up beyond being non-empty: with
    the other settings in order [main] serves with any device id, and when
    it is no number every handshake of the stream client then fails, so
    that no connection attempt changes the store. *)
Theorem device_id_is_checked_only_when_connecting :
  let name := if String.eqb (os_Getenv "TEMPEST_STATION_NAME") "" then "tempest"
              else os_Getenv "TEMPEST_STATION_NAME" in
  let addr := if String.eqb (os_Getenv "LISTEN_ADDR") "" then ":8080"
              else os_Getenv "LISTEN_ADDR" in
  os_Getenv "TEMPEST_TOKEN" <> "" ->
  os_Getenv "TEMPEST_DEVICE_ID" <> "" ->
  os_Getenv "TEMPEST_STATION_ID" <> "" ->
  validStationName name = true ->
  net_SplitHostPort addr = None ->
  is_ok (strconv_Atoi (os_Getenv "TEMPEST_DEVICE_ID")) = false ->
  exists s,
    main os_Getenv net_SplitHostPort false = serve s
    /\ Settings.deviceID s = os_Getenv "TEMPEST_DEVICE_ID"
    /\ forall (k : connection) (st : Client.state),
         handshake (main_wsClient s) k = false
         /\ snd (connectAndRead (main_wsClient s) k st) = st.
Proof.
  intros name addr Ht Hd Hs Hn Ha Hid. unfold main.
  destruct (String.eqb_spec (os_Getenv "TEMPEST_TOKEN") "") as [| _];
    [contradiction |].
  destruct (String.eqb_spec (os_Getenv "TEMPEST_DEVICE_ID") "") as [| _];
    [contradiction |].
  destruct (String.eqb_spec (os_Getenv "TEMPEST_STATION_ID") "") as [| _];
    [contradiction |].
  cbn [orb]. cbv zeta. fold name addr. rewrite Hn, Ha. cbn [negb].
  eexists. split; [reflexivity |]. split; [reflexivity |].
  intros k st.
  assert (Hh : handshake (main_wsClient
                            {| Settings.token := os_Getenv "TEMPEST_TOKEN";
                               Settings.deviceID := os_Getenv "TEMPEST_DEVICE_ID";
                               Settings.stationID := os_Getenv "TEMPEST_STATION_ID";
                               Settings.stationName := name;
                               Settings.listenAddr := addr |}) k = false).
  { unfold handshake, main_wsClient, NewClient.
    cbn [Client.deviceID Settings.deviceID].
    rewrite Hid. destruct (dial k _); reflexivity. }
  split; [exact Hh |]. apply connectAndRead_no_handshake. exact Hh.
Qed.

End StartUp.

Lemma main_serves_with_checked_settings_witness :
  exists s,
    main (example_env "12345") any_address false = serve s
    /\ Settings.token s = "abc123secret"
    /\ Settings.stationName s = "tempest"
    /\ Settings.listenAddr s = ":8080"
    /\ (forall b, has_byte b (Settings.stationName s) = true ->
                  station_name_byte b = true).
Proof.
  eexists. split; [reflexivity |].
  destruct (@main_serves_with_checked_settings (example_env "12345")
              any_address false _ eq_refl)
    as (_ & Ht & _ & _ & _ & _ & _ & Hn & _ & Hb & Ha & _).
  split; [exact Ht |]. split; [exact Hn |]. split; [exact Ha | exact Hb].
Defined.

Lemma device_id_is_checked_only_when_connecting_witness :
  exists s,
    main (example_env "not-a-number") any_address false = serve s
    /\ Settings.deviceID s = "not-a-number"
    /\ forall (k : connection) (st : Client.state),
         @handshake example_library (main_wsClient s) k = false
         /\ snd (@connectAndRead example_library (main_wsClient s) k st) = st.
Proof.
  apply (@device_id_is_checked_only_when_connecting example_library
           (example_env "not-a-number") any_address).
  - discriminate.
  - discriminate.
  - discriminate.
  - reflexivity.
  - reflexivity.
  - reflexivity.
Defined.
